(** * DCMLab/annotation_workflow_template: the two workflow scripts

    A shallow embedding of [.github/workflows/update_pages.py] and
    [.github/workflows/concat_metadata.py], and the properties of the
    chart builder and of the metadata aggregator proved on it.

    Tables are pandas DataFrames.  A row is a finite map from column
    labels to cells, a table is its ordered list of column labels and its
    rows in order.  Library code (pandas, plotly, ms3, the Python runtime's
    float arithmetic) is not part of the repository: where a function of
    the scripts calls it, the call is a variable of the enclosing section
    and every theorem holds for all of its values. *)

From Stdlib Require Import ZArith QArith.
From stdpp Require Import base option list list_numbers sorting gmap strings pretty.

Set Default Proof Using "Type".

Local Open Scope Z_scope.

(** ** Cells and rows *)

(** A cell of a table.  [CNA] is the missing value (NaN, None),
    [CFrac] a [fractions.Fraction], [CFloat] a Python float, whose
    arithmetic is left abstract. *)
Inductive cell (float : Type) : Type :=
  | CNA
  | CBool (b : bool)
  | CInt (z : Z)
  | CFloat (f : float)
  | CFrac (q : Q)
  | CStr (s : string).

Arguments CNA {float}.
Arguments CBool {float} b.
Arguments CInt {float} z.
Arguments CFloat {float} f.
Arguments CFrac {float} q.
Arguments CStr {float} s.

Definition as_int {float} (c : cell float) : option Z :=
  match c with CInt z => Some z | _ => None end.

Definition as_str {float} (c : cell float) : option string :=
  match c with CStr s => Some s | _ => None end.

(** [r[c]] of a row: a label the row does not carry reads as missing. *)
Definition cell_at {float} (r : gmap string (cell float)) (c : string) : cell float :=
  default CNA (r !! c).

(** ** Strings as Python uses them here *)

Module Py.

(** [str.lower] and [str.upper] on the ASCII letters. *)
Definition lower_ascii (a : Ascii.ascii) : Ascii.ascii :=
  let n := Ascii.N_of_ascii a in
  if ((65 <=? n) && (n <=? 90))%N then Ascii.ascii_of_N (n + 32) else a.

Definition upper_ascii (a : Ascii.ascii) : Ascii.ascii :=
  let n := Ascii.N_of_ascii a in
  if ((97 <=? n) && (n <=? 122))%N then Ascii.ascii_of_N (n - 32) else a.

Fixpoint lower (s : string) : string :=
  match s with
  | EmptyString => EmptyString
  | String a s' => String (lower_ascii a) (lower s')
  end.

Fixpoint upper (s : string) : string :=
  match s with
  | EmptyString => EmptyString
  | String a s' => String (upper_ascii a) (upper s')
  end.

(** [needle in s]. *)
Fixpoint contains (needle s : string) : bool :=
  String.prefix needle s ||
  match s with
  | EmptyString => false
  | String _ s' => contains needle s'
  end.

(** [s.startswith(p)] and [s.endswith(p)]. *)
Definition startswith (s p : string) : bool := String.prefix p s.

Definition endswith (s p : string) : bool :=
  String.prefix (String.rev p) (String.rev s).

(** [range(a, b)]. *)
Definition range (a b : Z) : list Z := seqZ a (b - a).

(** [min] and [max] of a column of integers; an empty column has none. *)
Definition minimum (l : list Z) : option Z :=
  match l with
  | [] => None
  | x :: l' => Some (foldr Z.min x l')
  end.

Definition maximum (l : list Z) : option Z :=
  match l with
  | [] => None
  | x :: l' => Some (foldr Z.max x l')
  end.

(** [sep.join(l)]. *)
Fixpoint join (sep : string) (l : list string) : string :=
  match l with
  | [] => ""
  | x :: l' =>
      match l' with
      | [] => x
      | _ => x +:+ sep +:+ join sep l'
      end
  end.

End Py.

(** ** update_pages.py *)

Module UpdatePages.

(** A DataFrame without its row labels, which none of the functions
    below read. *)
Record DataFrame (float : Type) : Type := mkFrame {
  columns : list string;
  rows : list (gmap string (cell float));
}.

Arguments mkFrame {float} columns rows.
Arguments columns {float} d.
Arguments rows {float} d.

(** One vertical marker line of the chart. *)
Record shape (float : Type) : Type := mkShape {
  shape_type : string;
  x0 : cell float;
  y0 : Z;
  x1 : cell float;
  y1 : Z;
  line : list (string * string);
}.

Arguments mkShape {float} shape_type x0 y0 x1 y1 line.

(** The chart returned by [create_gantt]: the arguments handed to plotly's
    [figure_factory.create_gantt], and the layout entries, the shapes and the
    annotations the function puts on its result. *)
Record figure (float : Type) : Type := mkFigure {
  fig_data : DataFrame float;
  fig_colors : list (string * string);
  fig_title : string;
  fig_params : list (string * string);
  fig_layout : list (string * list (string * option string));
  fig_shapes : list (shape float);
  fig_annotations : option (list (list (string * string)));
}.

Arguments mkFigure {float} fig_data fig_colors fig_title fig_params fig_layout fig_shapes
  fig_annotations.
Arguments fig_data {float} f.
Arguments fig_colors {float} f.
Arguments fig_title {float} f.
Arguments fig_params {float} f.
Arguments fig_layout {float} f.
Arguments fig_shapes {float} f.
Arguments fig_annotations {float} f.

(** [d.update(u)] on dicts as lists of entries: the keys of [d] keep their
    place and take the value of [u], the other keys of [u] follow. *)
Definition dict_update {V} (d u : list (string * V)) : list (string * V) :=
  ((λ kv : string * V,
      (kv.1, default kv.2 (list_to_map (M := gmap string V) u !! kv.1))) <$> d)
  ++ filter (λ kv, kv.1 ∉ d.*1) u.

Definition PHRASEEND_LINES : list (string * string) :=
  [("color", "rgb(0, 0, 0)"); ("width", "0.2"); ("dash", "longdash")].

(** The dict [KEY_COLORS] as the module defines it. *)
Definition KEY_COLORS : list (string * string) :=
  [("applied", "rgb(228,26,28)");
   ("local", "rgb(55,126,184)");
   ("tonic of adjacent applied chord(s)", "rgb(77,175,74)")].

Definition Y_AXIS : string := "Tonicized keys".

Definition numeric_axis (task_column : string) : bool :=
  bool_decide (task_column = "semitones") || bool_decide (task_column = "fifths").

Section chart.

Variable float : Type.

(** [str.upper] of a text, and whether pandas gives a column the [.str]
    accessor: it does for an object column of texts and raises an
    AttributeError for a numeric one. *)
Variable str_upper : string → string.
Variable has_str_accessor : list (cell float) → bool.

(** What the module's dict [KEY_COLORS] holds when the function is called.
    plotly's [create_gantt] rewrites the dict it is given in place, so the
    values are those of the definition above only until the dict has been
    handed to plotly once. *)
Variable key_colors : list (string * string).

(** ms3's conversions between key names and the two numeric
    representations; [None] when the name is not a key. *)
Variable name2fifths : string → option Z.
Variable name2pc : string → option Z.
Variable fifths2name : Z → string.
Variable midi2name : Z → string.

(** Python's and numpy's float arithmetic. *)
Variable fnan : float.
Variable float_of_Z : Z → float.
Variable float_of_Q : Q → float.
Variable float_of_string : string → option float.
Variable fadd : float → float → float.
Variable fdiv : float → float → float.

(** [fractions.Fraction] of a string and of a float; [None] when it
    raises. *)
Variable frac : string → option Q.
Variable frac_of_float : float → option Q.

Local Abbreviation row := (gmap string (cell float)).
Local Abbreviation frame := (DataFrame float).

(** [df[c]]: the column, [None] for a label the table does not have. *)
Definition column (df : frame) (c : string) : option (list (cell float)) :=
  if bool_decide (c ∈ columns df)
  then Some ((λ r : row, cell_at r c) <$> rows df)
  else None.

(** A column of integers; [None] when some cell is not one. *)
Definition int_column (df : frame) (c : string) : option (list Z) :=
  column df c ≫= mapM as_int.

(** [df[c] = values], the values being as many as the rows. *)
Definition set_column (df : frame) (c : string) (values : list (cell float)) : frame :=
  mkFrame
    (if bool_decide (c ∈ columns df) then columns df else columns df ++ [c])
    (zip_with (λ (r : row) v, <[c := v]> r) (rows df) values).

(** The dict [{'Start': 0, 'Finish': 0, 'Resource': 'local', task_column: m}]. *)
Definition placeholder (task_column : string) (m : Z) : row :=
  <[task_column := CInt m]>
    (<["Resource" := CStr "local"]>
       (<["Finish" := CInt 0]> (<["Start" := CInt 0]> ∅))).

(** [pd.DataFrame.from_records] of the placeholders: no record, no column. *)
Definition from_records (task_column : string) (ms : list Z) : frame :=
  match ms with
  | [] => mkFrame [] []
  | _ => mkFrame (list_union ["Start"; "Finish"; "Resource"] [task_column])
                 (placeholder task_column <$> ms)
  end.

(** [pd.concat([a, b])]: the rows of [a] then those of [b], under the
    union of the columns. *)
Definition concat (a b : frame) : frame :=
  mkFrame (columns a ++ list_difference (columns b) (columns a))
          (rows a ++ rows b).

(** The integer read in the axis column of a row. *)
Definition axis_key (task_column : string) (r : row) : Z :=
  default 0 (as_int (cell_at r task_column)).

(** The order of [sort_values(task_column, ascending=False)] on an integer
    column.  pandas leaves the order of rows with equal keys to its
    sorting routine; a merge sort stands for it. *)
Definition axis_ge (task_column : string) (r1 r2 : row) : Prop :=
  axis_key task_column r2 ≤ axis_key task_column r1.

Global Instance axis_ge_dec tc r1 r2 : Decision (axis_ge tc r1 r2).
Proof. unfold axis_ge. apply _. Defined.

Definition sort_values_desc (task_column : string) (df : frame) : frame :=
  mkFrame (columns df) (merge_sort (axis_ge task_column) (rows df)).

(** The key [S.str.upper()] of a row in the free-text branch: the
    upper-cased text of a text, and no value (NaN) for any other cell. *)
Definition upper_key (task_column : string) (r : row) : option string :=
  str_upper <$> as_str (cell_at r task_column).

(** The order of [sort_values(task_column, ascending=False, key=...)]: the
    keys in descending order, the rows without a key last. *)
Definition upper_ge (task_column : string) (r1 r2 : row) : Prop :=
  match upper_key task_column r1, upper_key task_column r2 with
  | Some k1, Some k2 => String.le k2 k1
  | None, Some _ => False
  | _, None => True
  end.

Global Instance upper_ge_dec tc r1 r2 : Decision (upper_ge tc r1 r2).
Proof.
  unfold upper_ge. destruct (upper_key tc r1), (upper_key tc r2); apply _.
Defined.

(** Lines 72-87: the table after the [sort_and_fill] block. *)
Definition sort_and_fill_data (data : frame) (task_column : string) : option frame :=
  if numeric_axis task_column then
    values ← int_column data task_column;
    mi ← Py.minimum values;
    ma ← Py.maximum values;
    let mi := Z.min 0 mi in
    let complete := Py.range mi ma in
    let missing := filter (λ m, m ∉ values) complete in
    let missing_data := from_records task_column missing in
    Some (sort_values_desc task_column (concat data missing_data))
  else
    (* assuming task_column contains strings *)
    cells ← column data task_column;
    if has_str_accessor cells
    then Some (mkFrame (columns data) (merge_sort (upper_ge task_column) (rows data)))
    else None.

(** Lines 91-98: the axis column after the transposition by [globalkey].
    (Without [sort_and_fill] the assignment is made on the table of the
    caller; the value returned here is that table after it.) *)
Definition transpose_axis (data : frame) (task_column globalkey : string) : option frame :=
  if bool_decide (task_column = "fifths") then
    tonic ← name2fifths globalkey;
    values ← int_column data "fifths";
    let transposed := (λ v, v + tonic) <$> values in
    Some (set_column data "fifths" ((λ v, CStr (fifths2name v)) <$> transposed))
  else if bool_decide (task_column = "semitones") then
    tonic ← name2pc globalkey;
    values ← int_column data "semitones";
    let transposed := (λ v, v + tonic) <$> values in
    Some (set_column data "semitones" ((λ v, CStr (midi2name v)) <$> transposed))
  else Some data.

(** [out] has the rows of [data] in their order, the integer [v] in the axis
    column of each replaced by [new_axis v], and Start, Finish and Resource
    as they were. *)
Definition axis_replaced (new_axis : Z → cell float) (task_column : string)
    (data out : frame) : Prop :=
  length (rows out) = length (rows data) ∧
  Forall2 (λ r r' : row,
             (∃ v, cell_at r task_column = CInt v ∧ cell_at r' task_column = new_axis v) ∧
             cell_at r' "Start" = cell_at r "Start" ∧
             cell_at r' "Finish" = cell_at r "Finish" ∧
             cell_at r' "Resource" = cell_at r "Resource")
          (rows data) (rows out).

(** [data.rename(columns={old: new})]: the cells of [old] are the cells of
    [new] afterwards.  (A table that has a column [new] already would carry
    the label twice; the rows keep the renamed one.) *)
Definition rename_row (old new : string) (r : row) : row :=
  match r !! old with
  | Some v => <[new := v]> (delete old r)
  | None => delete new r
  end.

Definition rename_column (old new : string) (df : frame) : frame :=
  mkFrame ((λ c, if bool_decide (c = old) then new else c) <$> columns df)
          (rename_row old new <$> rows df).

Definition create_gantt (data : frame) (task_column title : string)
    (colors : list (string * string))
    (layout : option (list (string * list (string * option string))))
    (shapes : option (list (shape float)))
    (annotations : option (list (list (string * string)))) : figure float :=
  let data :=
    if bool_decide (task_column = "Task") then data
    else rename_column task_column "Task" data in
  let params :=
    [("group_tasks", "True"); ("index_col", "Resource"); ("show_colorbar", "True");
     ("showgrid_x", "True"); ("showgrid_y", "True")] in
  (* prevent Plotly from interpreting positions as dates *)
  let default_layout := [("xaxis", [("type", None)])] in
  let default_layout :=
    match layout with
    | Some layout => dict_update default_layout layout
    | None => default_layout
    end in
  mkFigure data colors title params default_layout (default [] shapes) annotations.

(** The table handed to [create_gantt] at line 186. *)
Definition modulation_plan_data (data : frame) (task_column : string)
    (sort_and_fill : bool) (globalkey : option string) : option frame :=
  data ← (if sort_and_fill then sort_and_fill_data data task_column else Some data);
  match globalkey with
  | Some k => transpose_axis data task_column k
  | None => Some data
  end.

Definition create_modulation_plan (data : frame) (task_column : string)
    (sort_and_fill : bool) (title : string) (globalkey : option string)
    (phraseends : option (list (cell float))) (colors : option (list (string * string)))
    : option (figure float) :=
  data ← modulation_plan_data data task_column sort_and_fill globalkey;
  let title :=
    match globalkey with
    | Some k => title +:+ " (" +:+ k +:+ ")"
    | None => title
    end in
  let ytitle :=
    if numeric_axis task_column then Y_AXIS +:+ " (" +:+ task_column +:+ ")" else Y_AXIS in
  let layout :=
    [("xaxis", [("type", None); ("title", Some "Measures")]);
     ("yaxis", [("title", Some ytitle)])] in
  let colors := default key_colors colors in
  let shapes :=
    (λ ps : list (cell float),
       (λ position, mkShape "line" position 0 position 20 PHRASEEND_LINES) <$> ps)
      <$> phraseends in
  Some (create_gantt data task_column title colors (Some layout) shapes None).

(** The three markers of a phrase ending: [r"\\"] (two backslashes),
    ["}"] and ["}{"]. *)
Definition PHRASEEND_TOKENS : list string := ["\\"; "}"; "}{"].

(** [at.phraseend.isin(...)], cell by cell. *)
Definition is_phraseend (c : cell float) : bool :=
  match c with
  | CStr s => bool_decide (s ∈ PHRASEEND_TOKENS)
  | _ => false
  end.

(** [.astype(float)], cell by cell; [None] when the cast raises. *)
Definition astype_float (c : cell float) : option float :=
  match c with
  | CNA => Some fnan
  | CBool b => Some (float_of_Z (if b then 1 else 0))
  | CInt z => Some (float_of_Z z)
  | CFloat f => Some f
  | CFrac q => Some (float_of_Q q)
  | CStr s => float_of_string s
  end.

(** [.map(frac)], cell by cell; a missing value is no fraction. *)
Definition map_frac (c : cell float) : option (cell float) :=
  match c with
  | CStr s => CFrac <$> frac s
  | CInt z => Some (CFrac (inject_Z z))
  | CBool b => Some (CFrac (inject_Z (if b then 1 else 0)))
  | CFrac q => Some (CFrac q)
  | CFloat f => CFrac <$> frac_of_float f
  | CNA => None
  end.

(** A cell of [at.mn] plus a float; a string cannot be added to a float. *)
Definition add_float (c : cell float) (f : float) : option float :=
  match c with
  | CStr _ => None
  | _ => (λ x, fadd x f) <$> astype_float c
  end.

(** [at.insert(at.columns.get_loc(c) + 1, new, values)]. *)
Fixpoint insert_after (c new : string) (cols : list string) : list string :=
  match cols with
  | [] => []
  | x :: cols' =>
      if bool_decide (x = c) then x :: new :: cols'
      else x :: insert_after c new cols'
  end.

Definition insert_column (df : frame) (after new : string) (values : list (cell float))
    : frame :=
  mkFrame (insert_after after new (columns df))
          (zip_with (λ (r : row) v, <[new := v]> r) (rows df) values).

(** [df.loc[mask, c].to_list()], the mask given row by row. *)
Definition loc_mask (df : frame) (mask : row → bool) (c : string)
    : option (list (cell float)) :=
  if bool_decide (c ∈ columns df)
  then Some ((λ r : row, cell_at r c) <$> filter (λ r, mask r = true) (rows df))
  else None.

(** Line 280: [at.mn + (at.mn_onset.astype(float) / at.timesig.map(frac).astype(float))]. *)
Definition mn_fraction_column (tab : frame) : option (list float) :=
  mn ← column tab "mn";
  mn_onset ← column tab "mn_onset" ≫= mapM astype_float;
  timesig ← (column tab "timesig" ≫= mapM map_frac) ≫= mapM astype_float;
  mapM (M := option) (λ p : cell float * float, add_float p.1 p.2)
       (zip mn (zip_with fdiv mn_onset timesig)).

(** [get_phraseends(at, column)]: the table as the call leaves it (it gains
    the column 'mn_fraction' when that is asked for and absent) and the
    returned list. *)
Definition get_phraseends (tab : frame) (column_ : string)
    : option (frame * list (cell float)) :=
  tab ←
    (if bool_decide (column_ = "mn_fraction")
        && negb (bool_decide ("mn_fraction" ∈ columns tab))
     then
       mn_fraction ← mn_fraction_column tab;
       Some (insert_column tab "mn" "mn_fraction" (CFloat <$> mn_fraction))
     else Some tab);
  if bool_decide ("phraseend" ∈ columns tab)
  then
    values ← loc_mask tab (λ r, is_phraseend (cell_at r "phraseend")) column_;
    Some (tab, values)
  else None.

(** The position of one row as the specification words it: the measure
    number plus the onset in the measure divided by the time signature read
    as a fraction. *)
Definition mn_fraction_of_row (r : row) : option float :=
  onset ← astype_float (cell_at r "mn_onset");
  timesig ← map_frac (cell_at r "timesig") ≫= astype_float;
  add_float (cell_at r "mn") (fdiv onset timesig).

End chart.

(** *** Values of the library functions for the examples

    ms3's conversions on key names made of a letter and sharps or flats, and
    rationals with one not-a-number value in the place of floats. *)

Definition example_steps : list (string * (Z * Z)) :=
  [("C", (0, 0)); ("D", (2, 2)); ("E", (4, 4)); ("F", (-1, 5));
   ("G", (1, 7)); ("A", (3, 9)); ("B", (5, 11))].

Fixpoint example_accidentals (sign : option bool) (s : string) : option Z :=
  match s with
  | EmptyString => Some 0
  | String a s' =>
      let sharp := bool_decide (String a "" = "#") in
      if (sharp || bool_decide (String a "" = "b"))
         && bool_decide (default sharp sign = sharp)
      then (λ n, if sharp then n + 1 else n - 1) <$> example_accidentals (Some sharp) s'
      else None
  end.

Definition example_split (s : string) : option ((Z * Z) * Z) :=
  match s with
  | EmptyString => None
  | String a s' =>
      step ← list_to_map (M := gmap string (Z * Z)) example_steps
               !! Py.upper (String a EmptyString);
      acc ← example_accidentals None s';
      Some (step, acc)
  end.

Definition example_name2fifths (s : string) : option Z :=
  (λ '(step, acc), step.1 + 7 * acc) <$> example_split s.

Definition example_name2pc (s : string) : option Z :=
  (λ '(step, acc), (step.2 + acc) `mod` 12) <$> example_split s.

Fixpoint example_repeat (n : nat) (a : string) : string :=
  match n with
  | O => ""
  | S n' => a +:+ example_repeat n' a
  end.

Definition example_fifths2name (f : Z) : string :=
  let f := f + 1 in
  default "" (["F"; "C"; "G"; "D"; "A"; "E"; "B"] !! Z.to_nat (f `mod` 7))
  +:+ (if bool_decide (f < 0) then example_repeat (Z.to_nat (Z.abs (f `div` 7))) "b"
       else example_repeat (Z.to_nat (f `div` 7)) "#").

Definition example_midi2name (m : Z) : string :=
  default "" (["C"; "C#/Db"; "D"; "D#/Eb"; "E"; "F"; "F#/Gb"; "G"; "G#/Ab"; "A"; "A#/Bb"; "B"]
                !! Z.to_nat (m `mod` 12)).

Definition example_float : Type := option Q.

(** Upper-casing of the ASCII letters, and the [.str] accessor for a column
    with a text in it. *)
Definition example_upper : string → string := Py.upper.

Definition example_has_str_accessor (cells : list (cell example_float)) : bool :=
  existsb (λ c, bool_decide (is_Some (as_str c))) cells.

Definition example_fadd (a b : example_float) : example_float :=
  x ← a; y ← b; Some (Qred (x + y)).

Definition example_fdiv (a b : example_float) : example_float :=
  x ← a; y ← b; if Qeq_bool y 0 then None else Some (Qred (x / y)).

(** One interval of a modulation plan, as ms3's [make_gantt_data] lists it. *)
Definition example_interval (start finish : Z) (resource : string) (semitones fifths : Z)
    : gmap string (cell example_float) :=
  <["fifths" := CInt fifths]>
    (<["semitones" := CInt semitones]>
       (<["Resource" := CStr resource]>
          (<["Finish" := CInt finish]> (<["Start" := CInt start]> ∅)))).

Definition example_columns : list string :=
  ["Start"; "Finish"; "Resource"; "semitones"; "fifths"].

(** Fifths -2 and 3 (B flat and A); semitones 10 and 9. *)
Definition example_plan : DataFrame example_float :=
  mkFrame example_columns
    [example_interval 0 4 "local" 10 (-2); example_interval 4 8 "applied" 9 3].

(** A single interval on the tonic. *)
Definition example_tonic : DataFrame example_float :=
  mkFrame example_columns [example_interval 0 4 "local" 0 0].

Definition example_fnan : example_float := None.

Definition example_float_of_Z (z : Z) : example_float := Some (inject_Z z).

Definition example_float_of_Q (q : Q) : example_float := Some (Qred q).

Definition example_float_of_string (s : string) : option example_float := None.

Definition example_frac_of_float (f : example_float) : option Q := f.

(** [Fraction] on the time signatures of the examples. *)
Definition example_frac (s : string) : option Q :=
  list_to_map (M := gmap string Q)
    [("4/4", 1%Q); ("3/4", (3 # 4)%Q); ("2/4", (1 # 2)%Q); ("6/8", (3 # 4)%Q)] !! s.

(** One row of an annotation table. *)
Definition example_label (mn : Z) (mn_onset : Q) (timesig : string)
    (phraseend : cell example_float) : gmap string (cell example_float) :=
  <["phraseend" := phraseend]>
    (<["timesig" := CStr timesig]>
       (<["mn_onset" := CFrac mn_onset]> (<["mn" := CInt mn]> ∅))).

Definition example_annotations : DataFrame example_float :=
  mkFrame ["mn"; "mn_onset"; "timesig"; "phraseend"]
    [example_label 1 0 "3/4" (CStr "{");
     example_label 2 (1 # 4) "3/4" CNA;
     example_label 4 (1 # 2) "3/4" (CStr "}{");
     example_label 8 0 "3/4" (CStr "\\");
     example_label 9 (1 # 4) "3/4" (CStr "\");
     example_label 12 (3 # 8) "6/8" (CStr "}")].

(** Intervals on a free-text axis: the keys as Roman numerals. *)
Definition example_numerals : DataFrame example_float :=
  mkFrame ["Start"; "Finish"; "Resource"; "numeral"]
    [<["numeral" := CStr "iv"]> (example_interval 0 4 "local" 5 (-1));
     <["numeral" := CStr "V"]> (example_interval 4 8 "applied" 7 1);
     example_interval 8 9 "local" 2 2;
     <["numeral" := CStr "I"]> (example_interval 9 12 "local" 0 0)].

(** *** The page of the charts *)

(** The quotation mark. *)
Definition DQ : string := String (Ascii.ascii_of_N 34) "".

(** Line 347: the frame that shows the chart stored as [f]. *)
Definition iframe (f : string) : string :=
  "<iframe id=" +:+ DQ +:+ "igraph" +:+ DQ
  +:+ " scrolling=" +:+ DQ +:+ "no" +:+ DQ
  +:+ " style=" +:+ DQ +:+ "border:none;" +:+ DQ
  +:+ " seamless=" +:+ DQ +:+ "seamless" +:+ DQ
  +:+ " src=" +:+ DQ +:+ "gantt/" +:+ f +:+ DQ
  +:+ " height=" +:+ DQ +:+ "600" +:+ DQ
  +:+ " width=" +:+ DQ +:+ "100%" +:+ DQ +:+ "></iframe>".

(** Lines 345-349 of [write_gantt_file]: the text of gantt.md for the names
    that [os.listdir] finds in the directory of the charts. *)
Definition gantt_file_content (listing : list string) : string :=
  let fnames := merge_sort String.le listing in
  Py.join (String (Ascii.ascii_of_N 10) "") (iframe <$> fnames).

End UpdatePages.

(** ** concat_metadata.py *)

Module ConcatMetadata.
Import UpdatePages (example_float).

(** A DataFrame with its row labels: a row is the labels of its index
    levels and its cells. *)
Record DataFrame (float : Type) : Type := mkFrame {
  columns : list string;
  index_names : list (option string);
  rows : list (list (cell float) * gmap string (cell float));
}.

Arguments mkFrame {float} columns index_names rows.
Arguments columns {float} d.
Arguments index_names {float} d.
Arguments rows {float} d.

(** The exceptions the script raises or lets through. *)
Inductive exn : Type :=
  | ValueError (msg : string)
  | TypeError
  | KeyError (key : string)
  | AttributeError
  | StopIteration
  | FileNotFoundError
  | ParserError.

Inductive result (A : Type) : Type :=
  | Ok (a : A)
  | Raise (e : exn).

Arguments Ok {A} a.
Arguments Raise {A} e.

Global Instance result_ret : MRet result := λ A a, Ok a.

Global Instance result_bind : MBind result := λ A B f m,
  match m with
  | Ok a => f a
  | Raise e => Raise e
  end.

Global Instance result_fmap : FMap result := λ A B f m,
  match m with
  | Ok a => Ok (f a)
  | Raise e => Raise e
  end.

(** [mapM] in [result]: the first failure is raised. *)
Fixpoint traverse {A B} (f : A → result B) (l : list A) : result (list B) :=
  match l with
  | [] => Ok []
  | x :: l' =>
      match f x with
      | Ok y =>
          match traverse f l' with
          | Ok ys => Ok (y :: ys)
          | Raise e => Raise e
          end
      | Raise e => Raise e
      end
  end.

Definition BOOLEAN_COLUMNS : list string := ["has_drumset"].

Definition LF : Ascii.ascii := Ascii.ascii_of_N 10.
Definition CR : Ascii.ascii := Ascii.ascii_of_N 13.

(** [os.path.join(a, b)] on POSIX. *)
Definition os_path_join (a b : string) : string :=
  if Py.startswith b "/" then b
  else if bool_decide (a = "") || Py.endswith a "/" then a +:+ b
  else a +:+ "/" +:+ b.

(** The text a file opened in text mode is read as: ["\r\n"] and ["\r"] are
    line ends. *)
Fixpoint universal_newlines (s : string) : string :=
  match s with
  | EmptyString => EmptyString
  | String a s' =>
      if bool_decide (a = CR) then
        match s' with
        | String b s'' =>
            if bool_decide (b = LF) then String LF (universal_newlines s'')
            else String LF (universal_newlines s')
        | EmptyString => String LF EmptyString
        end
      else String a (universal_newlines s')
  end.

(** The lines of a text, each with its line end. *)
Fixpoint split_lines (s : string) : list string :=
  match s with
  | EmptyString => []
  | String a s' =>
      if bool_decide (a = LF) then String a EmptyString :: split_lines s'
      else match split_lines s' with
           | [] => [String a EmptyString]
           | l :: ls => String a l :: ls
           end
  end.

(** [f.readlines()]. *)
Definition readlines (content : string) : list string :=
  split_lines (universal_newlines content).

Definition join_lines (lines : list string) : string :=
  foldr String.append "" lines.

(** [sorted(folders)]. *)
Definition sorted (l : list string) : list string := merge_sort String.le l.

(** pandas' default [na_values]. *)
Definition NA_VALUES : list string :=
  [""; "#N/A"; "#N/A N/A"; "#NA"; "-1.#IND"; "-1.#QNAN"; "-NaN"; "-nan"; "1.#IND";
   "1.#QNAN"; "<NA>"; "N/A"; "NA"; "NULL"; "NaN"; "None"; "n/a"; "nan"; "null"].

Definition SUBDIRECTORY_MESSAGE : string :=
  "Metadata is expected to come with a column called 'subdirectory' or (previously) 'rel_paths'.".

Definition FNAME_MESSAGE : string :=
  "Metadata is expected to come with a column called 'fname' or (previously) 'fnames'.".

(** [next(col for col in names if col in columns)]. *)
Definition first_present (names cols : list string) : option string :=
  head (filter (λ c, c ∈ cols) names).

(** The letters a to z. *)
Definition is_lower (a : Ascii.ascii) : bool :=
  let n := Ascii.N_of_ascii a in ((97 <=? n) && (n <=? 122))%N.

(** [s] is [w] in another letter case: the same text, some of the small
    letters of [w] written as capitals. *)
Inductive case_variant : string → string → Prop :=
  | case_variant_nil : case_variant "" ""
  | case_variant_same a s w :
      case_variant s w → case_variant (String a s) (String a w)
  | case_variant_capital a s w :
      is_lower a = true → case_variant s w →
      case_variant (String (Py.upper_ascii a) s) (String a w).

Section aggregator.

Variable float : Type.

(** [math.isnan] on floats. *)
Variable float_isnan : float → bool.

(** Python's [int(s)]; [None] when it raises. *)
Variable py_int : cell float → option Z.

(** pandas' parser of a tab-separated text: the header as [read_csv] names the
    columns and the fields of each line; [None] when it raises. *)
Variable parse_tsv : string → option (list string * list (list string)).

(** [.astype('boolean')] of a column; [None] when pandas raises the
    TypeError of values that are not bool-like. *)
Variable astype_boolean : list (cell float) → option (list (option bool)).

Local Abbreviation row := (gmap string (cell float)).
Local Abbreviation frame := (DataFrame float).

(** [df.to_csv(sep='\t', index=True)] and [str(df2md(df))], the text of a
    Markdown table with a header and a matrix of values. *)
Variable to_csv : frame → string.
Variable markdown_table : list string → list (list (cell float)) → string.

(** [repr(s)] and the text of [[type(val) for val in column]]. *)
Variable py_repr : string → string.
Variable repr_types : list (cell float) → string.

(** Lines 40-46. *)
Definition int2bool (s : cell float) : cell float :=
  let fallback :=
    match py_int s with
    | Some n => CBool (bool_decide (n ≠ 0))
    | None => s
    end in
  match s with
  | CStr str =>
      if bool_decide (Py.lower str ∈ ["t"; "true"; "f"; "false"])
      then CBool (bool_decide (Py.lower str ∈ ["t"; "true"]))
      else fallback
  | _ => fallback
  end.

(** ** The state the script runs in *)

(** The directories with the names of their immediate subdirectories, the
    regular files with their text, what was printed, and the DataFrame
    objects. *)
Record world : Type := mkWorld {
  dirs : gmap string (list string);
  files : gmap string string;
  stdout : list string;
  heap : gmap nat frame;
}.

Definition M (A : Type) : Type := world → world * result A.

Definition ret {A} (a : A) : M A := λ w, (w, Ok a).

Definition bind {A B} (m : M A) (f : A → M B) : M B := λ w,
  match m w with
  | (w', Ok a) => f a w'
  | (w', Raise e) => (w', Raise e)
  end.

Definition raise {A} (e : exn) : M A := λ w, (w, Raise e).

Definition lift {A} (r : result A) : M A := λ w, (w, r).

Definition print (line : string) : M unit := λ w,
  (mkWorld (dirs w) (files w) (stdout w ++ [line]) (heap w), Ok tt).

Definition write_file (path content : string) : M unit := λ w,
  (mkWorld (dirs w) (<[path := content]> (files w)) (stdout w) (heap w), Ok tt).

Definition read_world : M world := λ w, (w, Ok w).

(** A new object, and the object of a reference (every reference the
    script holds has one). *)
Definition alloc (df : frame) : M nat := λ w,
  let l := fresh (dom (heap w)) in
  (mkWorld (dirs w) (files w) (stdout w) (<[l := df]> (heap w)), Ok l).

Definition deref (l : nat) : M frame := λ w,
  match heap w !! l with
  | Some df => (w, Ok df)
  | None => (w, Raise (KeyError "object"))
  end.

Definition store (l : nat) (df : frame) : M unit := λ w,
  (mkWorld (dirs w) (files w) (stdout w) (<[l := df]> (heap w)), Ok tt).

Global Instance M_ret : MRet M := λ A a, ret a.
Global Instance M_bind : MBind M := λ A B f m, bind m f.

(** ** Loading and concatenating *)

(** [pd.read_csv(tsv_path, sep='\t', dtype='string', converters=converters)]:
    the cells of the boolean columns go through [int2bool], the other cells
    are strings or missing; the rows are labelled 0, 1, ... *)
Definition convert_field (c raw : string) : cell float :=
  if bool_decide (c ∈ BOOLEAN_COLUMNS) then int2bool (CStr raw)
  else if bool_decide (raw ∈ NA_VALUES) then CNA
  else CStr raw.

Definition read_csv (w : world) (tsv_path : string) : result frame :=
  match files w !! tsv_path with
  | None => Raise FileNotFoundError
  | Some content =>
      match parse_tsv content with
      | None => Raise ParserError
      | Some (header, lines) =>
          Ok (mkFrame header [None]
                (imap (λ i fields,
                         ([CInt (Z.of_nat i)],
                          list_to_map
                            (zip_with (λ c raw, (c, convert_field c raw)) header fields)))
                      lines))
      end
  end.

(** Lines 49-55: the subdirectories with a metadata.tsv, in sorted order. *)
Definition metadata_paths (w : world) (path : string) : result (list (string * string)) :=
  match dirs w !! path with
  | None => Raise StopIteration
  | Some folders =>
      Ok (filter (λ p, is_Some (files w !! p.1))
            ((λ subdir, (os_path_join (os_path_join path subdir) "metadata.tsv", subdir))
               <$> sorted folders))
  end.

(** [pd.concat(dfs, keys=keys)]: the rows of the tables one after the other,
    the key of its table in front of the labels of each row, under the union
    of the columns in the order of their first appearance.  (The
    AssertionError that the script reports and re-raises is pandas' for
    tables whose indexes differ in their number of levels, which a file
    with more fields in its lines than names in its header can bring about;
    [read_csv] gives every table the one level of the row numbers, so that
    error has no place in this model and nothing below speaks of it.) *)
Definition pd_concat (keys : list string) (dfs : list frame) : frame :=
  mkFrame (foldl (λ acc df, acc ++ list_difference (columns df) acc) [] dfs)
          [None; None]
          (mjoin (zip_with (λ key df,
                              (λ lr : list (cell float) * row, (CStr key :: lr.1, lr.2))
                                <$> rows df)
                           keys dfs)).

(** [os.path.join(corpus, rel_path)] for one row: the label of the first
    index level and the cell of the column must both be strings. *)
Definition join_corpus (col : string) (lr : list (cell float) * row) : result (cell float) :=
  match lr.1, cell_at lr.2 col with
  | CStr corpus :: _, CStr rel_path => Ok (CStr (os_path_join corpus rel_path))
  | _, _ => Raise TypeError
  end.

(** [df.loc[:, c] = values], the values being as many as the rows. *)
Definition set_column (df : frame) (c : string) (values : list (cell float)) : frame :=
  mkFrame (columns df) (index_names df)
          (zip_with (λ (lr : list (cell float) * row) v, (lr.1, <[c := v]> lr.2))
                    (rows df) values).

(** [df.droplevel(1)] followed by [df.index.rename(name, inplace=True)]. *)
Definition droplevel1 (df : frame) : frame :=
  mkFrame (columns df) (take 1 (index_names df) ++ drop 2 (index_names df))
          ((λ lr : list (cell float) * row, (take 1 lr.1 ++ drop 2 lr.1, lr.2)) <$> rows df).

Definition rename_index (name : string) (df : frame) : frame :=
  mkFrame (columns df) (Some name :: drop 1 (index_names df)) (rows df).

(** Lines 66-77: the relative paths of the concatenated table. *)
Definition prefix_paths (concatenated : frame) : result frame :=
  match first_present ["subdirectory"; "rel_paths"] (columns concatenated) with
  | None => Raise (ValueError SUBDIRECTORY_MESSAGE)
  | Some rel_path_col =>
      rel_paths ← traverse (join_corpus rel_path_col) (rows concatenated);
      let concatenated := set_column concatenated rel_path_col rel_paths in
      concatenated ←
        (if bool_decide ("rel_path" ∈ columns concatenated) then
           rel_paths ← traverse (join_corpus "rel_path") (rows concatenated);
           Ok (set_column concatenated "rel_path" rel_paths)
         else Ok concatenated);
      Ok (rename_index "corpus" (droplevel1 concatenated))
  end.

(** The rows of the loaded tables in the order of the concatenation, each
    with the subdirectory whose metadata.tsv it comes from. *)
Definition owned_rows (keys : list string) (dfs : list frame)
    : list (string * (list (cell float) * row)) :=
  mjoin (zip_with (λ key df, (λ lr : list (cell float) * row, (key, lr)) <$> rows df)
                  keys dfs).

(** What lines 70-76 make of one row of the concatenated table whose path
    cells are strings. *)
Definition prefix_row (col : string) (has_rel_path : bool)
    (lr : list (cell float) * row) : list (cell float) * row :=
  let corpus := default "" (head lr.1 ≫= as_str) in
  let joined c (r : row) := CStr (os_path_join corpus (default "" (as_str (cell_at r c)))) in
  let r1 := <[col := joined col lr.2]> lr.2 in
  let r2 := if has_rel_path then <["rel_path" := joined "rel_path" r1]> r1 else r1 in
  (take 1 lr.1 ++ drop 2 lr.1, r2).

Definition concat_metadata (w : world) (path : string) : result frame :=
  found ← metadata_paths w path;
  let tsv_paths := found.*1 in
  let keys := found.*2 in
  if bool_decide (length tsv_paths = 0%nat) then Ok (mkFrame [] [None] [])
  else
    dfs ← traverse (read_csv w) tsv_paths;
    prefix_paths (pd_concat keys dfs).

(** ** The Markdown overview *)

Definition NL : string := String LF EmptyString.

Definition rename4markdown (fname_col : string) : list (string * string) :=
  [(fname_col, "file_name"); ("last_mn", "measures"); ("label_count", "labels");
   ("harmony_version", "standard")].

(** The label of a column after [rename(columns=mapping)]. *)
Definition renamed (mapping : list (string * string)) (c : string) : string :=
  default c (list_to_map (M := gmap string string) mapping !! c).

(** [df[labels]] after the renaming: for each label the columns that carry
    it, a KeyError when there is none. *)
Definition columns_labelled (mapping : list (string * string)) (cols : list string)
    (label : string) : result (list (string * string)) :=
  match filter (λ c, renamed mapping c = label) cols with
  | [] => Raise (KeyError label)
  | found => Ok ((λ c : string, (label, c)) <$> found)
  end.

Definition select_renamed (mapping : list (string * string)) (cols labels : list string)
    : result (list (string * string)) :=
  match traverse (columns_labelled mapping cols) labels with
  | Ok found => Ok (mjoin found)
  | Raise e => Raise e
  end.

(** The label of a row on the first index level. *)
Definition level0 (lr : list (cell float) * row) : string :=
  default "" (head lr.1 ≫= as_str).

(** [df.groupby(level=0)]: the groups in the order of their keys. *)
Definition groupby_level0 (df : frame)
    : list (string * list (list (cell float) * row)) :=
  (λ key, (key, filter (λ lr, level0 lr = key) (rows df)))
    <$> sorted (remove_dups (level0 <$> rows df)).

(** [pd.isna] of a cell. *)
Definition isna (c : cell float) : bool :=
  match c with
  | CNA => true
  | CFloat f => float_isnan f
  | _ => false
  end.

(** [.fillna('')], cell by cell. *)
Definition fillna_empty (c : cell float) : cell float :=
  if isna c then CStr "" else c.

Definition metadata2markdown (concatenated : frame) : result string :=
  match first_present ["fname"; "fnames"] (columns concatenated) with
  | None => Raise (ValueError FNAME_MESSAGE)
  | Some fname_col =>
      let mapping := rename4markdown fname_col in
      selected ← select_renamed mapping (columns concatenated) mapping.*2;
      Ok (foldl (λ result '(corpus_name, group),
                   let heading := NL +:+ NL +:+ "### " +:+ corpus_name +:+ NL +:+ NL in
                   let md :=
                     markdown_table selected.*1
                       ((λ lr : list (cell float) * row,
                           (λ c, fillna_empty (cell_at lr.2 c)) <$> selected.*2)
                          <$> group) in
                   result +:+ heading +:+ md)
                "## Overview" (groupby_level0 concatenated))
  end.

(** Lines 118-123: what the loop over the old lines writes, its [else]
    branch included. *)
Fixpoint write_lines (lines : list string) : string :=
  match lines with
  | [] => NL +:+ NL
  | line :: lines' =>
      if Py.contains "# Overview" line then ""
      else line +:+ write_lines lines'
  end.

Definition write_md (md_str md_path : string) : M unit :=
  w ← read_world;
  let '(msg, lines) :=
    match files w !! md_path with
    | Some content => ("Updated", readlines content)
    | None => ("Created", [])
    end in
  write_file md_path (write_lines lines +:+ md_str);;
  print (msg +:+ " " +:+ md_path).

(** ** Writing the table *)

(** [.astype('Int64')] of a nullable boolean. *)
Definition astype_Int64 (b : option bool) : cell float :=
  match b with
  | Some true => CInt 1
  | Some false => CInt 0
  | None => CNA
  end.

Definition column_values (df : frame) (c : string) : list (cell float) :=
  (λ lr : list (cell float) * row, cell_at lr.2 c) <$> rows df.

(** [df.loc[:, c] = series], the series aligned on the rows. *)
Definition assign_column (df : frame) (c : string) (series : list (cell float)) : frame :=
  mkFrame (columns df) (index_names df)
          (imap (λ i (lr : list (cell float) * row),
                   (lr.1, <[c := default CNA (series !! i)]> lr.2))
                (rows df)).

(** The cells a series leaves in a column of [n] rows: a row the series
    does not reach gets the missing value. *)
Definition aligned (n : nat) (series : list (cell float)) : list (cell float) :=
  (λ i, default CNA (series !! i)) <$> seq 0 n.

(** [d'] is [d] with the columns [cols] that have a value re-encoded as
    nullable integers: those columns hold the integers of their nullable
    booleans, every other column (one outside [cols], one without a value)
    holds what it held, and the column labels, the index names and the row
    labels are those of [d]. *)
Definition reencoded (cols : list string) (d d' : frame) : Prop :=
  columns d' = columns d ∧
  index_names d' = index_names d ∧
  (rows d').*1 = (rows d).*1 ∧
  ∀ c,
    (c ∈ cols → forallb isna (column_values d c) = false →
     ∃ booleans,
       astype_boolean (column_values d c) = Some booleans ∧
       column_values d' c = aligned (length (rows d)) (astype_Int64 <$> booleans)) ∧
    (c ∉ cols ∨ forallb isna (column_values d c) = true →
     column_values d' c = column_values d c).

(** Lines 135-157: the loop over the boolean columns, on the object [df]. *)
Fixpoint convert_columns (df : nat) (boolean_columns : list string) : M unit :=
  match boolean_columns with
  | [] => ret tt
  | bc :: boolean_columns' =>
      d ← deref df;
      let values := column_values d bc in
      if forallb isna values then convert_columns df boolean_columns'
      else
        match astype_boolean values with
        | Some booleans =>
            store df (assign_column d bc (astype_Int64 <$> booleans));;
            print ("Transformed booleans in the column " +:+ bc +:+ " to integers.");;
            convert_columns df boolean_columns'
        | None =>
            print ("COLUMN " +:+ py_repr bc);;
            print (repr_types values);;
            raise TypeError
        end
  end.

(** [df] is a reference to a DataFrame or [None]. *)
Definition convert_booleans (df : option nat) (bool_columns : list string)
    : M (option nat) :=
  match df with
  | None => ret None
  | Some l =>
      d ← deref l;
      let boolean_columns := filter (λ c, c ∈ columns d) bool_columns in
      if bool_decide (length boolean_columns = 0%nat) then ret (Some l)
      else
        copy ← alloc d;
        convert_columns copy boolean_columns;;
        ret (Some copy)
  end.

Definition write_tsv (df : nat) (tsv_path : string) : M unit :=
  converted ← convert_booleans (Some df) BOOLEAN_COLUMNS;
  match converted with
  | None => raise AttributeError
  | Some l =>
      d ← deref l;
      write_file tsv_path (to_csv d);;
      print ("Concatenated metadata written to " +:+ tsv_path +:+ ".")
  end.

Record Args : Type := mkArgs { dir : string; out : string }.

Definition main (args : Args) : M unit :=
  w ← read_world;
  table ← lift (concat_metadata w (dir args));
  concatenated ← alloc table;
  if bool_decide (length (rows table) = 0%nat) then
    print ("No metadata found in the child directories of " +:+ dir args +:+ ".")
  else
    let tsv_path := os_path_join (out args) "concatenated_metadata.tsv" in
    write_tsv concatenated tsv_path;;
    table ← deref concatenated;
    md_str ← lift (metadata2markdown table);
    let md_path := os_path_join (out args) "README.md" in
    write_md md_str md_path.

End aggregator.

(** *** Values of the library functions for the examples

    Decimal integers with an optional sign for [int], lines of fields
    separated by tabs for the parser, columns of booleans and missing values
    for [astype('boolean')], and plain renderings of the tables. *)

Definition TAB : Ascii.ascii := Ascii.ascii_of_N 9.

Definition example_isnan (f : example_float) : bool :=
  match f with None => true | Some _ => false end.

Fixpoint example_digits (acc : Z) (s : string) : option Z :=
  match s with
  | EmptyString => Some acc
  | String a s' =>
      d ← Ascii.is_nat a;
      example_digits (10 * acc + Z.of_nat d) s'
  end.

Definition example_int (c : cell example_float) : option Z :=
  match c with
  | CInt z => Some z
  | CBool b => Some (if b then 1 else 0)
  | CStr (String a s' as s) =>
      if bool_decide (String a "" = "-") then
        (if bool_decide (s' = "") then None else Z.opp <$> example_digits 0 s')
      else if bool_decide (String a "" = "+") then
        (if bool_decide (s' = "") then None else example_digits 0 s')
      else example_digits 0 s
  | _ => None
  end.

(** The fields of a line: the texts between the separators. *)
Fixpoint example_fields (sep : Ascii.ascii) (s : string) : list string :=
  match s with
  | EmptyString => [""]
  | String a s' =>
      if bool_decide (a = sep) then "" :: example_fields sep s'
      else match example_fields sep s' with
           | [] => [String a ""]
           | f :: fs => String a f :: fs
           end
  end.

Definition example_parse_tsv (content : string)
    : option (list string * list (list string)) :=
  match filter (λ l, l ≠ "") (example_fields LF (universal_newlines content)) with
  | [] => None
  | header :: lines => Some (example_fields TAB header, example_fields TAB <$> lines)
  end.

Definition example_astype_boolean (values : list (cell example_float))
    : option (list (option bool)) :=
  mapM (λ c, match c with
             | CBool b => Some (Some b)
             | CNA => Some None
             | _ => None
             end) values.

Definition example_render (c : cell example_float) : string :=
  match c with
  | CStr s => s
  | CInt z => pretty z
  | CBool true => "True"
  | CBool false => "False"
  | _ => ""
  end.

Definition example_join (sep : string) (l : list string) : string :=
  match l with
  | [] => ""
  | x :: l' => foldl (λ acc y, acc +:+ sep +:+ y) x l'
  end.

Definition example_to_csv (df : DataFrame example_float) : string :=
  foldr (λ line acc, line +:+ String LF "" +:+ acc) ""
    (example_join (String TAB "") (default "" (mjoin (head (index_names df))) :: columns df)
     :: ((λ lr : list (cell example_float) * gmap string (cell example_float),
            example_join (String TAB "")
              ((example_render <$> lr.1)
               ++ ((λ c, example_render (cell_at lr.2 c)) <$> columns df)))
           <$> rows df)).

Definition example_markdown_table (header : list string)
    (matrix : list (list (cell example_float))) : string :=
  example_join (String LF "")
    (("|" +:+ example_join "|" header +:+ "|")
     :: ("|" +:+ example_join "|" ((λ _, "---") <$> header) +:+ "|")
     :: ((λ line, "|" +:+ example_join "|" (example_render <$> line) +:+ "|") <$> matrix)).

Definition example_repr (s : string) : string := "'" +:+ s +:+ "'".

Definition example_repr_types (values : list (cell example_float)) : string :=
  "[" +:+ example_join ", "
            ((λ c : cell example_float,
                match c with
                | CStr _ => "<class 'str'>"
                | CBool _ => "<class 'bool'>"
                | CInt _ => "<class 'int'>"
                | _ => "<class 'float'>"
                end) <$> values) +:+ "]".

(** The text of a file from its lines. *)
Definition example_text (lines : list string) : string :=
  foldr (λ line acc, line +:+ String LF "" +:+ acc) "" lines.

Definition example_line (fields : list string) : string :=
  example_join (String TAB "") fields.

Definition example_header : list string :=
  ["fname"; "rel_paths"; "has_drumset"; "last_mn"; "label_count"; "harmony_version"].

(** A repository with two corpora, a directory without metadata and a README
    with an overview. *)
Definition example_world : world example_float :=
  mkWorld example_float
    (<["/repo" := ["mozart"; "bach"; "docs"]]> ∅)
    (<["/repo/bach/metadata.tsv" :=
         example_text [example_line example_header;
                       example_line ["BWV806"; "MS3"; "F"; "120"; "231"; "2.3.0"]]]>
       (<["/repo/mozart/metadata.tsv" :=
            example_text [example_line example_header;
                          example_line ["K279-1"; "MS3"; "0"; "100"; "187"; "2.3.0"];
                          example_line ["K279-2"; "MS3"; "true"; "74"; "98"; "2.3.0"]]]>
          (<["/repo/README.md" :=
               example_text ["# Corpora"; ""; "Two composers."; ""; "## Overview"; ""; "old"]]>
             ∅)))
    []
    ∅.

(** A directory whose subdirectories have no metadata.tsv. *)
Definition example_bare_world : world example_float :=
  mkWorld example_float
    (<["/bare" := ["src"; "docs"]]> ∅)
    (<["/bare/docs/index.md" := "text"]> ∅)
    []
    ∅.

Definition example_args : Args := mkArgs "/repo" "/repo".

(** A corpus whose metadata has no path column. *)
Definition example_world_without_paths : world example_float :=
  mkWorld example_float
    (<["/plain" := ["a"]]> ∅)
    (<["/plain/a/metadata.tsv" :=
         example_text [example_line ["fname"; "last_mn"]; example_line ["x"; "12"]]]> ∅)
    []
    ∅.

(** A table with a path column and no file name column. *)
Definition example_table_without_fname : DataFrame example_float :=
  mkFrame ["rel_paths"; "last_mn"] [Some "corpus"]
    [([CStr "a"], <["last_mn" := CStr "12"]> (<["rel_paths" := CStr "a/MS3"]> ∅))].

(** A table with a boolean column that has a value and a missing one, and
    the world in which it is the object 0. *)
Definition example_table_with_booleans : DataFrame example_float :=
  mkFrame ["fname"; "has_drumset"] [Some "corpus"]
    [([CStr "a"], <["has_drumset" := CBool true]> (<["fname" := CStr "x"]> ∅));
     ([CStr "a"], <["has_drumset" := CNA]> (<["fname" := CStr "y"]> ∅));
     ([CStr "b"], <["has_drumset" := CBool false]> (<["fname" := CStr "z"]> ∅))].

Definition example_world_with_table : world example_float :=
  mkWorld example_float ∅ ∅ [] (<[0%nat := example_table_with_booleans]> ∅).

(** A corpus whose metadata gives an absolute path. *)
Definition example_world_with_absolute_path : world example_float :=
  mkWorld example_float
    (<["/abs" := ["a"]]> ∅)
    (<["/abs/a/metadata.tsv" :=
         example_text [example_line ["fname"; "rel_paths"];
                       example_line ["x"; "/srv/MS3"]]]> ∅)
    []
    ∅.

End ConcatMetadata.

(** ** Properties of update_pages.py *)

Module UpdatePagesSpec.
Import UpdatePages.

Lemma foldr_min_spec (x : Z) (l : list Z) :
  foldr Z.min x l ∈ x :: l ∧ ∀ v, v ∈ x :: l → foldr Z.min x l ≤ v.
Proof.
  induction l as [|y l [IHin IHle]]; simpl.
  - split; [left|]. intros v Hv. apply list_elem_of_singleton in Hv. lia.
  - split.
    + destruct (Z.min_spec y (foldr Z.min x l)) as [[_ ->]|[_ ->]].
      * right; left.
      * apply elem_of_cons in IHin as [->|Hin]; [left|right; right; exact Hin].
    + intros v Hv. apply elem_of_cons in Hv as [->|Hv].
      * specialize (IHle x ltac:(left)). lia.
      * apply elem_of_cons in Hv as [->|Hv]; [lia|].
        specialize (IHle v ltac:(right; exact Hv)). lia.
Qed.

Lemma foldr_max_spec (x : Z) (l : list Z) :
  foldr Z.max x l ∈ x :: l ∧ ∀ v, v ∈ x :: l → v ≤ foldr Z.max x l.
Proof.
  induction l as [|y l [IHin IHle]]; simpl.
  - split; [left|]. intros v Hv. apply list_elem_of_singleton in Hv. lia.
  - split.
    + destruct (Z.max_spec y (foldr Z.max x l)) as [[_ ->]|[_ ->]].
      * apply elem_of_cons in IHin as [->|Hin]; [left|right; right; exact Hin].
      * right; left.
    + intros v Hv. apply elem_of_cons in Hv as [->|Hv].
      * specialize (IHle x ltac:(left)). lia.
      * apply elem_of_cons in Hv as [->|Hv]; [lia|].
        specialize (IHle v ltac:(right; exact Hv)). lia.
Qed.

Lemma minimum_spec (l : list Z) (mi : Z) :
  Py.minimum l = Some mi → mi ∈ l ∧ ∀ v, v ∈ l → mi ≤ v.
Proof.
  destruct l as [|x l]; [discriminate|]. intros [= <-]. apply foldr_min_spec.
Qed.

Lemma maximum_spec (l : list Z) (ma : Z) :
  Py.maximum l = Some ma → ma ∈ l ∧ ∀ v, v ∈ l → v ≤ ma.
Proof.
  destruct l as [|x l]; [discriminate|]. intros [= <-]. apply foldr_max_spec.
Qed.

Lemma minimum_is_Some (l : list Z) : l ≠ [] → is_Some (Py.minimum l).
Proof. destruct l; [done|]. intros _. by eexists. Qed.

Lemma maximum_is_Some (l : list Z) : l ≠ [] → is_Some (Py.maximum l).
Proof. destruct l; [done|]. intros _. by eexists. Qed.

Lemma numeric_axis_cases (tc : string) :
  numeric_axis tc = true → tc = "semitones" ∨ tc = "fifths".
Proof.
  unfold numeric_axis. intros H. apply orb_true_iff in H as [H|H];
    apply bool_decide_eq_true in H; auto.
Qed.

Lemma filter_none {A} (P : A → Prop) `{∀ x, Decision (P x)} (l : list A) :
  (∀ x, x ∈ l → ¬ P x) → filter P l = [].
Proof.
  induction l as [|x l IH]; [done|]. intros Hall.
  rewrite filter_cons_False by (apply Hall; left).
  apply IH. intros y Hy. apply Hall. by right.
Qed.

Lemma filter_eq_NoDup (l : list Z) (m : Z) :
  NoDup l → m ∈ l → filter (λ x, x = m) l = [m].
Proof.
  induction 1 as [|x l Hx Hnd IH]; [by intros ?%elem_of_nil|].
  intros Hin. rewrite filter_cons. case_decide as Hxm.
  - subst x. f_equal. apply filter_none. intros y Hy ->. done.
  - apply elem_of_cons in Hin as [->|Hin]; [done|]. by apply IH.
Qed.

Lemma insert_after_elem (c new : string) (cols : list string) (x : string) :
  c ∈ cols → x ∈ insert_after c new cols ↔ x = new ∨ x ∈ cols.
Proof.
  induction cols as [|y cols IH]; [by intros ?%elem_of_nil|].
  intros Hc. simpl. case_bool_decide as Hy.
  - rewrite !elem_of_cons. split; [intros [?|[?|?]]|intros [?|[?|?]]]; auto.
  - apply elem_of_cons in Hc as [->|Hc]; [done|].
    rewrite !elem_of_cons, IH by done.
    split; [intros [?|[?|?]]|intros [?|[?|?]]]; auto.
Qed.

Section chart_properties.

Variable float : Type.
Variable str_upper : string → string.
Variable has_str_accessor : list (cell float) → bool.
Variable key_colors : list (string * string).
Variable name2fifths : string → option Z.
Variable name2pc : string → option Z.
Variable fifths2name : Z → string.
Variable midi2name : Z → string.
Variable fnan : float.
Variable float_of_Z : Z → float.
Variable float_of_Q : Q → float.
Variable float_of_string : string → option float.
Variable fadd : float → float → float.
Variable fdiv : float → float → float.
Variable frac : string → option Q.
Variable frac_of_float : float → option Q.

Local Abbreviation row := (gmap string (cell float)).
Local Abbreviation frame := (DataFrame float).

Global Instance axis_ge_trans tc : Transitive (axis_ge float tc).
Proof. intros x y z. unfold axis_ge. lia. Qed.

Global Instance axis_ge_total tc : Total (axis_ge float tc).
Proof. intros x y. unfold axis_ge. lia. Qed.

Lemma placeholder_axis (tc : string) (m : Z) :
  cell_at (placeholder float tc m) tc = CInt m.
Proof. unfold cell_at, placeholder. by rewrite lookup_insert_eq. Qed.

Lemma placeholder_fields (tc : string) (m : Z) :
  numeric_axis tc = true →
  cell_at (placeholder float tc m) "Start" = CInt 0 ∧
  cell_at (placeholder float tc m) "Finish" = CInt 0 ∧
  cell_at (placeholder float tc m) "Resource" = CStr "local".
Proof.
  intros [-> | ->]%numeric_axis_cases; by vm_compute.
Qed.

Lemma rows_from_records (tc : string) (ms : list Z) :
  rows (from_records float tc ms) = placeholder float tc <$> ms.
Proof. by destruct ms. Qed.

Lemma int_column_rows (df : frame) (tc : string) (values : list Z) :
  int_column float df tc = Some values →
  tc ∈ columns df ∧
  Forall2 (λ (r : row) v, cell_at r tc = CInt v) (rows df) values.
Proof.
  unfold int_column, column. case_bool_decide as Hin; [|done]. simpl.
  intros Hm. split; [done|]. apply mapM_Some_1 in Hm.
  apply Forall2_fmap_l in Hm. eapply Forall2_impl; [exact Hm|].
  intros r v. simpl. unfold as_int. by destruct (cell_at r tc); intros [= ->].
Qed.

Lemma filter_placeholders (tc : string) (ms : list Z) (m : Z) :
  filter (λ r : row, as_int (cell_at r tc) = Some m) (placeholder float tc <$> ms)
  = placeholder float tc <$> filter (λ x, x = m) ms.
Proof.
  induction ms as [|x ms IH]; [done|].
  rewrite fmap_cons, !filter_cons, IH, placeholder_axis. simpl.
  repeat case_decide; simplify_eq; done.
Qed.

(** The table after the [sort_and_fill] block on an integer axis: the rows of
    the input and one placeholder for each integer of [range(min(0, mi), ma)]
    that the axis column lacks, in the order of the final sort. *)
Lemma sort_and_fill_numeric (data : frame) (tc : string) (values : list Z) (mi ma : Z) :
  numeric_axis tc = true →
  int_column float data tc = Some values →
  Py.minimum values = Some mi →
  Py.maximum values = Some ma →
  let missing := filter (λ m, m ∉ values) (Py.range (Z.min 0 mi) ma) in
  sort_and_fill_data float str_upper has_str_accessor data tc
  = Some (mkFrame
            (columns data ++ list_difference (columns (from_records float tc missing)) (columns data))
            (merge_sort (axis_ge float tc) (rows data ++ (placeholder float tc <$> missing)))).
Proof.
  intros Hnum Hvals Hmi Hma. unfold sort_and_fill_data.
  rewrite Hnum, Hvals. simpl. rewrite Hmi, Hma. simpl.
  unfold sort_values_desc, concat. simpl. by rewrite rows_from_records.
Qed.

Lemma missing_range (values : list Z) (mi ma m : Z) :
  ma ∈ values →
  m ∈ filter (λ m, m ∉ values) (Py.range (Z.min 0 mi) ma)
  ↔ (Z.min 0 mi ≤ m ≤ ma ∧ m ∉ values).
Proof.
  intros Hma. rewrite list_elem_of_filter. unfold Py.range. rewrite elem_of_seqZ.
  split.
  - intros [Hn Hr]. split; [lia|done].
  - intros [Hr Hn]. split; [done|].
    destruct (decide (m = ma)) as [->|]; [done|lia].
Qed.

Lemma plan_data_without_key (data filled : frame) (tc title : string)
    (phraseends : option (list (cell float))) (colors : option (list (string * string))) :
  numeric_axis tc = true →
  sort_and_fill_data float str_upper has_str_accessor data tc = Some filled →
  fig_data <$> create_modulation_plan float str_upper has_str_accessor key_colors
      name2fifths name2pc fifths2name midi2name
                 data tc true title None phraseends colors
  = Some (rename_column float tc "Task" filled).
Proof.
  intros Hnum Hfill. unfold create_modulation_plan, modulation_plan_data.
  rewrite Hfill. simpl. unfold create_gantt. simpl.
  apply numeric_axis_cases in Hnum as [-> | ->]; by rewrite bool_decide_eq_false_2.
Qed.

(** C1: on an integer axis 'semitones' or 'fifths', [sort_and_fill] adds, for
    each integer from min(0, smallest axis value) to the largest axis value
    that the axis column lacks, exactly one placeholder row with Start 0,
    Finish 0, Resource 'local' and that integer in the axis column; nothing
    else is added. *)
Theorem create_modulation_plan_fills_gaps (data : frame) (tc title : string)
    (phraseends : option (list (cell float))) (colors : option (list (string * string)))
    (values : list Z) :
  numeric_axis tc = true →
  int_column float data tc = Some values →
  values ≠ [] →
  ∃ (mi ma : Z) (missing : list Z) (filled : frame),
    (mi ∈ values ∧ ∀ v, v ∈ values → mi ≤ v) ∧
    (ma ∈ values ∧ ∀ v, v ∈ values → v ≤ ma) ∧
    sort_and_fill_data float str_upper has_str_accessor data tc = Some filled ∧
    fig_data <$> create_modulation_plan float str_upper has_str_accessor key_colors
        name2fifths name2pc fifths2name midi2name
                   data tc true title None phraseends colors
    = Some (rename_column float tc "Task" filled) ∧
    NoDup missing ∧
    (∀ m, m ∈ missing ↔ Z.min 0 mi ≤ m ≤ ma ∧ m ∉ values) ∧
    rows filled ≡ₚ rows data ++ (placeholder float tc <$> missing) ∧
    (∀ m, m ∈ missing →
       filter (λ r : row, as_int (cell_at r tc) = Some m) (rows filled)
       = [placeholder float tc m] ∧
       cell_at (placeholder float tc m) tc = CInt m ∧
       cell_at (placeholder float tc m) "Start" = CInt 0 ∧
       cell_at (placeholder float tc m) "Finish" = CInt 0 ∧
       cell_at (placeholder float tc m) "Resource" = CStr "local").
Proof.
  intros Hnum Hvals Hne.
  destruct (minimum_is_Some values Hne) as [mi Hmi].
  destruct (maximum_is_Some values Hne) as [ma Hma].
  pose proof (minimum_spec _ _ Hmi) as Hmis.
  pose proof (maximum_spec _ _ Hma) as Hmas.
  pose proof (sort_and_fill_numeric data tc values mi ma Hnum Hvals Hmi Hma) as Hfill.
  simpl in Hfill.
  set (missing := filter (λ m, m ∉ values) (Py.range (Z.min 0 mi) ma)) in *.
  assert (Hnd : NoDup missing) by (apply NoDup_filter, NoDup_seqZ).
  eexists mi, ma, missing, _.
  split; [exact Hmis|]. split; [exact Hmas|]. split; [exact Hfill|].
  split; [by eapply plan_data_without_key|].
  split; [exact Hnd|].
  split; [intros m; apply missing_range, Hmas|].
  split; [apply merge_sort_Permutation|].
  intros m Hm. split.
  - apply Permutation_singleton_r. simpl.
    rewrite (merge_sort_Permutation (axis_ge float tc)).
    rewrite filter_app, filter_placeholders, filter_eq_NoDup by done.
    rewrite filter_none; [done|].
    intros r Hr Hrm. apply int_column_rows in Hvals as [_ Hrows].
    apply list_elem_of_lookup in Hr as [i Hi].
    destruct (Forall2_lookup_l _ _ _ _ _ Hrows Hi) as (v & Hv & Hcell).
    rewrite Hcell in Hrm. simpl in Hrm. injection Hrm as ->.
    apply missing_range in Hm as [_ Hm]; [|apply Hmas].
    apply Hm. apply list_elem_of_lookup. eauto.
  - split; [apply placeholder_axis|]. by apply placeholder_fields.
Qed.

(** C9: on an integer axis 'semitones' or 'fifths', [sort_and_fill] hands to
    the chart the rows of the input together with the placeholders, one for
    each integer from min(0, smallest axis value) to the largest axis value
    that the axis column lacks, sorted by the axis column in descending
    numeric order. *)
Theorem create_modulation_plan_sorts_descending (data : frame) (tc title : string)
    (phraseends : option (list (cell float))) (colors : option (list (string * string)))
    (values : list Z) :
  numeric_axis tc = true →
  int_column float data tc = Some values →
  values ≠ [] →
  ∃ (mi ma : Z) (missing keys : list Z) (filled : frame),
    (mi ∈ values ∧ ∀ v, v ∈ values → mi ≤ v) ∧
    (ma ∈ values ∧ ∀ v, v ∈ values → v ≤ ma) ∧
    sort_and_fill_data float str_upper has_str_accessor data tc = Some filled ∧
    fig_data <$> create_modulation_plan float str_upper has_str_accessor key_colors
                   name2fifths name2pc fifths2name midi2name
                   data tc true title None phraseends colors
    = Some (rename_column float tc "Task" filled) ∧
    NoDup missing ∧
    (∀ m, m ∈ missing ↔ Z.min 0 mi ≤ m ≤ ma ∧ m ∉ values) ∧
    rows filled ≡ₚ rows data ++ (placeholder float tc <$> missing) ∧
    Forall2 (λ (r : row) k, cell_at r tc = CInt k) (rows filled) keys ∧
    StronglySorted (λ a b, b ≤ a) keys.
Proof.
  intros Hnum Hvals Hne.
  destruct (minimum_is_Some values Hne) as [mi Hmi].
  destruct (maximum_is_Some values Hne) as [ma Hma].
  pose proof (minimum_spec _ _ Hmi) as Hmis.
  pose proof (maximum_spec _ _ Hma) as Hmas.
  pose proof (sort_and_fill_numeric data tc values mi ma Hnum Hvals Hmi Hma) as Hfill.
  simpl in Hfill.
  set (missing := filter (λ m, m ∉ values) (Py.range (Z.min 0 mi) ma)) in *.
  set (sorted := merge_sort (axis_ge float tc) (rows data ++ (placeholder float tc <$> missing))) in *.
  exists mi, ma, missing, (axis_key float tc <$> sorted). eexists.
  split; [exact Hmis|]. split; [exact Hmas|].
  split; [exact Hfill|].
  split; [by eapply plan_data_without_key|].
  split; [apply NoDup_filter, NoDup_seqZ|].
  split; [intros m; apply missing_range; apply Hmas|].
  split; [apply merge_sort_Permutation|].
  split.
  - simpl.
    assert (Hall : Forall (λ r : row, cell_at r tc = CInt (axis_key float tc r)) sorted).
    { apply Forall_forall. intros r Hr. unfold sorted in Hr.
      rewrite (merge_sort_Permutation (axis_ge float tc)) in Hr.
      unfold axis_key. apply elem_of_app in Hr as [Hr|Hr].
      - apply int_column_rows in Hvals as [_ Hrows].
        apply list_elem_of_lookup in Hr as [i Hi].
        destruct (Forall2_lookup_l _ _ _ _ _ Hrows Hi) as (v & _ & Hcell).
        by rewrite Hcell.
      - apply list_elem_of_fmap in Hr as (m & -> & _).
        by rewrite placeholder_axis. }
    apply Forall2_fmap_r, Forall_Forall2_diag. exact Hall.
  - apply (StronglySorted_fmap (axis_key float tc) (axis_ge float tc) (λ a b, b ≤ a)).
    + intros r1 r2 H. exact H.
    + apply StronglySorted_merge_sort; apply _.
Qed.

Lemma transpose_axis_numeric (entering : frame) (tc key : string) (values : list Z)
    (offset : Z) (to_name : Z → string) :
  (tc = "fifths" ∧ name2fifths key = Some offset ∧ to_name = fifths2name) ∨
  (tc = "semitones" ∧ name2pc key = Some offset ∧ to_name = midi2name) →
  int_column float entering tc = Some values →
  transpose_axis float name2fifths name2pc fifths2name midi2name entering tc key
  = Some (set_column float entering tc ((λ v, CStr (to_name (v + offset))) <$> values)).
Proof.
  unfold transpose_axis.
  intros [(-> & Hoff & ->) | (-> & Hoff & ->)] Hvals; simpl;
    rewrite Hoff, Hvals; simpl; by rewrite <- list_fmap_compose.
Qed.

Lemma set_column_replaces (df : frame) (tc : string) (values : list Z)
    (new_axis : Z → cell float) :
  numeric_axis tc = true →
  int_column float df tc = Some values →
  axis_replaced float new_axis tc df (set_column float df tc (new_axis <$> values)).
Proof.
  intros Hnum Hvals. apply int_column_rows in Hvals as [_ Hrows].
  unfold axis_replaced, set_column. simpl.
  assert (Hne : tc ≠ "Start" ∧ tc ≠ "Finish" ∧ tc ≠ "Resource")
    by (apply numeric_axis_cases in Hnum as [-> | ->]; done).
  destruct Hne as (HS & HF & HR).
  induction Hrows as [|r v rs vs Hcell Hrows [IHlen IH]]; [by split; [|constructor]|].
  simpl. split; [by f_equal|]. constructor; [|exact IH].
  unfold cell_at in *. rewrite lookup_insert_eq, !lookup_insert_ne by done.
  split; [by exists v|done].
Qed.

(** C2, as the code has it: the transposition by a key that ms3 maps to the
    offset [offset] (name2pc for 'semitones', name2fifths for 'fifths')
    replaces the integer [v] in the axis column of every row of the table that
    reaches it (the input, or the sorted and filled table) by the note name of
    [v + offset] (midi2name, fifths2name); the rows keep their number, their
    order and their Start, Finish and Resource. *)
Theorem create_modulation_plan_transposes (data entering : frame) (tc title key : string)
    (sort_and_fill : bool) (phraseends : option (list (cell float)))
    (colors : option (list (string * string)))
    (values : list Z) (offset : Z) (to_name : Z → string) :
  (tc = "fifths" ∧ name2fifths key = Some offset ∧ to_name = fifths2name) ∨
  (tc = "semitones" ∧ name2pc key = Some offset ∧ to_name = midi2name) →
  (if sort_and_fill then sort_and_fill_data float str_upper has_str_accessor
      data tc else Some data) = Some entering →
  int_column float entering tc = Some values →
  ∃ out : frame,
    modulation_plan_data float str_upper has_str_accessor name2fifths name2pc fifths2name midi2name
      data tc sort_and_fill (Some key) = Some out ∧
    fig_data <$> create_modulation_plan float str_upper has_str_accessor key_colors
        name2fifths name2pc fifths2name midi2name
                   data tc sort_and_fill title (Some key) phraseends colors
    = Some (rename_column float tc "Task" out) ∧
    axis_replaced float (λ v, CStr (to_name (v + offset))) tc entering out ∧
    (sort_and_fill = false → entering = data).
Proof.
  intros Hkey Henter Hvals.
  assert (Hnum : numeric_axis tc = true)
    by (destruct Hkey as [(-> & _) | (-> & _)]; done).
  pose proof (transpose_axis_numeric entering tc key values offset to_name Hkey Hvals) as Htr.
  eexists. split; [|split; [|split]].
  - unfold modulation_plan_data. rewrite Henter. simpl. exact Htr.
  - unfold create_modulation_plan, modulation_plan_data. rewrite Henter. simpl.
    rewrite Htr. simpl. unfold create_gantt. simpl.
    apply numeric_axis_cases in Hnum as [-> | ->]; by rewrite bool_decide_eq_false_2.
  - by apply (set_column_replaces entering tc values (λ v, CStr (to_name (v + offset)))).
  - intros ->. by injection Henter.
Qed.

Local Abbreviation astype_float' := (astype_float float fnan float_of_Z float_of_Q float_of_string).
Local Abbreviation add_float' := (add_float float fnan float_of_Z float_of_Q float_of_string fadd).
Local Abbreviation mn_fraction_of_row' :=
  (mn_fraction_of_row float fnan float_of_Z float_of_Q float_of_string fadd fdiv frac frac_of_float).
Local Abbreviation get_phraseends' :=
  (get_phraseends float fnan float_of_Z float_of_Q float_of_string fadd fdiv frac frac_of_float).

(** The column computed at line 280 holds, row by row, the position of the
    row. *)
Lemma mn_fraction_rows (rs : list row) (positions : list float) :
  Forall2 (λ r p, mn_fraction_of_row' r = Some p) rs positions →
  ∃ onsets fracs timesigs,
    mapM astype_float' ((λ r : row, cell_at r "mn_onset") <$> rs) = Some onsets ∧
    mapM (map_frac float frac frac_of_float) ((λ r : row, cell_at r "timesig") <$> rs) = Some fracs ∧
    mapM astype_float' fracs = Some timesigs ∧
    mapM (λ p : cell float * float, add_float' p.1 p.2)
         (zip ((λ r : row, cell_at r "mn") <$> rs) (zip_with fdiv onsets timesigs))
    = Some positions.
Proof.
  induction 1 as [|r p rs ps Hr _ (onsets & fracs & timesigs & H1 & H2 & H3 & H4)].
  - by exists [], [], [].
  - unfold mn_fraction_of_row in Hr.
    destruct (astype_float' (cell_at r "mn_onset")) as [o|] eqn:Ho; [|done].
    destruct (map_frac float frac frac_of_float (cell_at r "timesig")) as [q|] eqn:Hq; [|done].
    simpl in Hr.
    destruct (astype_float' q) as [t|] eqn:Ht; [|done].
    simpl in Hr.
    exists (o :: onsets), (q :: fracs), (t :: timesigs).
    rewrite !fmap_cons. simpl.
    rewrite Ho, Hq, Ht. simpl. rewrite H1, H2, H3. simpl.
    rewrite Hr. simpl. by rewrite H4.
Qed.

Lemma mn_fraction_column_rows (tab : frame) (positions : list float) :
  "mn" ∈ columns tab → "mn_onset" ∈ columns tab → "timesig" ∈ columns tab →
  Forall2 (λ r p, mn_fraction_of_row' r = Some p) (rows tab) positions →
  mn_fraction_column float fnan float_of_Z float_of_Q float_of_string fadd fdiv frac frac_of_float tab
  = Some positions.
Proof.
  intros Hmn Honset Hts Hrows.
  destruct (mn_fraction_rows _ _ Hrows) as (onsets & fracs & timesigs & H1 & H2 & H3 & H4).
  unfold mn_fraction_column, column.
  rewrite !bool_decide_eq_true_2 by done. simpl.
  rewrite H1. simpl. rewrite H2. simpl. rewrite H3. simpl. exact H4.
Qed.

Lemma filter_zip_with_insert (rs : list row) (ps : list float) :
  length rs = length ps →
  (λ r : row, cell_at r "mn_fraction")
    <$> filter (λ r : row, is_phraseend float (cell_at r "phraseend") = true)
          (zip_with (λ (r : row) v, <["mn_fraction" := v]> r) rs (CFloat <$> ps))
  = (λ rp : row * float, CFloat rp.2)
    <$> filter (λ rp : row * float, is_phraseend float (cell_at rp.1 "phraseend") = true)
          (zip rs ps).
Proof.
  revert ps. induction rs as [|r rs IH]; intros [|p ps] Hlen; try done.
  injection Hlen as Hlen. rewrite fmap_cons. simpl. rewrite !filter_cons. simpl.
  assert (Hpe : cell_at (<["mn_fraction" := CFloat p]> r) "phraseend" = cell_at r "phraseend")
    by (unfold cell_at; by rewrite lookup_insert_ne).
  rewrite Hpe. case_decide; [|by apply IH].
  rewrite !fmap_cons. f_equal; [|by apply IH].
  unfold cell_at. by rewrite lookup_insert_eq.
Qed.

(** C3: [get_phraseends] returns the cells of the position column of the
    rows whose phraseend is one of the three markers, in the order of the
    rows; when 'mn_fraction' is asked for and absent, the column is first
    computed, for every row, as the measure number plus the onset in the
    measure divided by the time signature read as a fraction, and added to
    the table after 'mn'. *)
Theorem get_phraseends_positions (tab : frame) (column_ : string) (positions : list float) :
  "phraseend" ∈ columns tab →
  (column_ ≠ "mn_fraction" ∨ "mn_fraction" ∈ columns tab →
   column_ ∈ columns tab →
   get_phraseends' tab column_
   = Some (tab,
           (λ r : row, cell_at r column_)
             <$> filter (λ r : row, is_phraseend float (cell_at r "phraseend") = true) (rows tab)))
  ∧
  (column_ = "mn_fraction" → "mn_fraction" ∉ columns tab →
   "mn" ∈ columns tab → "mn_onset" ∈ columns tab → "timesig" ∈ columns tab →
   Forall2 (λ r p, mn_fraction_of_row' r = Some p) (rows tab) positions →
   get_phraseends' tab column_
   = Some (insert_column float tab "mn" "mn_fraction" (CFloat <$> positions),
           (λ rp : row * float, CFloat rp.2)
             <$> filter (λ rp : row * float, is_phraseend float (cell_at rp.1 "phraseend") = true)
                   (zip (rows tab) positions))).
Proof.
  intros Hpe. split.
  - intros Hpresent Hcol. unfold get_phraseends.
    assert (bool_decide (column_ = "mn_fraction")
            && negb (bool_decide ("mn_fraction" ∈ columns tab)) = false) as ->.
    { destruct Hpresent as [Hne|Hin].
      - by rewrite (bool_decide_eq_false_2 _ Hne).
      - rewrite (bool_decide_eq_true_2 _ Hin). apply andb_false_r. }
    simpl. rewrite (bool_decide_eq_true_2 _ Hpe).
    unfold loc_mask. by rewrite (bool_decide_eq_true_2 _ Hcol).
  - intros -> Habsent Hmn Honset Hts Hrows. unfold get_phraseends.
    rewrite bool_decide_eq_true_2, (bool_decide_eq_false_2 _ Habsent) by done.
    simpl. rewrite (mn_fraction_column_rows tab positions) by done. simpl.
    rewrite bool_decide_eq_true_2 by (apply insert_after_elem; auto).
    unfold loc_mask. simpl.
    rewrite bool_decide_eq_true_2 by (apply insert_after_elem; auto).
    simpl. do 2 f_equal. apply filter_zip_with_insert.
    by eapply Forall2_length.
Qed.

End chart_properties.

(** *** On the examples *)

(** A decidable proposition, by evaluation. *)
Local Ltac by_compute := apply (bool_decide_unpack _); vm_compute; exact I.

Local Abbreviation example_create_modulation_plan :=
  (create_modulation_plan example_float example_upper example_has_str_accessor KEY_COLORS
      example_name2fifths example_name2pc
     example_fifths2name example_midi2name).

Local Abbreviation example_plan_data :=
  (modulation_plan_data example_float example_upper example_has_str_accessor
      example_name2fifths example_name2pc
     example_fifths2name example_midi2name).

Local Abbreviation example_get_phraseends :=
  (get_phraseends example_float example_fnan example_float_of_Z example_float_of_Q
     example_float_of_string example_fadd example_fdiv example_frac
     example_frac_of_float).

(** Fifths -2 and 3: placeholders at -1, 0, 1 and 2. *)
Example fill_between_minus_2_and_3 :
  (λ d, (λ r, (cell_at r "fifths", cell_at r "Start", cell_at r "Finish", cell_at r "Resource"))
          <$> rows d)
    <$> sort_and_fill_data example_float example_upper example_has_str_accessor
        example_plan "fifths"
  = Some [(CInt 3, CInt 4, CInt 8, CStr "applied");
          (CInt 2, CInt 0, CInt 0, CStr "local");
          (CInt 1, CInt 0, CInt 0, CStr "local");
          (CInt 0, CInt 0, CInt 0, CStr "local");
          (CInt (-1), CInt 0, CInt 0, CStr "local");
          (CInt (-2), CInt 0, CInt 4, CStr "local")].
Proof. by vm_compute. Qed.

(** Semitones 9 and 10: the range starts at 0 although the least value is 9. *)
Example fill_from_zero :
  (λ d, (λ r, cell_at r "semitones") <$> rows d)
    <$> sort_and_fill_data example_float example_upper example_has_str_accessor
        example_plan "semitones"
  = Some (CInt <$> [10; 9; 8; 7; 6; 5; 4; 3; 2; 1; 0]).
Proof. by vm_compute. Qed.

(** A table without rows has no least value: the call raises. *)
Example fill_empty_raises :
  sort_and_fill_data example_float example_upper example_has_str_accessor
      (mkFrame example_columns []) "fifths" = None.
Proof. by vm_compute. Qed.

Lemma create_modulation_plan_fills_gaps_witness :
  ∃ missing filled,
    sort_and_fill_data example_float example_upper example_has_str_accessor
        example_plan "fifths" = Some filled ∧
    NoDup missing ∧
    (∀ m, m ∈ missing ↔ m ∈ [-1; 0; 1; 2]) ∧
    rows filled ≡ₚ rows example_plan ++ (placeholder example_float "fifths" <$> missing).
Proof.
  destruct (create_modulation_plan_fills_gaps example_float
              example_upper example_has_str_accessor KEY_COLORS
              example_name2fifths example_name2pc example_fifths2name example_midi2name
              example_plan "fifths" "plan" None None [-2; 3])
    as (mi & ma & missing & filled & [Hmi Hmile] & [Hma Hmale] & Hfill & _ & Hnd & Hiff & Hperm & _).
  - reflexivity.
  - vm_compute. reflexivity.
  - discriminate.
  - exists missing, filled. split; [exact Hfill|]. split; [exact Hnd|]. split; [|exact Hperm].
    assert (mi = -2) as ->.
    { specialize (Hmile (-2) ltac:(left)).
      apply elem_of_cons in Hmi as [->|Hmi]; [done|].
      apply list_elem_of_singleton in Hmi. lia. }
    assert (ma = 3) as ->.
    { specialize (Hmale 3 ltac:(right; left)).
      apply elem_of_cons in Hma as [->|Hma]; [lia|].
      by apply list_elem_of_singleton in Hma. }
    intros m. rewrite Hiff, !elem_of_cons, elem_of_nil. lia.
Defined.

Lemma create_modulation_plan_sorts_descending_witness :
  ∃ missing keys filled,
    sort_and_fill_data example_float example_upper example_has_str_accessor
      example_plan "fifths" = Some filled ∧
    NoDup missing ∧
    rows filled ≡ₚ rows example_plan ++ (placeholder example_float "fifths" <$> missing) ∧
    Forall2 (λ (r : gmap string (cell example_float)) k, cell_at r "fifths" = CInt k)
            (rows filled) keys ∧
    StronglySorted (λ a b, b ≤ a) keys.
Proof.
  destruct (create_modulation_plan_sorts_descending example_float
              example_upper example_has_str_accessor KEY_COLORS
              example_name2fifths example_name2pc example_fifths2name example_midi2name
              example_plan "fifths" "plan" None None [-2; 3])
    as (mi & ma & missing & keys & filled & _ & _ & Hfill & _ & Hnd & _ & Hperm & Hkeys
        & Hsorted).
  - reflexivity.
  - vm_compute. reflexivity.
  - discriminate.
  - by exists missing, keys, filled.
Defined.

(** The axis column after a transposition holds note names: fifths -2 and
    3 in G are F and E. *)
Example transpose_in_G :
  (λ d, (λ r, (cell_at r "fifths", cell_at r "Start", cell_at r "Finish", cell_at r "Resource"))
          <$> rows d)
    <$> example_plan_data example_plan "fifths" false (Some "G")
  = Some [(CStr "F", CInt 0, CInt 4, CStr "local");
          (CStr "E", CInt 4, CInt 8, CStr "applied")].
Proof. by vm_compute. Qed.

(** C2 read as leaving the axis numeric: on the tonic transposed to G the
    axis cell would be the integer 1; the chart gets the name "G". *)
Lemma transposed_axis_is_not_numeric :
  ¬ ∃ out offset,
      example_name2fifths "G" = Some offset ∧
      example_plan_data example_tonic "fifths" false (Some "G") = Some out ∧
      axis_replaced example_float (λ v, CInt (v + offset)) "fifths" example_tonic out.
Proof.
  intros (out & offset & Hoff & Hout & _ & Hrows).
  vm_compute in Hoff. injection Hoff as <-.
  assert (Hcell : (λ d, (λ r, cell_at r "fifths") <$> rows d)
                    <$> example_plan_data example_tonic "fifths" false (Some "G")
                  = Some [CStr "G"]) by (by vm_compute).
  rewrite Hout in Hcell. simpl in Hcell. injection Hcell as Hcell.
  simpl in Hrows. inversion Hrows as [|r r' rs rs' [(v & _ & Hv) _] _ Hr Hout']; subst.
  rewrite <- Hout' in Hcell. simpl in Hcell. injection Hcell as Hcell _.
  rewrite Hv in Hcell. discriminate.
Qed.

Lemma create_modulation_plan_transposes_witness :
  ∃ out,
    example_plan_data example_plan "fifths" false (Some "G") = Some out ∧
    axis_replaced example_float (λ v, CStr (example_fifths2name (v + 1))) "fifths"
      example_plan out.
Proof.
  destruct (create_modulation_plan_transposes example_float
              example_upper example_has_str_accessor KEY_COLORS
              example_name2fifths example_name2pc example_fifths2name example_midi2name
              example_plan example_plan "fifths" "plan" "G" false None None
              [-2; 3] 1 example_fifths2name)
    as (out & Hout & _ & Hrepl & _).
  - left. repeat split; reflexivity.
  - reflexivity.
  - vm_compute. reflexivity.
  - by exists out.
Defined.

Lemma get_phraseends_positions_witness :
  snd <$> example_get_phraseends example_annotations "mn" = Some [CInt 4; CInt 8; CInt 12] ∧
  snd <$> example_get_phraseends example_annotations "mn_fraction"
  = Some [CFloat (Some (14 # 3)%Q); CFloat (Some 8%Q); CFloat (Some (25 # 2)%Q)].
Proof.
  destruct (get_phraseends_positions example_float example_fnan example_float_of_Z
              example_float_of_Q example_float_of_string example_fadd example_fdiv
              example_frac example_frac_of_float example_annotations "mn"
              [Some 1%Q; Some (7 # 3)%Q; Some (14 # 3)%Q; Some 8%Q; Some (28 # 3)%Q;
               Some (25 # 2)%Q])
    as [Hpresent _]; [by_compute|].
  destruct (get_phraseends_positions example_float example_fnan example_float_of_Z
              example_float_of_Q example_float_of_string example_fadd example_fdiv
              example_frac example_frac_of_float example_annotations "mn_fraction"
              [Some 1%Q; Some (7 # 3)%Q; Some (14 # 3)%Q; Some 8%Q; Some (28 # 3)%Q;
               Some (25 # 2)%Q])
    as [_ Hcomputed]; [by_compute|].
  split.
  - rewrite Hpresent; [by vm_compute|by left|by_compute].
  - rewrite Hcomputed; [by vm_compute|reflexivity|by_compute..|].
    repeat constructor.
Defined.

End UpdatePagesSpec.

(** ** Properties of concat_metadata.py *)

Module ConcatMetadataSpec.
Import ConcatMetadata.

Lemma append_assoc (a b c : string) : (a +:+ b) +:+ c = a +:+ (b +:+ c).
Proof.
  induction a as [|x a IH]; [done|].
  change (String x ((a +:+ b) +:+ c) = String x (a +:+ (b +:+ c))). by rewrite IH.
Qed.

Lemma append_nil_r (a : string) : a +:+ "" = a.
Proof.
  induction a as [|x a IH]; [done|].
  change (String x (a +:+ "") = String x a). by rewrite IH.
Qed.

Lemma lower_ascii_cases (a : Ascii.ascii) :
  Py.lower_ascii a = a ∨
  (is_lower (Py.lower_ascii a) = true ∧ Py.upper_ascii (Py.lower_ascii a) = a).
Proof. destruct a as [[] [] [] [] [] [] [] []]; vm_compute; auto. Qed.

Lemma lower_upper_ascii (a : Ascii.ascii) :
  is_lower a = true → Py.lower_ascii (Py.upper_ascii a) = a.
Proof. destruct a as [[] [] [] [] [] [] [] []]; vm_compute; auto; discriminate. Qed.

(** Every string is a letter-case variant of its lower-case form. *)
Lemma case_variant_lower (s : string) : case_variant s (Py.lower s).
Proof.
  induction s as [|a s IH]; [constructor|]. simpl.
  destruct (lower_ascii_cases a) as [-> | [Hl Hu]].
  - by constructor.
  - rewrite <- Hu at 1. by constructor.
Qed.

(** A variant of a text that [lower] leaves as it is has that text as its
    lower-case form. *)
Lemma lower_case_variant (s w : string) :
  case_variant s w → Py.lower w = w → Py.lower s = w.
Proof.
  induction 1 as [|a s w _ IH|a s w Ha _ IH]; [done|..]; simpl; intros [= Hhd Htl].
  - by rewrite Hhd, IH.
  - by rewrite lower_upper_ascii, IH.
Qed.

Lemma case_variant_iff_lower (s w : string) :
  Py.lower w = w → case_variant s w ↔ Py.lower s = w.
Proof.
  intros Hw. split; [intros; by apply lower_case_variant|].
  intros <-. apply case_variant_lower.
Qed.

Lemma append_cons (x : Ascii.ascii) (a b : string) :
  String x a +:+ b = String x (a +:+ b).
Proof. reflexivity. Qed.

Lemma append_nil_l (a : string) : "" +:+ a = a.
Proof. reflexivity. Qed.

Lemma join_lines_cons (l : string) (ls : list string) :
  join_lines (l :: ls) = l +:+ join_lines ls.
Proof. reflexivity. Qed.

Lemma join_split_lines (s : string) : join_lines (split_lines s) = s.
Proof.
  induction s as [|a s IH]; [done|]. simpl. case_bool_decide.
  - by rewrite join_lines_cons, append_cons, append_nil_l, IH.
  - destruct (split_lines s) as [|l ls].
    + by rewrite <- IH.
    + by rewrite join_lines_cons, append_cons, <- join_lines_cons, IH.
Qed.

Lemma join_readlines (content : string) :
  join_lines (readlines content) = universal_newlines content.
Proof. apply join_split_lines. Qed.

Lemma write_lines_break (before after : list string) (line : string) :
  Forall (λ l, Py.contains "# Overview" l = false) before →
  Py.contains "# Overview" line = true →
  write_lines (before ++ line :: after) = join_lines before.
Proof.
  intros Hbefore Hline. induction Hbefore as [|l before Hl _ IH].
  - simpl. by rewrite Hline.
  - rewrite join_lines_cons. cbn [write_lines app]. by rewrite Hl, IH.
Qed.

Lemma write_lines_else (lines : list string) :
  Forall (λ l, Py.contains "# Overview" l = false) lines →
  write_lines lines = join_lines lines +:+ NL +:+ NL.
Proof.
  induction 1 as [|l lines Hl _ IH]; [done|].
  rewrite join_lines_cons. cbn [write_lines]. by rewrite Hl, IH, append_assoc.
Qed.

Section aggregator_properties.

Variable float : Type.
Variable float_isnan : float → bool.
Variable py_int : cell float → option Z.
Variable parse_tsv : string → option (list string * list (list string)).
Variable astype_boolean : list (cell float) → option (list (option bool)).

Local Abbreviation row := (gmap string (cell float)).
Local Abbreviation frame := (DataFrame float).

Variable to_csv : frame → string.
Variable markdown_table : list string → list (list (cell float)) → string.
Variable py_repr : string → string.
Variable repr_types : list (cell float) → string.

Local Abbreviation world := (world float).

(** C6: [int2bool] is total; it gives true on 't' and 'true' and false on
    'f' and 'false' in any letter case; on every other value it gives the
    truth value of [int(s)] when that conversion succeeds, and the value
    itself when it raises. *)
Theorem int2bool_cases :
  (∀ s w, w ∈ ["t"; "true"] → case_variant s w →
     int2bool float py_int (CStr s) = CBool true) ∧
  (∀ s w, w ∈ ["f"; "false"] → case_variant s w →
     int2bool float py_int (CStr s) = CBool false) ∧
  (∀ c : cell float,
     (∀ s w, c = CStr s → w ∈ ["t"; "true"; "f"; "false"] → ¬ case_variant s w) →
     int2bool float py_int c
     = match py_int c with
       | Some n => CBool (bool_decide (n ≠ 0))
       | None => c
       end).
Proof.
  split; [|split].
  - intros s w Hw Hcv.
    assert (Py.lower s = w) as Hs.
    { apply lower_case_variant; [done|].
      repeat (apply elem_of_cons in Hw as [->|Hw]; [done|]). by apply elem_of_nil in Hw. }
    unfold int2bool. rewrite Hs.
    repeat (apply elem_of_cons in Hw as [->|Hw]; [done|]). by apply elem_of_nil in Hw.
  - intros s w Hw Hcv.
    assert (Py.lower s = w) as Hs.
    { apply lower_case_variant; [done|].
      repeat (apply elem_of_cons in Hw as [->|Hw]; [done|]). by apply elem_of_nil in Hw. }
    unfold int2bool. rewrite Hs.
    repeat (apply elem_of_cons in Hw as [->|Hw]; [done|]). by apply elem_of_nil in Hw.
  - intros c Hnot. unfold int2bool. destruct c as [| | | | |s]; try done.
    rewrite bool_decide_eq_false_2; [done|].
    intros Hin. apply (Hnot s (Py.lower s)); [done|done|apply case_variant_lower].
Qed.

(** What [write_md] leaves: the new text of the file and the line printed. *)
Lemma write_md_run (w : world) (md_str md_path : string) :
  write_md float md_str md_path w
  = (mkWorld float (dirs float w)
       (<[md_path :=
            write_lines (match files float w !! md_path with
                         | Some content => readlines content
                         | None => []
                         end) +:+ md_str]> (files float w))
       (stdout float w ++
          [(match files float w !! md_path with
            | Some _ => "Updated"
            | None => "Created"
            end) +:+ " " +:+ md_path])
       (heap float w),
     Ok tt).
Proof.
  unfold write_md, mbind, M_bind, bind, read_world.
  by destruct (files float w !! md_path).
Qed.

(** C7: [write_md] keeps the lines of an existing README.md before the
    first line that contains '# Overview', as they are and in their order,
    and puts the new overview in the place of that line and of all that
    follows; without such a line the overview comes after the old text and a
    blank separator, and a file that did not exist is made of the separator
    and the overview.  No other file changes. *)
Theorem write_md_replaces_overview (w : world) (md_str md_path : string) :
  ∃ w' : world,
    write_md float md_str md_path w = (w', Ok tt) ∧
    dirs float w' = dirs float w ∧
    heap float w' = heap float w ∧
    (∀ p, p ≠ md_path → files float w' !! p = files float w !! p) ∧
    (∀ content before line after,
       files float w !! md_path = Some content →
       readlines content = before ++ line :: after →
       Forall (λ l, Py.contains "# Overview" l = false) before →
       Py.contains "# Overview" line = true →
       files float w' !! md_path = Some (join_lines before +:+ md_str) ∧
       stdout float w' = stdout float w ++ ["Updated " +:+ md_path]) ∧
    (∀ content,
       files float w !! md_path = Some content →
       Forall (λ l, Py.contains "# Overview" l = false) (readlines content) →
       files float w' !! md_path
       = Some (universal_newlines content +:+ NL +:+ NL +:+ md_str) ∧
       stdout float w' = stdout float w ++ ["Updated " +:+ md_path]) ∧
    (files float w !! md_path = None →
       files float w' !! md_path = Some (NL +:+ NL +:+ md_str) ∧
       stdout float w' = stdout float w ++ ["Created " +:+ md_path]).
Proof.
  eexists. split; [apply write_md_run|]. simpl.
  split; [done|]. split; [done|].
  split; [by intros p Hp; rewrite lookup_insert_ne|].
  split; [|split].
  - intros content before line after Hfile Hlines Hbefore Hline.
    rewrite lookup_insert_eq, Hfile, Hlines, write_lines_break by done. done.
  - intros content Hfile Hnone.
    rewrite lookup_insert_eq, Hfile, write_lines_else, join_readlines by done.
    by rewrite !append_assoc.
  - intros Hfile. by rewrite lookup_insert_eq, Hfile.
Qed.

(** *** convert_booleans *)

Local Abbreviation convert_columns' :=
  (convert_columns float float_isnan astype_boolean py_repr repr_types).
Local Abbreviation convert_booleans' :=
  (convert_booleans float float_isnan astype_boolean py_repr repr_types).

Lemma column_values_assign (d : frame) (bc c : string) (series : list (cell float)) :
  column_values float (assign_column float d bc series) c
  = if decide (c = bc) then aligned float (length (rows d)) series
    else column_values float d c.
Proof.
  unfold column_values, assign_column, aligned. simpl.
  rewrite fmap_imap. case_decide as Hc.
  - subst c. rewrite <- imap_seq_0. apply imap_ext. intros i lr _. simpl.
    unfold cell_at. by rewrite lookup_insert_eq.
  - rewrite <- (imap_const (λ lr : list (cell float) * row, cell_at lr.2 c)).
    apply imap_ext. intros i lr _. simpl.
    unfold cell_at. by rewrite lookup_insert_ne.
Qed.

Lemma labels_assign (d : frame) (bc : string) (series : list (cell float)) :
  (rows (assign_column float d bc series)).*1 = (rows d).*1.
Proof.
  unfold assign_column. simpl. rewrite fmap_imap.
  rewrite <- (imap_const (fst : list (cell float) * row → _)). by apply imap_ext.
Qed.

Lemma convert_columns_cons (l : nat) (bc : string) (rest : list string)
    (w : world) (d : frame) :
  heap float w !! l = Some d →
  convert_columns' l (bc :: rest) w
  = if forallb (isna float float_isnan) (column_values float d bc) then convert_columns' l rest w
    else match astype_boolean (column_values float d bc) with
         | Some booleans =>
             convert_columns' l rest
               (mkWorld float (dirs float w) (files float w)
                  (stdout float w
                   ++ ["Transformed booleans in the column " +:+ bc +:+ " to integers."])
                  (<[l := assign_column float d bc (astype_Int64 float <$> booleans)]>
                     (heap float w)))
         | None =>
             (mkWorld float (dirs float w) (files float w)
                ((stdout float w ++ ["COLUMN " +:+ py_repr bc])
                 ++ [repr_types (column_values float d bc)])
                (heap float w),
              Raise TypeError)
         end.
Proof.
  intros Hl. cbn [convert_columns]. unfold mbind, M_bind, bind, deref. rewrite Hl.
  destruct (forallb (isna float float_isnan) (column_values float d bc)); [done|].
  by destruct (astype_boolean (column_values float d bc)).
Qed.

Local Abbreviation reencoded' := (reencoded float float_isnan astype_boolean).

Lemma reencoded_refl (d : frame) : reencoded' [] d d.
Proof.
  repeat split; try done. by intros ?%elem_of_nil.
Qed.

Lemma length_labels (d d' : frame) :
  (rows d').*1 = (rows d).*1 → length (rows d') = length (rows d).
Proof. intros H. by rewrite <- (length_fmap fst (rows d')), H, length_fmap. Qed.

(** The loop of [convert_booleans] on the object [l]: no other object
    changes; when the loop ends, the columns of [cols] with a value are
    re-encoded; it raises when pandas refuses one of them. *)
Lemma convert_columns_outcome (cols : list string) :
  ∀ (w : world) (l : nat) (d : frame),
    heap float w !! l = Some d →
    NoDup cols →
    ∃ (w' : world) (res : result unit),
      convert_columns' l cols w = (w', res) ∧
      dirs float w' = dirs float w ∧
      files float w' = files float w ∧
      (∀ l0, l0 ≠ l → heap float w' !! l0 = heap float w !! l0) ∧
      match res with
      | Ok _ => ∃ d', heap float w' !! l = Some d' ∧ reencoded' cols d d'
      | Raise e =>
          e = TypeError ∧
          ∃ c, c ∈ cols ∧
               forallb (isna float float_isnan) (column_values float d c) = false ∧
               astype_boolean (column_values float d c) = None
      end.
Proof.
  induction cols as [|bc rest IH]; intros w l d Hl Hnd.
  - exists w, (Ok tt). repeat split; try done.
    exists d. split; [done|apply reencoded_refl].
  - apply NoDup_cons in Hnd as [Hbc Hnd].
    rewrite (convert_columns_cons l bc rest w d Hl).
    destruct (forallb (isna float float_isnan) (column_values float d bc)) eqn:Hnull.
    { destruct (IH w l d Hl Hnd) as (w' & res & Hrun & Hdirs & Hfiles & Hheap & Hres).
      exists w', res. repeat split; try done.
      destruct res as [[]|e].
      - destruct Hres as (d' & Hd' & Hcols & Hnames & Hlabels & Hcells).
        exists d'. split; [done|]. repeat split; try done.
        + intros [->|Hc]%elem_of_cons Hnn; [congruence|]. by apply Hcells.
        + intros [Hc|Hc].
          * apply Hcells. left. intros ?. apply Hc. by right.
          * destruct (decide (c ∈ rest)); apply Hcells; auto.
      - destruct Hres as (-> & c & Hc & Hnn & Hnone).
        split; [done|]. exists c. split; [by right|done]. }
    destruct (astype_boolean (column_values float d bc)) as [booleans|] eqn:Hcast.
    2:{ eexists _, _. split; [done|]. repeat split; try done.
        exists bc. split; [left|done]. }
    set (d1 := assign_column float d bc (astype_Int64 float <$> booleans)).
    set (w1 := mkWorld float _ _ _ _).
    assert (Hl1 : heap float w1 !! l = Some d1) by apply lookup_insert_eq.
    assert (Hlen : length (rows d1) = length (rows d))
      by apply length_labels, labels_assign.
    assert (Hother : ∀ c, c ≠ bc → column_values float d1 c = column_values float d c).
    { intros c Hc. unfold d1. rewrite column_values_assign. by rewrite decide_False. }
    destruct (IH w1 l d1 Hl1 Hnd) as (w' & res & Hrun & Hdirs & Hfiles & Hheap & Hres).
    exists w', res. split; [done|]. split; [done|]. split; [done|].
    split.
    { intros l0 Hl0. rewrite (Hheap l0 Hl0). simpl. by rewrite lookup_insert_ne. }
    destruct res as [[]|e].
    + destruct Hres as (d' & Hd' & Hcols & Hnames & Hlabels & Hcells).
      exists d'. split; [done|]. split; [by rewrite Hcols|]. split; [by rewrite Hnames|].
      split; [by rewrite Hlabels; apply labels_assign|].
      intros c. destruct (decide (c = bc)) as [->|Hc].
      * split.
        -- intros _ _. exists booleans. split; [done|].
           destruct (Hcells bc) as [_ Hsame]. rewrite Hsame by (by left).
           unfold d1. rewrite column_values_assign. by rewrite decide_True.
        -- intros [Hnot|Hnn]; [|congruence]. exfalso. apply Hnot. left.
      * destruct (Hcells c) as [Hconv Hsame]. rewrite (Hother c Hc), Hlen in *.
        split.
        -- intros [->|Hin]%elem_of_cons Hnn; [done|]. by apply Hconv.
        -- intros [Hnot|Hnn]; apply Hsame; [left|by right].
           intros ?. apply Hnot. by right.
    + destruct Hres as (-> & c & Hc & Hnn & Hnone).
      split; [done|]. exists c. split; [by right|].
      assert (c ≠ bc) by (by intros ->).
      by rewrite <- (Hother c).
Qed.

Lemma aligned_nullable_integers (n : nat) (booleans : list (option bool)) :
  Forall (λ v : cell float, v = CNA ∨ v = CInt 0 ∨ v = CInt 1)
         (aligned float n (astype_Int64 float <$> booleans)).
Proof.
  unfold aligned. apply Forall_fmap, Forall_forall. intros i _. simpl.
  rewrite list_lookup_fmap. destruct (booleans !! i) as [[[]|]|]; simpl; auto.
Qed.

Lemma convert_booleans_alloc (w : world) (l : nat) (d : frame) (bool_columns : list string) :
  heap float w !! l = Some d →
  convert_booleans' (Some l) bool_columns w
  = if bool_decide (length (filter (λ c, c ∈ columns d) bool_columns) = 0%nat)
    then (w, Ok (Some l))
    else
      let copy := fresh (dom (heap float w)) in
      let w1 := mkWorld float (dirs float w) (files float w) (stdout float w)
                  (<[copy := d]> (heap float w)) in
      match convert_columns' copy (filter (λ c, c ∈ columns d) bool_columns) w1 with
      | (w', Ok _) => (w', Ok (Some copy))
      | (w', Raise e) => (w', Raise e)
      end.
Proof.
  intros Hl. unfold convert_booleans, mbind, M_bind, bind, deref. rewrite Hl.
  case_bool_decide; [done|]. unfold alloc. simpl.
  by destruct (convert_columns' _ _ _) as [w' [[]|e]].
Qed.

(** What [convert_booleans] does to the objects and to the table it is
    given. *)
Lemma convert_booleans_outcome (w : world) (l : nat) (d : frame)
    (bool_columns : list string) :
  heap float w !! l = Some d →
  NoDup bool_columns →
  ∃ (w' : world) (res : result (option nat)),
    convert_booleans' (Some l) bool_columns w = (w', res) ∧
    dirs float w' = dirs float w ∧
    files float w' = files float w ∧
    (∀ l0 d0, heap float w !! l0 = Some d0 → heap float w' !! l0 = Some d0) ∧
    match res with
    | Ok (Some l') =>
        ∃ d', heap float w' !! l' = Some d' ∧
              columns d' = columns d ∧
              index_names d' = index_names d ∧
              (rows d').*1 = (rows d).*1 ∧
              ∀ c,
                (c ∉ bool_columns ∨ c ∉ columns d
                 ∨ forallb (isna float float_isnan) (column_values float d c) = true →
                 column_values float d' c = column_values float d c) ∧
                (c ∈ bool_columns → c ∈ columns d →
                 forallb (isna float float_isnan) (column_values float d c) = false →
                 (∃ booleans,
                    astype_boolean (column_values float d c) = Some booleans ∧
                    column_values float d' c
                    = aligned float (length (rows d)) (astype_Int64 float <$> booleans)) ∧
                 Forall (λ v : cell float, v = CNA ∨ v = CInt 0 ∨ v = CInt 1)
                        (column_values float d' c))
    | Ok None => False
    | Raise e =>
        e = TypeError ∧
        ∃ c, c ∈ bool_columns ∧ c ∈ columns d ∧
             forallb (isna float float_isnan) (column_values float d c) = false ∧
             astype_boolean (column_values float d c) = None
    end.
Proof.
  intros Hl Hnd. rewrite (convert_booleans_alloc w l d bool_columns Hl).
  set (cols := filter (λ c, c ∈ columns d) bool_columns).
  assert (Hcols : ∀ c, c ∈ cols ↔ c ∈ columns d ∧ c ∈ bool_columns)
    by (intros c; unfold cols; by rewrite list_elem_of_filter).
  case_bool_decide as Hnone.
  - exists w, (Ok (Some l)). split; [done|]. split; [done|]. split; [done|].
    split; [done|].
    exists d. split; [done|]. split; [done|]. split; [done|]. split; [done|].
    intros c. split; [done|].
    intros Hc Hcol _. apply nil_length_inv in Hnone.
    assert (c ∈ cols) as Hin by (by apply Hcols). rewrite Hnone in Hin.
    by apply elem_of_nil in Hin.
  - simpl. set (copy := fresh (dom (heap float w))). set (w1 := mkWorld float _ _ _ _).
    assert (Hcopy : heap float w1 !! copy = Some d) by apply lookup_insert_eq.
    assert (Hfresh : ∀ l0 d0, heap float w !! l0 = Some d0 → l0 ≠ copy).
    { intros l0 d0 Hl0 ->. apply (is_fresh (dom (heap float w))).
      apply elem_of_dom. by eexists. }
    destruct (convert_columns_outcome cols w1 copy d Hcopy)
      as (w' & res & Hrun & Hdirs & Hfiles & Hheap & Hres); [by apply NoDup_filter|].
    rewrite Hrun. destruct res as [[]|e].
    + exists w', (Ok (Some copy)). split; [done|]. split; [done|]. split; [done|].
      split.
      { intros l0 d0 Hl0. rewrite (Hheap l0) by (by eapply Hfresh).
        simpl. rewrite lookup_insert_ne; [done|]. intros Heq. by eapply Hfresh. }
      destruct Hres as (d' & Hd' & Hc & Hn & Hlab & Hcells).
      exists d'. split; [done|]. split; [done|]. split; [done|]. split; [done|].
      intros c. destruct (Hcells c) as [Hconv Hsame]. split.
      * intros [Hnot|[Hnot|Hnull]]; apply Hsame; [left|left|by right];
          by intros [? ?]%Hcols.
      * intros Hin Hcol Hnn.
        destruct (Hconv ltac:(by apply Hcols) Hnn) as (booleans & Hcast & Hvals).
        split; [by exists booleans|]. rewrite Hvals. apply aligned_nullable_integers.
    + exists w', (Raise e). split; [done|]. split; [done|]. split; [done|].
      split.
      { intros l0 d0 Hl0. rewrite (Hheap l0) by (by eapply Hfresh).
        simpl. rewrite lookup_insert_ne; [done|]. intros Heq. by eapply Hfresh. }
      destruct Hres as (-> & c & Hc & Hnn & Hnone').
      split; [done|]. exists c. apply Hcols in Hc as [? ?]. done.
Qed.

(** C10: [convert_booleans] works on a copy: the table it was given, like
    every other object, is what it was; the table it returns has the column
    labels, the index and the rows of the given one, with every column that
    is not listed, not a column of the table, or without a value as it was,
    and the listed columns with a value re-encoded as nullable integers.  It
    raises only when pandas refuses such a column. *)
Theorem convert_booleans_copies (w : world) (l : nat) (d : frame)
    (bool_columns : list string) :
  heap float w !! l = Some d →
  NoDup bool_columns →
  ∃ (w' : world) (res : result (option nat)),
    convert_booleans' (Some l) bool_columns w = (w', res) ∧
    dirs float w' = dirs float w ∧
    files float w' = files float w ∧
    (∀ l0 d0, heap float w !! l0 = Some d0 → heap float w' !! l0 = Some d0) ∧
    match res with
    | Ok (Some l') =>
        ∃ d', heap float w' !! l' = Some d' ∧
              columns d' = columns d ∧
              index_names d' = index_names d ∧
              (rows d').*1 = (rows d).*1 ∧
              ∀ c,
                (c ∉ bool_columns ∨ c ∉ columns d
                 ∨ forallb (isna float float_isnan) (column_values float d c) = true →
                 column_values float d' c = column_values float d c) ∧
                (c ∈ bool_columns → c ∈ columns d →
                 forallb (isna float float_isnan) (column_values float d c) = false →
                 (∃ booleans,
                    astype_boolean (column_values float d c) = Some booleans ∧
                    column_values float d' c
                    = aligned float (length (rows d)) (astype_Int64 float <$> booleans)) ∧
                 Forall (λ v : cell float, v = CNA ∨ v = CInt 0 ∨ v = CInt 1)
                        (column_values float d' c))
    | Ok None => False
    | Raise e =>
        e = TypeError ∧
        ∃ c, c ∈ bool_columns ∧ c ∈ columns d ∧
             forallb (isna float float_isnan) (column_values float d c) = false ∧
             astype_boolean (column_values float d c) = None
    end.
Proof. apply convert_booleans_outcome. Qed.

(** *** main *)

Local Abbreviation concat_metadata' := (concat_metadata float py_int parse_tsv).
Local Abbreviation metadata2markdown' := (metadata2markdown float float_isnan markdown_table).
Local Abbreviation write_tsv' := (write_tsv float float_isnan astype_boolean to_csv py_repr repr_types).
Local Abbreviation main' :=
  (main float float_isnan py_int parse_tsv astype_boolean to_csv markdown_table py_repr repr_types).

Lemma traverse_Raise {A B} (f : A → result B) (l : list A) (e : exn) :
  traverse f l = Raise e → ∃ x, x ∈ l ∧ f x = Raise e.
Proof.
  induction l as [|x l IH]; [done|]. simpl.
  destruct (f x) as [y|e'] eqn:Hx.
  - destruct (traverse f l) as [ys|e'']; [done|]. intros [= ->].
    destruct IH as (x' & Hin & Hx'); [done|]. exists x'. split; [by right|done].
  - intros [= ->]. exists x. split; [left|done].
Qed.

Lemma traverse_fmap {A B} (f : A → result B) (g : A → B) (l : list A) :
  (∀ x, x ∈ l → f x = Ok (g x)) → traverse f l = Ok (g <$> l).
Proof.
  induction l as [|x l IH]; [done|]. intros Hall. simpl.
  rewrite (Hall x) by left. rewrite IH; [done|].
  intros y Hy. apply Hall. by right.
Qed.

Lemma traverse_length {A B} (f : A → result B) (l : list A) (ys : list B) :
  traverse f l = Ok ys → length ys = length l.
Proof.
  revert ys. induction l as [|x l IH]; intros ys; simpl; [by intros [= <-]|].
  destruct (f x); [|done]. destruct (traverse f l) as [zs|]; [|done].
  intros [= <-]. simpl. f_equal. by apply IH.
Qed.

(** The run of [main] when [concat_metadata] raises: nothing is written or
    printed. *)
Lemma main_raise (args : Args) (w : world) (e : exn) :
  concat_metadata' w (dir args) = Raise e → main' args w = (w, Raise e).
Proof.
  intros Hc. unfold main, mbind, M_bind, bind, read_world, lift. by rewrite Hc.
Qed.

(** The run of [main] on a table without rows. *)
Lemma main_empty (args : Args) (w : world) (table : frame) :
  concat_metadata' w (dir args) = Ok table →
  rows table = [] →
  main' args w
  = (mkWorld float (dirs float w) (files float w)
       (stdout float w
        ++ ["No metadata found in the child directories of " +:+ dir args +:+ "."])
       (<[fresh (dom (heap float w)) := table]> (heap float w)),
     Ok tt).
Proof.
  intros Hc Hrows. unfold main, mbind, M_bind, bind, read_world, lift, alloc.
  rewrite Hc, Hrows. done.
Qed.

(** The run of [main] on a table with rows: the table is written, then the
    overview is made and the README written. *)
Lemma main_rows (args : Args) (w : world) (table : frame) :
  concat_metadata' w (dir args) = Ok table →
  rows table ≠ [] →
  main' args w
  = let concatenated := fresh (dom (heap float w)) in
    let w1 := mkWorld float (dirs float w) (files float w) (stdout float w)
                (<[concatenated := table]> (heap float w)) in
    match write_tsv' concatenated
            (os_path_join (out args) "concatenated_metadata.tsv") w1 with
    | (w2, Ok _) =>
        match heap float w2 !! concatenated with
        | Some table' =>
            match metadata2markdown' table' with
            | Ok md_str =>
                write_md float md_str (os_path_join (out args) "README.md") w2
            | Raise e => (w2, Raise e)
            end
        | None => (w2, Raise (KeyError "object"))
        end
    | (w2, Raise e) => (w2, Raise e)
    end.
Proof.
  intros Hc Hrows. unfold main, mbind, M_bind, bind, read_world, lift, alloc.
  rewrite Hc. rewrite bool_decide_eq_false_2 by (by destruct (rows table)).
  simpl. destruct (write_tsv' _ _ _) as [w2 [[]|e]]; [|done].
  unfold deref. destruct (heap float w2 !! _); [|done].
  by destruct (metadata2markdown' _).
Qed.

Lemma metadata_paths_none (w : world) (path : string) (folders : list string) :
  dirs float w !! path = Some folders →
  (∀ subdir, subdir ∈ folders →
     files float w !! os_path_join (os_path_join path subdir) "metadata.tsv" = None) →
  metadata_paths float w path = Ok [].
Proof.
  intros Hdir Hnone. unfold metadata_paths. rewrite Hdir. f_equal.
  apply UpdatePagesSpec.filter_none. intros p Hp.
  apply list_elem_of_fmap in Hp as (subdir & -> & Hsub). simpl.
  unfold sorted in Hsub. rewrite merge_sort_Permutation in Hsub.
  rewrite (Hnone subdir Hsub). by intros [? ?].
Qed.

(** C4: when no immediate subdirectory of the root has a metadata.tsv,
    [concat_metadata] returns the empty table, and [main] prints that no
    metadata was found and returns: no file is written. *)
Theorem main_without_metadata (args : Args) (w : world) (folders : list string) :
  dirs float w !! dir args = Some folders →
  (∀ subdir, subdir ∈ folders →
     files float w !! os_path_join (os_path_join (dir args) subdir) "metadata.tsv" = None) →
  concat_metadata' w (dir args) = Ok (mkFrame [] [None] []) ∧
  ∃ w' : world,
    main' args w = (w', Ok tt) ∧
    files float w' = files float w ∧
    dirs float w' = dirs float w ∧
    stdout float w'
    = stdout float w
      ++ ["No metadata found in the child directories of " +:+ dir args +:+ "."].
Proof.
  intros Hdir Hnone.
  assert (Hc : concat_metadata' w (dir args) = Ok (mkFrame [] [None] [])).
  { unfold concat_metadata. by rewrite (metadata_paths_none w _ folders). }
  split; [exact Hc|].
  eexists. split; [by apply (main_empty args w _ Hc)|]. done.
Qed.

Lemma first_present_None (names cols : list string) :
  first_present names cols = None ↔ ∀ c, c ∈ names → c ∉ cols.
Proof.
  unfold first_present. split.
  - intros Hhead c Hc Hin.
    destruct (filter (λ c, c ∈ cols) names) as [|x l] eqn:Hf; [|done].
    assert (c ∈ filter (λ c, c ∈ cols) names) as Hcf by (by apply list_elem_of_filter).
    rewrite Hf in Hcf. by apply elem_of_nil in Hcf.
  - intros Hall. by rewrite UpdatePagesSpec.filter_none.
Qed.

Lemma first_present_Some (names cols : list string) (c : string) :
  first_present names cols = Some c → c ∈ names ∧ c ∈ cols.
Proof.
  unfold first_present. intros Hhead.
  assert (c ∈ filter (λ c, c ∈ cols) names) as Hc.
  { destruct (filter (λ c, c ∈ cols) names); [done|]. injection Hhead as ->. left. }
  apply list_elem_of_filter in Hc as [? ?]. by split.
Qed.

Lemma join_corpus_Raise (col : string) (lr : list (cell float) * row) (e : exn) :
  join_corpus float col lr = Raise e → e = TypeError.
Proof.
  unfold join_corpus.
  destruct lr.1 as [|[] ?]; try (by intros [= <-]);
    destruct (cell_at lr.2 col); by intros [= <-].
Qed.

(** [prefix_paths] raises its ValueError exactly when both path columns are
    missing. *)
Lemma prefix_paths_ValueError (concatenated : frame) :
  (prefix_paths float concatenated = Raise (ValueError SUBDIRECTORY_MESSAGE))
  ↔ (("subdirectory" ∉ columns concatenated) ∧ ("rel_paths" ∉ columns concatenated)).
Proof.
  unfold prefix_paths. split.
  - destruct (first_present _ _) as [col|] eqn:Hcol.
    + unfold mbind, result_bind.
      destruct (traverse (join_corpus float col) _) as [vals|e] eqn:Hvals.
      * case_bool_decide; [|done].
        destruct (traverse (join_corpus float "rel_path") _) as [vals'|e] eqn:Hvals'; [done|].
        intros [= ->]. apply traverse_Raise in Hvals' as (lr & _ & Hlr).
        by apply join_corpus_Raise in Hlr.
      * intros [= ->]. apply traverse_Raise in Hvals as (lr & _ & Hlr).
        by apply join_corpus_Raise in Hlr.
    + intros _. pose proof (proj1 (first_present_None _ _) Hcol) as Hnone.
      split; apply Hnone; [left|right; left].
  - intros [Hs Hr]. rewrite (proj2 (first_present_None _ _)); [done|].
    intros c Hc. repeat (apply elem_of_cons in Hc as [->|Hc]; [done|]).
    by apply elem_of_nil in Hc.
Qed.

Lemma columns_labelled_Raise (mapping : list (string * string)) (cols : list string)
    (label : string) (e : exn) :
  columns_labelled mapping cols label = Raise e → e = KeyError label.
Proof.
  unfold columns_labelled. destruct (filter _ cols); [by intros [= <-]|done].
Qed.

(** [metadata2markdown] raises its ValueError exactly when both file name
    columns are missing. *)
Lemma metadata2markdown_ValueError (concatenated : frame) :
  (metadata2markdown' concatenated = Raise (ValueError FNAME_MESSAGE))
  ↔ (("fname" ∉ columns concatenated) ∧ ("fnames" ∉ columns concatenated)).
Proof.
  unfold metadata2markdown. split.
  - destruct (first_present _ _) as [col|] eqn:Hcol.
    + unfold mbind, result_bind, select_renamed.
      destruct (traverse _ _) as [found|e] eqn:Hsel; [done|].
      intros [= ->]. apply traverse_Raise in Hsel as (label & _ & Hlabel).
      by apply columns_labelled_Raise in Hlabel.
    + intros _. pose proof (proj1 (first_present_None _ _) Hcol) as Hnone.
      split; apply Hnone; [left|right; left].
  - intros [Hs Hr]. rewrite (proj2 (first_present_None _ _)); [done|].
    intros c Hc. repeat (apply elem_of_cons in Hc as [->|Hc]; [done|]).
    by apply elem_of_nil in Hc.
Qed.

(** [write_tsv] leaves the table it is given and every file but the one it
    writes; it raises nothing but the TypeError of [convert_booleans]. *)
Lemma write_tsv_outcome (w : world) (l : nat) (d : frame) (tsv_path : string) :
  heap float w !! l = Some d →
  ∃ (w' : world) (res : result unit),
    write_tsv' l tsv_path w = (w', res) ∧
    dirs float w' = dirs float w ∧
    heap float w' !! l = Some d ∧
    (∀ p, p ≠ tsv_path → files float w' !! p = files float w !! p) ∧
    (res = Ok tt ∨ res = Raise TypeError ∧ files float w' = files float w).
Proof.
  intros Hl.
  destruct (convert_booleans_outcome w l d BOOLEAN_COLUMNS Hl)
    as (w1 & res & Hrun & Hdirs & Hfiles & Hheap & Hres).
  { apply NoDup_singleton. }
  unfold write_tsv, mbind, M_bind, bind. rewrite Hrun.
  destruct res as [[l'|]|e]; [|done|].
  - destruct Hres as (d' & Hd' & _). unfold deref. rewrite Hd'. simpl.
    eexists _, _. split; [done|]. simpl. split; [done|].
    split; [by apply Hheap|]. split; [|by left].
    intros p Hp. by rewrite lookup_insert_ne, Hfiles.
  - destruct Hres as (-> & _).
    exists w1, (Raise TypeError). split; [done|]. split; [done|].
    split; [by apply Hheap|]. split; [by rewrite Hfiles|by right].
Qed.

Lemma readme_is_not_the_table (out : string) :
  os_path_join out "README.md" ≠ os_path_join out "concatenated_metadata.tsv".
Proof.
  unfold os_path_join. simpl.
  destruct (bool_decide (out = "") || Py.endswith out "/"); by intros ?%(inj _).
Qed.

(** C8: once tables are loaded, [concat_metadata] raises the ValueError
    that names 'subdirectory' and 'rel_paths' exactly when the concatenated
    table has neither column, and [metadata2markdown] raises the ValueError
    that names 'fname' and 'fnames' exactly when its table has neither; both
    errors leave [main] at once: after the first nothing is written or
    printed, after the second the README is not written. *)
Theorem missing_column_errors :
  (∀ (w : world) (path : string) (found : list (string * string)) (dfs : list frame),
     metadata_paths float w path = Ok found →
     found ≠ [] →
     traverse (read_csv float py_int parse_tsv w) found.*1 = Ok dfs →
     (concat_metadata' w path = Raise (ValueError SUBDIRECTORY_MESSAGE)
      ↔ (("subdirectory" ∉ columns (pd_concat float found.*2 dfs)) ∧
         ("rel_paths" ∉ columns (pd_concat float found.*2 dfs))))) ∧
  (∀ concatenated : frame,
     metadata2markdown' concatenated = Raise (ValueError FNAME_MESSAGE)
     ↔ (("fname" ∉ columns concatenated) ∧ ("fnames" ∉ columns concatenated))) ∧
  (Py.contains "'subdirectory'" SUBDIRECTORY_MESSAGE = true ∧
   Py.contains "'rel_paths'" SUBDIRECTORY_MESSAGE = true ∧
   Py.contains "'fname'" FNAME_MESSAGE = true ∧
   Py.contains "'fnames'" FNAME_MESSAGE = true) ∧
  (∀ (args : Args) (w : world) (e : exn),
     concat_metadata' w (dir args) = Raise e → main' args w = (w, Raise e)) ∧
  (∀ (args : Args) (w w2 : world) (table : frame) (e : exn),
     concat_metadata' w (dir args) = Ok table →
     rows table ≠ [] →
     write_tsv' (fresh (dom (heap float w)))
       (os_path_join (out args) "concatenated_metadata.tsv")
       (mkWorld float (dirs float w) (files float w) (stdout float w)
          (<[fresh (dom (heap float w)) := table]> (heap float w)))
     = (w2, Ok tt) →
     metadata2markdown' table = Raise e →
     main' args w = (w2, Raise e) ∧
     files float w2 !! os_path_join (out args) "README.md"
     = files float w !! os_path_join (out args) "README.md").
Proof.
  split; [|split; [|split; [|split]]].
  - intros w path found dfs Hfound Hne Hdfs. unfold concat_metadata.
    rewrite Hfound. simpl. rewrite Hdfs. simpl.
    rewrite bool_decide_eq_false_2 by (rewrite length_fmap; by destruct found).
    apply prefix_paths_ValueError.
  - apply metadata2markdown_ValueError.
  - by vm_compute.
  - apply main_raise.
  - intros args w w2 table e Hc Hrows Htsv Hmd.
    rewrite (main_rows args w table Hc Hrows). simpl.
    set (l := fresh (dom (heap float w))) in *.
    set (w1 := mkWorld float _ _ _ _) in *.
    destruct (write_tsv_outcome w1 l table
                (os_path_join (out args) "concatenated_metadata.tsv"))
      as (w' & res & Hrun & _ & Hheap & Hfiles & _); [apply lookup_insert_eq|].
    rewrite Htsv in Hrun. injection Hrun as <- <-.
    rewrite Htsv, Hheap, Hmd. split; [done|].
    rewrite Hfiles; [done|apply readme_is_not_the_table].
Qed.

(** *** The relative paths *)

Lemma rows_pd_concat (keys : list string) (dfs : list frame) :
  rows (pd_concat float keys dfs)
  = (λ o : string * (list (cell float) * row), (CStr o.1 :: o.2.1, o.2.2))
      <$> owned_rows float keys dfs.
Proof.
  unfold pd_concat, owned_rows. simpl. revert dfs.
  induction keys as [|key keys IH]; intros [|df dfs]; try done.
  simpl. rewrite fmap_app, <- IH. f_equal.
  rewrite <- list_fmap_compose. done.
Qed.

Lemma join_corpus_Ok (col : string) (lr : list (cell float) * row) (corpus v : string)
    (labels : list (cell float)) :
  lr.1 = CStr corpus :: labels →
  cell_at lr.2 col = CStr v →
  join_corpus float col lr = Ok (CStr (os_path_join corpus v)).
Proof. unfold join_corpus. by intros -> ->. Qed.

Lemma set_column_fmap (d : frame) (c : string)
    (g : list (cell float) * row → cell float) :
  set_column float d c (g <$> rows d)
  = mkFrame (columns d) (index_names d)
      ((λ lr : list (cell float) * row, (lr.1, <[c := g lr]> lr.2)) <$> rows d).
Proof.
  unfold set_column. f_equal. rewrite zip_with_fmap_r. apply zip_with_diag.
Qed.

(** On a table whose rows carry their corpus and strings in the path
    columns, lines 66-77 succeed and rewrite every row by [prefix_row]. *)
Lemma prefix_paths_rows (concatenated : frame) (col : string) :
  first_present ["subdirectory"; "rel_paths"] (columns concatenated) = Some col →
  Forall (λ lr : list (cell float) * row,
            (∃ corpus labels, lr.1 = CStr corpus :: labels) ∧
            is_Some (as_str (cell_at lr.2 col)) ∧
            ("rel_path" ∈ columns concatenated →
             is_Some (as_str (cell_at lr.2 "rel_path"))))
         (rows concatenated) →
  prefix_paths float concatenated
  = Ok (mkFrame (columns concatenated)
          (Some "corpus"
           :: drop 1 (take 1 (index_names concatenated) ++ drop 2 (index_names concatenated)))
          (prefix_row float col (bool_decide ("rel_path" ∈ columns concatenated))
             <$> rows concatenated)).
Proof.
  intros Hcol Hrows. unfold prefix_paths. rewrite Hcol.
  assert (Hne : col ≠ "rel_path").
  { apply first_present_Some in Hcol as [Hc _].
    repeat (apply elem_of_cons in Hc as [->|Hc]; [done|]). by apply elem_of_nil in Hc. }
  rewrite Forall_forall in Hrows.
  set (g1 := λ lr : list (cell float) * row,
         CStr (float := float)
           (os_path_join (default "" (head lr.1 ≫= as_str))
                         (default "" (as_str (cell_at lr.2 col))))).
  rewrite (traverse_fmap _ g1).
  2:{ intros lr Hlr. destruct (Hrows lr Hlr) as ((corpus & labels & Hlab) & [v Hv] & _).
      destruct (cell_at lr.2 col) as [| | | | |s] eqn:Hcell; try done.
      rewrite (join_corpus_Ok col lr corpus s labels Hlab Hcell).
      unfold g1. by rewrite Hlab, Hcell. }
  unfold mbind, result_bind. rewrite set_column_fmap. simpl.
  case_bool_decide as Hrel; simpl.
  - set (g2 := λ lr : list (cell float) * row,
           CStr (float := float)
             (os_path_join (default "" (head lr.1 ≫= as_str))
                           (default "" (as_str (cell_at lr.2 "rel_path"))))).
    rewrite (traverse_fmap _ g2).
    2:{ intros lr1 Hlr1. apply list_elem_of_fmap in Hlr1 as (lr & -> & Hlr).
        destruct (Hrows lr Hlr) as ((corpus & labels & Hlab) & _ & Hv).
        destruct (Hv Hrel) as [v Hv'].
        destruct (cell_at lr.2 "rel_path") as [| | | | |s] eqn:Hcell; try done.
        assert (Hcell1 : cell_at (<[col := g1 lr]> lr.2) "rel_path" = CStr s)
          by (unfold cell_at in *; by rewrite lookup_insert_ne).
        rewrite (join_corpus_Ok "rel_path" _ corpus s labels); try done.
        unfold g2. simpl. by rewrite Hlab, Hcell1. }
    unfold set_column, droplevel1, rename_index. simpl. f_equal. f_equal.
    rewrite zip_with_fmap_r, zip_with_diag, <- !list_fmap_compose. done.
  - unfold droplevel1, rename_index. simpl. f_equal. f_equal.
    by rewrite <- list_fmap_compose.
Qed.

Lemma prefix_row_cells (col : string) (has_rel_path : bool) (key : string)
    (labels : list (cell float)) (r : row) :
  col ≠ "rel_path" →
  let lr' := prefix_row float col has_rel_path (CStr key :: labels, r) in
  lr'.1 = CStr key :: drop 1 labels ∧
  (∀ v, cell_at r col = CStr v → cell_at lr'.2 col = CStr (os_path_join key v)) ∧
  (has_rel_path = true →
   ∀ v, cell_at r "rel_path" = CStr v → cell_at lr'.2 "rel_path" = CStr (os_path_join key v)) ∧
  (∀ c, c ≠ col → c ≠ "rel_path" ∨ has_rel_path = false → cell_at lr'.2 c = cell_at r c).
Proof.
  intros Hne. unfold prefix_row. simpl. split; [done|]. split; [|split].
  - intros v Hv. destruct has_rel_path; unfold cell_at in *.
    + rewrite lookup_insert_ne, lookup_insert_eq by done. simpl.
      destruct (r !! col) as [c|]; simpl in *; by subst.
    + rewrite lookup_insert_eq. simpl. destruct (r !! col) as [c|]; simpl in *; by subst.
  - intros -> v Hv. unfold cell_at in *.
    rewrite lookup_insert_eq, lookup_insert_ne by done. simpl.
    destruct (r !! "rel_path") as [c|]; simpl in *; by subst.
  - intros c Hc Hrel. unfold cell_at.
    destruct has_rel_path.
    + destruct Hrel as [Hrel|?]; [|done]. by rewrite !lookup_insert_ne.
    + by rewrite lookup_insert_ne.
Qed.

(** A relative path behind a directory name: the two joined by one "/". *)
Lemma os_path_join_relative (corpus v : string) :
  Py.startswith v "/" = false →
  corpus ≠ "" →
  Py.endswith corpus "/" = false →
  os_path_join corpus v = corpus +:+ "/" +:+ v.
Proof.
  intros Hv Hc Hend. unfold os_path_join.
  by rewrite Hv, Hend, bool_decide_eq_false_2.
Qed.

(** An absolute path behind a directory name: the directory is dropped. *)
Lemma os_path_join_absolute (corpus v : string) :
  Py.startswith v "/" = true → os_path_join corpus v = v.
Proof. intros Hv. unfold os_path_join. by rewrite Hv. Qed.

Lemma owned_rows_key (keys : list string) (dfs : list frame)
    (o : string * (list (cell float) * row)) :
  o ∈ owned_rows float keys dfs → o.1 ∈ keys.
Proof.
  unfold owned_rows. revert dfs.
  induction keys as [|key keys IH]; intros [|df dfs]; try (by intros ?%elem_of_nil).
  cbn [zip_with mjoin list_join]. intros [Ho|Ho]%elem_of_app.
  - apply list_elem_of_fmap in Ho as (lr & -> & _). left.
  - right. by eapply IH.
Qed.

(** C5, as the code has it: when tables are loaded from subdirectories with
    proper names (not empty, no slash at the end), the concatenated table
    has a path column (the first present of 'subdirectory' and 'rel_paths')
    and the path cells are strings, [concat_metadata] returns the rows of the tables in their
    order, each labelled with its subdirectory, with the cell of the path
    column replaced by [os.path.join(subdirectory, cell)], the join made
    once: a cell that does not start with a slash gets the subdirectory and
    one slash in front, a cell that starts with a slash is left as it is.
    A column 'rel_path' is rewritten in the same way and every other cell is
    left as it was. *)
Theorem concat_metadata_prefixes_paths (w : world) (path col : string)
    (found : list (string * string)) (dfs : list frame) :
  metadata_paths float w path = Ok found →
  found ≠ [] →
  (∀ subdir, subdir ∈ found.*2 → subdir ≠ "" ∧ Py.endswith subdir "/" = false) →
  traverse (read_csv float py_int parse_tsv w) found.*1 = Ok dfs →
  first_present ["subdirectory"; "rel_paths"] (columns (pd_concat float found.*2 dfs))
  = Some col →
  (∀ o, o ∈ owned_rows float found.*2 dfs →
     is_Some (as_str (cell_at o.2.2 col)) ∧
     ("rel_path" ∈ columns (pd_concat float found.*2 dfs) →
      is_Some (as_str (cell_at o.2.2 "rel_path")))) →
  ∃ agg : frame,
    concat_metadata' w path = Ok agg ∧
    columns agg = columns (pd_concat float found.*2 dfs) ∧
    index_names agg = [Some "corpus"] ∧
    Forall2 (λ (o : string * (list (cell float) * row)) (lr' : list (cell float) * row),
               lr'.1 = CStr o.1 :: drop 1 o.2.1 ∧
               (∀ v, cell_at o.2.2 col = CStr v →
                     cell_at lr'.2 col = CStr (os_path_join o.1 v) ∧
                     (Py.startswith v "/" = false →
                      cell_at lr'.2 col = CStr (o.1 +:+ "/" +:+ v)) ∧
                     (Py.startswith v "/" = true → cell_at lr'.2 col = CStr v)) ∧
               ("rel_path" ∈ columns (pd_concat float found.*2 dfs) →
                ∀ v, cell_at o.2.2 "rel_path" = CStr v →
                     cell_at lr'.2 "rel_path" = CStr (os_path_join o.1 v) ∧
                     (Py.startswith v "/" = false →
                      cell_at lr'.2 "rel_path" = CStr (o.1 +:+ "/" +:+ v)) ∧
                     (Py.startswith v "/" = true → cell_at lr'.2 "rel_path" = CStr v)) ∧
               (∀ c, c ≠ col →
                     c ≠ "rel_path" ∨ "rel_path" ∉ columns (pd_concat float found.*2 dfs) →
                     cell_at lr'.2 c = cell_at o.2.2 c))
            (owned_rows float found.*2 dfs) (rows agg).
Proof.
  intros Hfound Hne Hnames Hdfs Hcol Hstr.
  assert (Hcol' : col ≠ "rel_path").
  { apply first_present_Some in Hcol as [Hc _].
    repeat (apply elem_of_cons in Hc as [->|Hc]; [done|]). by apply elem_of_nil in Hc. }
  eexists. split.
  { unfold concat_metadata. rewrite Hfound. simpl. rewrite Hdfs. simpl.
    rewrite bool_decide_eq_false_2 by (rewrite length_fmap; by destruct found).
    apply (prefix_paths_rows _ col Hcol).
    rewrite rows_pd_concat. apply Forall_fmap, Forall_forall. intros o Ho. simpl.
    split; [by eexists _, _|]. by apply Hstr. }
  cbn [rows columns index_names]. split; [done|]. split; [done|].
  rewrite rows_pd_concat, <- list_fmap_compose.
  apply Forall2_fmap_r, Forall_Forall2_diag, Forall_forall.
  intros [key [labels r]] Ho. simpl.
  apply owned_rows_key, Hnames in Ho as [Hkey Hend]. simpl in Hkey, Hend.
  assert (Hjoin : ∀ v (c : cell float),
            c = CStr (os_path_join key v) →
            c = CStr (os_path_join key v) ∧
            (Py.startswith v "/" = false → c = CStr (key +:+ "/" +:+ v)) ∧
            (Py.startswith v "/" = true → c = CStr v)).
  { intros v c ->. split; [done|]. split; intros Hv.
    - by rewrite os_path_join_relative.
    - by rewrite os_path_join_absolute. }
  destruct (prefix_row_cells col (bool_decide ("rel_path" ∈ columns (pd_concat float found.*2 dfs)))
              key labels r Hcol') as (Hlab & Hpath & Hrel & Hother).
  split; [exact Hlab|]. split; [|split].
  - intros v Hv. by apply Hjoin, Hpath.
  - intros Hin v Hv. apply Hjoin, Hrel; [|done]. by apply bool_decide_eq_true_2.
  - intros c Hc Hnot. apply Hother; [done|].
    destruct Hnot as [?|Hnot]; [by left|right]. by apply bool_decide_eq_false_2.
Qed.

End aggregator_properties.

(** *** On the examples *)

Import UpdatePages (example_float).

Local Ltac by_compute := apply (bool_decide_unpack _); vm_compute; exact I.

Local Abbreviation example_int2bool := (int2bool example_float example_int).
Local Abbreviation example_concat_metadata :=
  (concat_metadata example_float example_int example_parse_tsv).
Local Abbreviation example_read_csv := (read_csv example_float example_int example_parse_tsv).
Local Abbreviation example_metadata2markdown :=
  (metadata2markdown example_float example_isnan example_markdown_table).
Local Abbreviation example_convert_booleans :=
  (convert_booleans example_float example_isnan example_astype_boolean example_repr example_repr_types).
Local Abbreviation example_main :=
  (main example_float example_isnan example_int example_parse_tsv example_astype_boolean example_to_csv
     example_markdown_table example_repr example_repr_types).

Example int2bool_values :
  example_int2bool <$> [CStr "t"; CStr "True"; CStr "FALSE"; CStr "f"; CStr "1"; CStr "0";
                        CStr "-3"; CStr "yes"; CStr ""; CNA]
  = [CBool true; CBool true; CBool false; CBool false; CBool true; CBool false;
     CBool true; CStr "yes"; CStr ""; CNA].
Proof. by vm_compute. Qed.

Lemma int2bool_cases_witness :
  example_int2bool (CStr "TRUE") = CBool true ∧
  example_int2bool (CStr "F") = CBool false ∧
  example_int2bool (CStr "7") = CBool true ∧
  example_int2bool (CStr "n/a") = CStr "n/a".
Proof.
  destruct (int2bool_cases example_float example_int) as (Htrue & Hfalse & Hother).
  split; [|split; [|split]].
  - apply (Htrue "TRUE" "true"); [by_compute|]. by apply case_variant_iff_lower.
  - apply (Hfalse "F" "f"); [by_compute|]. by apply case_variant_iff_lower.
  - rewrite Hother; [by vm_compute|].
    intros s w [= <-] Hw Hcv. apply lower_case_variant in Hcv.
    + vm_compute in Hcv. subst w.
      repeat (apply elem_of_cons in Hw as [Hw|Hw]; [discriminate|]).
      by apply elem_of_nil in Hw.
    + repeat (apply elem_of_cons in Hw as [->|Hw]; [done|]). by apply elem_of_nil in Hw.
  - rewrite Hother; [by vm_compute|].
    intros s w [= <-] Hw Hcv. apply lower_case_variant in Hcv.
    + vm_compute in Hcv. subst w.
      repeat (apply elem_of_cons in Hw as [Hw|Hw]; [discriminate|]).
      by apply elem_of_nil in Hw.
    + repeat (apply elem_of_cons in Hw as [->|Hw]; [done|]). by apply elem_of_nil in Hw.
Defined.

(** The run on the two corpora: the README keeps its lines before the
    overview and gets the new one. *)
Example main_on_corpora :
  let w' := (example_main example_args example_world).1 in
  (example_main example_args example_world).2 = Ok tt ∧
  files example_float w' !! "/repo/README.md"
  = Some (example_join (String LF "")
            ["# Corpora"; ""; "Two composers."; ""; "## Overview"; "";
             "### bach"; ""; "|file_name|measures|labels|standard|";
             "|---|---|---|---|"; "|BWV806|120|231|2.3.0|"; ""; "### mozart";
             ""; "|file_name|measures|labels|standard|"; "|---|---|---|---|";
             "|K279-1|100|187|2.3.0|"; "|K279-2|74|98|2.3.0|"]) ∧
  files example_float w' !! "/repo/concatenated_metadata.tsv"
  = Some (example_text
            [example_line ("corpus" :: example_header);
             example_line ["bach"; "BWV806"; "bach/MS3"; "0"; "120"; "231"; "2.3.0"];
             example_line ["mozart"; "K279-1"; "mozart/MS3"; "0"; "100"; "187"; "2.3.0"];
             example_line ["mozart"; "K279-2"; "mozart/MS3"; "1"; "74"; "98"; "2.3.0"]]) ∧
  stdout example_float w'
  = ["Transformed booleans in the column has_drumset to integers.";
     "Concatenated metadata written to /repo/concatenated_metadata.tsv.";
     "Updated /repo/README.md"].
Proof. by vm_compute. Qed.

Lemma write_md_replaces_overview_witness :
  ∃ w' : world example_float,
    write_md example_float "## Overview (new)" "/repo/README.md" example_world
    = (w', Ok tt) ∧
    files example_float w' !! "/repo/README.md"
    = Some (example_text ["# Corpora"; ""; "Two composers."; ""] +:+ "## Overview (new)").
Proof.
  destruct (write_md_replaces_overview example_float example_world
              "## Overview (new)" "/repo/README.md")
    as (w' & Hrun & _ & _ & _ & Hreplace & _).
  exists w'. split; [exact Hrun|].
  destruct (Hreplace
              (example_text ["# Corpora"; ""; "Two composers."; ""; "## Overview"; ""; "old"])
              ((λ l, l +:+ NL) <$> ["# Corpora"; ""; "Two composers."; ""])
              ("## Overview" +:+ NL)
              ((λ l, l +:+ NL) <$> [""; "old"])) as [Hfile _].
  - by vm_compute.
  - by vm_compute.
  - repeat constructor.
  - by vm_compute.
  - rewrite Hfile. by vm_compute.
Defined.

Lemma main_without_metadata_witness :
  example_concat_metadata example_bare_world "/bare" = Ok (mkFrame [] [None] []) ∧
  ∃ w' : world example_float,
    example_main (mkArgs "/bare" "/out") example_bare_world = (w', Ok tt) ∧
    files example_float w' = files example_float example_bare_world ∧
    dirs example_float w' = dirs example_float example_bare_world ∧
    stdout example_float w' = ["No metadata found in the child directories of /bare."].
Proof.
  apply (main_without_metadata example_float example_isnan example_int example_parse_tsv
           example_astype_boolean example_to_csv example_markdown_table example_repr
           example_repr_types (mkArgs "/bare" "/out") example_bare_world ["src"; "docs"]).
  - by vm_compute.
  - intros subdir Hsub.
    repeat (apply elem_of_cons in Hsub as [->|Hsub]; [by vm_compute|]).
    by apply elem_of_nil in Hsub.
Defined.

(** The aggregate of the two corpora: the paths behind their corpus. *)
Example concat_metadata_on_corpora :
  (λ d, (λ lr, (lr.1, cell_at lr.2 "fname", cell_at lr.2 "rel_paths")) <$> rows d)
    <$> example_concat_metadata example_world "/repo"
  = Ok [([CStr "bach"], CStr "BWV806", CStr "bach/MS3");
        ([CStr "mozart"], CStr "K279-1", CStr "mozart/MS3");
        ([CStr "mozart"], CStr "K279-2", CStr "mozart/MS3")].
Proof. by vm_compute. Qed.

Lemma concat_metadata_prefixes_paths_witness :
  ∃ agg : DataFrame example_float,
    example_concat_metadata example_world "/repo" = Ok agg ∧
    index_names agg = [Some "corpus"] ∧
    length (rows agg) = 3%nat.
Proof.
  destruct (traverse (example_read_csv example_world)
              ["/repo/bach/metadata.tsv"; "/repo/mozart/metadata.tsv"])
    as [dfs|e] eqn:Hdfs; [|by vm_compute in Hdfs].
  vm_compute in Hdfs. injection Hdfs as <-.
  edestruct (concat_metadata_prefixes_paths example_float example_int example_parse_tsv
               example_world "/repo" "rel_paths"
               [("/repo/bach/metadata.tsv", "bach"); ("/repo/mozart/metadata.tsv", "mozart")])
    as (agg & Hagg & _ & Hnames & Hrows).
  - by vm_compute.
  - discriminate.
  - intros subdir Hsub.
    repeat (apply elem_of_cons in Hsub as [->|Hsub]; [by vm_compute|]).
    by apply elem_of_nil in Hsub.
  - by vm_compute.
  - by vm_compute.
  - apply Forall_forall. by_compute.
  - exists agg. split; [exact Hagg|]. split; [exact Hnames|].
    apply Forall2_length in Hrows. rewrite <- Hrows. by vm_compute.
Defined.

(** A path that starts with a slash comes back as it is. *)
Example concat_metadata_on_absolute_path :
  (λ d, (λ lr, (lr.1, cell_at lr.2 "rel_paths")) <$> rows d)
    <$> example_concat_metadata example_world_with_absolute_path "/abs"
  = Ok [([CStr "a"], CStr "/srv/MS3")].
Proof. by vm_compute. Qed.

(** C5 read as putting the subdirectory name in front of every value of the
    path column: the path "/srv/MS3" of the corpus "a" would start with
    "a/"; [os.path.join] returns it as it is. *)
Lemma absolute_path_is_not_prefixed :
  ¬ ∃ agg : DataFrame example_float,
      example_concat_metadata example_world_with_absolute_path "/abs" = Ok agg ∧
      Forall (λ lr : list (cell example_float) * gmap string (cell example_float),
                ∃ v, cell_at lr.2 "rel_paths" = CStr ("a" +:+ "/" +:+ v))
             (rows agg).
Proof.
  intros (agg & Hagg & Hall).
  assert (Hcells : (λ d, (λ lr, cell_at lr.2 "rel_paths") <$> rows d)
                     <$> example_concat_metadata example_world_with_absolute_path "/abs"
                   = Ok [CStr "/srv/MS3"]) by (by vm_compute).
  rewrite Hagg in Hcells. cbn [fmap result_fmap] in Hcells. injection Hcells as Hcells.
  destruct (rows agg) as [|lr rs]; [done|].
  apply Forall_cons in Hall as [[v Hv] _].
  cbn [fmap list_fmap] in Hcells. injection Hcells as Hcell _.
  rewrite Hv in Hcell. discriminate Hcell.
Qed.

Example concat_metadata_without_paths :
  example_main (mkArgs "/plain" "/plain") example_world_without_paths
  = (example_world_without_paths, Raise (ValueError SUBDIRECTORY_MESSAGE)).
Proof. by vm_compute. Qed.

Lemma missing_column_errors_witness :
  example_concat_metadata example_world_without_paths "/plain"
  = Raise (ValueError SUBDIRECTORY_MESSAGE) ∧
  example_main (mkArgs "/plain" "/plain") example_world_without_paths
  = (example_world_without_paths, Raise (ValueError SUBDIRECTORY_MESSAGE)) ∧
  example_metadata2markdown example_table_without_fname = Raise (ValueError FNAME_MESSAGE).
Proof.
  destruct (missing_column_errors example_float example_isnan example_int example_parse_tsv
              example_astype_boolean example_to_csv example_markdown_table example_repr
              example_repr_types) as (Hconcat & Hmarkdown & _ & Hmain & _).
  assert (Hraise : example_concat_metadata example_world_without_paths "/plain"
                   = Raise (ValueError SUBDIRECTORY_MESSAGE)).
  { destruct (traverse (example_read_csv example_world_without_paths)
                ["/plain/a/metadata.tsv"]) as [dfs|e] eqn:Hdfs; [|by vm_compute in Hdfs].
    vm_compute in Hdfs. injection Hdfs as <-.
    eapply (Hconcat example_world_without_paths "/plain" [("/plain/a/metadata.tsv", "a")]).
    - by vm_compute.
    - discriminate.
    - by vm_compute.
    - split; by_compute. }
  split; [exact Hraise|]. split.
  - by apply (Hmain (mkArgs "/plain" "/plain")).
  - apply Hmarkdown. split; by_compute.
Defined.

(** The copy has the integers, the table it was made from keeps its
    booleans. *)
Example convert_booleans_on_table :
  let run := example_convert_booleans (Some 0%nat) BOOLEAN_COLUMNS example_world_with_table in
  run.2 = Ok (Some 1%nat) ∧
  (λ d, column_values example_float d "has_drumset") <$> heap example_float run.1 !! 0%nat
  = Some [CBool true; CNA; CBool false] ∧
  (λ d, column_values example_float d "has_drumset") <$> heap example_float run.1 !! 1%nat
  = Some [CInt 1; CNA; CInt 0] ∧
  (λ d, column_values example_float d "fname") <$> heap example_float run.1 !! 1%nat
  = Some [CStr "x"; CStr "y"; CStr "z"].
Proof. by vm_compute. Qed.

Lemma convert_booleans_copies_witness :
  ∃ (w' : world example_float) (res : result (option nat)),
    example_convert_booleans (Some 0%nat) BOOLEAN_COLUMNS example_world_with_table
    = (w', res) ∧
    heap example_float w' !! 0%nat = Some example_table_with_booleans.
Proof.
  destruct (convert_booleans_copies example_float example_isnan example_astype_boolean example_repr
              example_repr_types example_world_with_table 0%nat
              example_table_with_booleans BOOLEAN_COLUMNS)
    as (w' & res & Hrun & _ & _ & Hheap & _).
  - by vm_compute.
  - apply NoDup_singleton.
  - exists w', res. split; [exact Hrun|]. apply Hheap. by vm_compute.
Defined.

End ConcatMetadataSpec.

(** ** Further properties of update_pages.py *)

Module UpdatePagesExtra.
Import UpdatePages UpdatePagesSpec.

Section chart_more.

Variable float : Type.
Variable str_upper : string → string.
Variable has_str_accessor : list (cell float) → bool.
Variable key_colors : list (string * string).
Variable name2fifths : string → option Z.
Variable name2pc : string → option Z.
Variable fifths2name : Z → string.
Variable midi2name : Z → string.
Variable fnan : float.
Variable float_of_Z : Z → float.
Variable float_of_Q : Q → float.
Variable float_of_string : string → option float.
Variable fadd : float → float → float.
Variable fdiv : float → float → float.
Variable frac : string → option Q.
Variable frac_of_float : float → option Q.

Local Abbreviation row := (gmap string (cell float)).
Local Abbreviation frame := (DataFrame float).

(** The integers of an integer column are the integers its rows carry. *)
Lemma int_column_elem (df : frame) (tc : string) (values : list Z) (m : Z) :
  int_column float df tc = Some values →
  m ∈ values ↔ ∃ r : row, r ∈ rows df ∧ cell_at r tc = CInt m.
Proof.
  intros [_ Hrows]%int_column_rows. split.
  - intros Hm. apply list_elem_of_lookup in Hm as [i Hi].
    destruct (Forall2_lookup_r _ _ _ _ _ Hrows Hi) as (r & Hr & Hcell).
    exists r. split; [|done]. apply list_elem_of_lookup. eauto.
  - intros (r & Hr & Hcell). apply list_elem_of_lookup in Hr as [i Hi].
    destruct (Forall2_lookup_l _ _ _ _ _ Hrows Hi) as (v & Hv & Hcell').
    rewrite Hcell in Hcell'. injection Hcell' as ->.
    apply list_elem_of_lookup. eauto.
Qed.

(** A column of a table all of whose cells are integers. *)
Lemma int_column_intro (df : frame) (tc : string) :
  tc ∈ columns df →
  Forall (λ r : row, ∃ z, cell_at r tc = CInt z) (rows df) →
  int_column float df tc = Some (axis_key float tc <$> rows df).
Proof.
  intros Hin Hall. unfold int_column, column. rewrite bool_decide_eq_true_2 by done.
  simpl. apply mapM_Some_2. apply Forall2_fmap_l, Forall2_fmap_r, Forall_Forall2_diag.
  eapply Forall_impl; [exact Hall|]. intros r [z Hz]. unfold axis_key. simpl.
  by rewrite Hz.
Qed.

(** What a successful [sort_and_fill] on an integer axis has computed. *)
Lemma sort_and_fill_numeric_inv (data filled : frame) (tc : string) :
  numeric_axis tc = true →
  sort_and_fill_data float str_upper has_str_accessor data tc = Some filled →
  ∃ values mi ma,
    int_column float data tc = Some values ∧
    Py.minimum values = Some mi ∧
    Py.maximum values = Some ma.
Proof.
  intros Hnum. unfold sort_and_fill_data. rewrite Hnum.
  destruct (int_column float data tc) as [values|]; [|done]. simpl.
  destruct (Py.minimum values) as [mi|] eqn:Hmi; [|done]. simpl.
  destruct (Py.maximum values) as [ma|] eqn:Hma; [|done]. intros _.
  by exists values, mi, ma.
Qed.

(** The axis cells of the filled table: the integers of the input and the
    missing ones. *)
Lemma filled_axis_cells (data : frame) (tc : string) (values missing : list Z) (m : Z) :
  int_column float data tc = Some values →
  (∃ r : row,
     r ∈ merge_sort (axis_ge float tc) (rows data ++ (placeholder float tc <$> missing)) ∧
     cell_at r tc = CInt m)
  ↔ m ∈ values ∨ m ∈ missing.
Proof.
  intros Hvals. split.
  - intros (r & Hr & Hcell). rewrite (merge_sort_Permutation (axis_ge float tc)) in Hr.
    apply elem_of_app in Hr as [Hr|Hr].
    + left. apply (int_column_elem data tc values m Hvals). eauto.
    + right. apply list_elem_of_fmap in Hr as (m' & -> & Hm').
      rewrite placeholder_axis in Hcell. by injection Hcell as <-.
  - intros [Hm|Hm].
    + apply (int_column_elem data tc values m Hvals) in Hm as (r & Hr & Hcell).
      exists r. split; [|done]. rewrite (merge_sort_Permutation (axis_ge float tc)).
      apply elem_of_app. by left.
    + exists (placeholder float tc m). split; [|apply placeholder_axis].
      rewrite (merge_sort_Permutation (axis_ge float tc)).
      apply elem_of_app. right. by apply list_elem_of_fmap_2.
Qed.

(** X1: after gap filling the axis is a full range: the integers in the axis
    column are exactly those from min(0, least value) to the greatest value,
    and every row carries one. *)
Theorem sort_and_fill_contiguous (data : frame) (tc : string) (values : list Z) :
  numeric_axis tc = true →
  int_column float data tc = Some values →
  values ≠ [] →
  ∃ (mi ma : Z) (filled : frame),
    Py.minimum values = Some mi ∧
    Py.maximum values = Some ma ∧
    sort_and_fill_data float str_upper has_str_accessor data tc = Some filled ∧
    (∀ m, Z.min 0 mi ≤ m ≤ ma ↔ ∃ r : row, r ∈ rows filled ∧ cell_at r tc = CInt m) ∧
    (∀ r : row, r ∈ rows filled → ∃ m, cell_at r tc = CInt m).
Proof.
  intros Hnum Hvals Hne.
  destruct (minimum_is_Some values Hne) as [mi Hmi].
  destruct (maximum_is_Some values Hne) as [ma Hma].
  destruct (minimum_spec _ _ Hmi) as [Hmi_in Hmi_le].
  destruct (maximum_spec _ _ Hma) as [Hma_in Hma_le].
  exists mi, ma. eexists. split; [done|]. split; [done|].
  split; [by apply sort_and_fill_numeric|]. cbn [rows]. split.
  - intros m. rewrite (filled_axis_cells data tc values _ m Hvals).
    rewrite (missing_range values mi ma m Hma_in). split.
    + intros Hr. destruct (decide (m ∈ values)); [by left|by right].
    + intros [Hm|[Hr _]]; [|done].
      specialize (Hmi_le m Hm). specialize (Hma_le m Hm). lia.
  - intros r Hr. rewrite (merge_sort_Permutation (axis_ge float tc)) in Hr.
    apply elem_of_app in Hr as [Hr|Hr].
    + apply int_column_rows in Hvals as [_ Hrows].
      apply list_elem_of_lookup in Hr as [i Hi].
      destruct (Forall2_lookup_l _ _ _ _ _ Hrows Hi) as (v & _ & Hcell). eauto.
    + apply list_elem_of_fmap in Hr as (m & -> & _). exists m. apply placeholder_axis.
Qed.

(** Every row of the filled table carries an integer in the axis column. *)
Lemma filled_rows_int (data : frame) (tc : string) (values missing : list Z) :
  int_column float data tc = Some values →
  Forall (λ r : row, ∃ z, cell_at r tc = CInt z)
         (merge_sort (axis_ge float tc) (rows data ++ (placeholder float tc <$> missing))).
Proof.
  intros Hvals. apply Forall_forall. intros r Hr.
  rewrite (merge_sort_Permutation (axis_ge float tc)) in Hr.
  apply elem_of_app in Hr as [Hr|Hr].
  - apply int_column_rows in Hvals as [_ Hrows].
    apply list_elem_of_lookup in Hr as [i Hi].
    destruct (Forall2_lookup_l _ _ _ _ _ Hrows Hi) as (v & _ & Hcell). eauto.
  - apply list_elem_of_fmap in Hr as (m & -> & _). exists m. apply placeholder_axis.
Qed.

(** X2: gap filling is idempotent up to the order of rows with equal keys: on a
    table that [sort_and_fill] has produced, a second run finds nothing
    missing; it adds no row and no column. *)
Theorem sort_and_fill_twice (data filled : frame) (tc : string) :
  numeric_axis tc = true →
  sort_and_fill_data float str_upper has_str_accessor data tc = Some filled →
  ∃ again : frame,
    sort_and_fill_data float str_upper has_str_accessor filled tc = Some again ∧
    columns again = columns filled ∧
    rows again ≡ₚ rows filled.
Proof.
  intros Hnum Hfill.
  destruct (sort_and_fill_numeric_inv data filled tc Hnum Hfill)
    as (values & mi & ma & Hvals & Hmi & Hma).
  rewrite (sort_and_fill_numeric float str_upper has_str_accessor data tc values mi ma
             Hnum Hvals Hmi Hma) in Hfill.
  injection Hfill as <-.
  set (missing := filter (λ m, m ∉ values) (Py.range (Z.min 0 mi) ma)).
  set (filled := mkFrame _ _).
  destruct (minimum_spec _ _ Hmi) as [Hmi_in Hmi_le].
  destruct (maximum_spec _ _ Hma) as [Hma_in Hma_le].
  assert (Hcol : tc ∈ columns filled).
  { apply int_column_rows in Hvals as [Hin _]. apply elem_of_app. by left. }
  pose proof (int_column_intro filled tc Hcol (filled_rows_int data tc values missing Hvals))
    as Hvals2.
  set (values2 := axis_key float tc <$> rows filled) in Hvals2.
  assert (Hrange : ∀ m, m ∈ values2 ↔ Z.min 0 mi ≤ m ≤ ma).
  { intros m. rewrite (int_column_elem filled tc values2 m Hvals2).
    unfold filled. cbn [rows].
    rewrite (filled_axis_cells data tc values missing m Hvals).
    unfold missing. rewrite (missing_range values mi ma m Hma_in). split.
    - intros [Hm|[Hr _]]; [|done].
      specialize (Hmi_le m Hm). specialize (Hma_le m Hm). lia.
    - intros Hr. destruct (decide (m ∈ values)); [by left|by right]. }
  assert (Hne : values2 ≠ []).
  { intros Hnil. pose proof (Hmi_le ma Hma_in).
    assert (ma ∈ values2) as Hin by (apply Hrange; lia).
    rewrite Hnil in Hin. by apply elem_of_nil in Hin. }
  destruct (minimum_is_Some values2 Hne) as [mi2 Hmi2].
  destruct (maximum_is_Some values2 Hne) as [ma2 Hma2].
  destruct (minimum_spec _ _ Hmi2) as [Hmi2_in _].
  destruct (maximum_spec _ _ Hma2) as [Hma2_in _].
  apply Hrange in Hmi2_in. apply Hrange in Hma2_in.
  eexists. split.
  { by apply (sort_and_fill_numeric float str_upper has_str_accessor filled tc values2 mi2 ma2). }
  rewrite (filter_none (λ m, m ∉ values2)).
  2:{ intros m Hm Hnot. apply Hnot, Hrange.
      unfold Py.range in Hm. apply elem_of_seqZ in Hm. lia. }
  cbn [from_records columns rows fmap list_fmap list_difference].
  rewrite !app_nil_r. split; [done|].
  apply (merge_sort_Permutation (axis_ge float tc)).
Qed.

Local Instance upper_ge_trans tc : Transitive (upper_ge float str_upper tc).
Proof.
  intros x y z. unfold upper_ge.
  destruct (upper_key float str_upper tc x), (upper_key float str_upper tc y),
    (upper_key float str_upper tc z); try done.
  intros Hxy Hyz. by etransitivity.
Qed.

Local Instance upper_ge_total tc : Total (upper_ge float str_upper tc).
Proof.
  intros x y. unfold upper_ge.
  destruct (upper_key float str_upper tc x), (upper_key float str_upper tc y);
    [apply (total String.le)|by left|by right|by left].
Qed.

(** Rows sorted by their keys: those with a text come first, in descending
    order of the upper-cased text, those without follow. *)
Lemma sorted_by_upper_key (tc : string) (sorted : list row) :
  StronglySorted (upper_ge float str_upper tc) sorted →
  ∃ (with_text without_text : list row) (texts : list string),
    sorted = with_text ++ without_text ∧
    Forall2 (λ (r : row) k, cell_at r tc = CStr k) with_text texts ∧
    StronglySorted (λ a b, String.le (str_upper b) (str_upper a)) texts ∧
    Forall (λ r : row, as_str (cell_at r tc) = None) without_text.
Proof.
  induction 1 as [|r sorted Hsorted (wt & wo & texts & -> & Htexts & Hdesc & Hno) Hr].
  { exists [], [], []. repeat split; constructor. }
  destruct (cell_at r tc) as [| | | | |k] eqn:Hcell.
  6:{ exists (r :: wt), wo, (k :: texts). split; [done|].
      split; [by constructor|]. split; [|done]. constructor; [done|].
      apply Forall_app in Hr as [Hwt _]. clear -Hwt Htexts Hcell.
      induction Htexts as [|r' k' wt texts Hk' _ IH]; [constructor|].
      apply Forall_cons in Hwt as [Hr' Hwt]. constructor; [|by apply IH].
      unfold upper_ge, upper_key in Hr'. by rewrite Hcell, Hk' in Hr'. }
  all: exists [], (r :: wt ++ wo), []; split; [done|];
    split; [constructor|]; split; [constructor|];
    constructor; [by rewrite Hcell|];
    apply Forall_forall; intros r' Hr'; eapply Forall_forall in Hr; [|exact Hr'];
    unfold upper_ge, upper_key in Hr; rewrite Hcell in Hr; simpl in Hr;
    by destruct (as_str (cell_at r' tc)).
Qed.

(** X4: on a free-text axis (any task column other than 'semitones' and
    'fifths') that pandas reads as texts, [sort_and_fill] adds nothing and a
    global key transposes nothing: the chart gets the rows of the input,
    those with a text in the axis column first, in descending order of the
    upper-cased text ([str.upper]), those without one last. *)
Theorem create_modulation_plan_free_text (data : frame) (tc title : string)
    (globalkey : option string) (phraseends : option (list (cell float)))
    (colors : option (list (string * string))) (cells : list (cell float)) :
  numeric_axis tc = false →
  column float data tc = Some cells →
  has_str_accessor cells = true →
  ∃ (fig : figure float) (with_text without_text : list row) (texts : list string),
    create_modulation_plan float str_upper has_str_accessor key_colors
      name2fifths name2pc fifths2name midi2name
      data tc true title globalkey phraseends colors = Some fig ∧
    fig_data fig
    = (if bool_decide (tc = "Task")
       then mkFrame (columns data) (with_text ++ without_text)
       else rename_column float tc "Task"
              (mkFrame (columns data) (with_text ++ without_text))) ∧
    with_text ++ without_text ≡ₚ rows data ∧
    Forall2 (λ (r : row) k, cell_at r tc = CStr k) with_text texts ∧
    StronglySorted (λ a b, String.le (str_upper b) (str_upper a)) texts ∧
    Forall (λ r : row, as_str (cell_at r tc) = None) without_text.
Proof.
  intros Hnum Hcells Hstr.
  set (sorted := merge_sort (upper_ge float str_upper tc) (rows data)).
  assert (Hfig : ∃ fig : figure float,
             create_modulation_plan float str_upper has_str_accessor key_colors
               name2fifths name2pc fifths2name midi2name
               data tc true title globalkey phraseends colors = Some fig ∧
             fig_data fig
             = (if bool_decide (tc = "Task") then mkFrame (columns data) sorted
                else rename_column float tc "Task" (mkFrame (columns data) sorted))).
  { unfold create_modulation_plan, modulation_plan_data, sort_and_fill_data.
    rewrite Hnum, Hcells. cbn [mbind option_bind]. rewrite Hstr. cbn [mbind option_bind].
    assert (Hsame : ∀ k, transpose_axis float name2fifths name2pc fifths2name midi2name
                      (mkFrame (columns data) sorted) tc k
                    = Some (mkFrame (columns data) sorted)).
    { intros k. unfold transpose_axis. unfold numeric_axis in Hnum.
      apply orb_false_iff in Hnum as [Hs Hf]. by rewrite Hs, Hf. }
    destruct globalkey as [k|]; [rewrite Hsame|];
      (eexists; split; [reflexivity|]; unfold create_gantt; cbn [fig_data];
       by case_bool_decide). }
  destruct Hfig as (fig & Hfig & Hdata).
  destruct (sorted_by_upper_key tc sorted) as (wt & wo & texts & Heq & Htexts & Hdesc & Hno).
  { apply (StronglySorted_merge_sort (upper_ge float str_upper tc)). }
  exists fig, wt, wo, texts. rewrite <- Heq.
  split; [exact Hfig|]. split; [exact Hdata|]. split; [|done].
  apply (merge_sort_Permutation (upper_ge float str_upper tc)).
Qed.

(** The cells of a renamed row. *)
Lemma rename_row_cells (old new : string) (r : row) :
  cell_at (rename_row float old new r) new = cell_at r old ∧
  (old ≠ new → cell_at (rename_row float old new r) old = CNA) ∧
  (∀ c, c ≠ old → c ≠ new → cell_at (rename_row float old new r) c = cell_at r c).
Proof.
  unfold rename_row, cell_at. destruct (r !! old) as [v|] eqn:Hold.
  - split; [by rewrite lookup_insert_eq|]. split.
    + intros Hne. by rewrite lookup_insert_ne, lookup_delete_eq.
    + intros c Hco Hcn. by rewrite lookup_insert_ne, lookup_delete_ne.
  - split; [by rewrite lookup_delete_eq|]. split.
    + intros Hne. by rewrite lookup_delete_ne, Hold.
    + intros c Hco Hcn. by rewrite lookup_delete_ne.
Qed.

(** X6: [create_gantt] with a task column other than 'Task' hands to plotly a
    table in which that column is called 'Task': the table has a column
    'Task' and none of the old name, its other columns are those of the
    input, every row keeps its place, its 'Task' cell is the cell it had in
    the task column, and its other cells are unchanged. *)
Theorem create_gantt_renames_task_column (data : frame) (tc title : string)
    (colors : list (string * string))
    (layout : option (list (string * list (string * option string))))
    (shapes : option (list (shape float)))
    (annotations : option (list (list (string * string)))) :
  tc ≠ "Task" →
  tc ∈ columns data →
  "Task" ∉ columns data →
  let out := fig_data (create_gantt float data tc title colors layout shapes annotations) in
  "Task" ∈ columns out ∧
  (tc ∉ columns out) ∧
  length (columns out) = length (columns data) ∧
  (∀ c, c ≠ tc → c ≠ "Task" → c ∈ columns out ↔ c ∈ columns data) ∧
  Forall2 (λ r r' : row,
             cell_at r' "Task" = cell_at r tc ∧
             ∀ c, c ≠ tc → c ≠ "Task" → cell_at r' c = cell_at r c)
          (rows data) (rows out).
Proof.
  intros Hne Hin Hnot. unfold create_gantt. rewrite bool_decide_eq_false_2 by done.
  cbn [fig_data rename_column columns rows].
  split; [|split; [|split; [|split]]].
  - apply list_elem_of_fmap. exists tc. by rewrite bool_decide_eq_true_2.
  - intros [c [Hc Hcin]]%list_elem_of_fmap. case_bool_decide as Hx; [done|]. by subst c.
  - by rewrite length_fmap.
  - intros c Hct HcT. rewrite list_elem_of_fmap. split.
    + intros (x & Hx & Hxin). case_bool_decide; [done|]. by subst x.
    + intros Hc. exists c. by rewrite bool_decide_eq_false_2.
  - apply Forall2_fmap_r, Forall_Forall2_diag, Forall_forall. intros r _.
    destruct (rename_row_cells tc "Task" r) as (H1 & _ & H3). by split.
Qed.

(** X7: the layout entries that [create_gantt] applies to the chart are those of
    the [layout] passed and, unless it has one for 'xaxis', the entry
    [{'type': None}] for 'xaxis'.  An 'xaxis' entry of [layout] takes the
    place of the default one as a whole. *)
Theorem create_gantt_layout (data : frame) (tc title : string)
    (colors : list (string * string))
    (layout : list (string * list (string * option string)))
    (shapes : option (list (shape float)))
    (annotations : option (list (list (string * string)))) :
  NoDup layout.*1 →
  let out := fig_layout (create_gantt float data tc title colors (Some layout) shapes annotations) in
  NoDup out.*1 ∧
  ∀ k v, (k, v) ∈ out
         ↔ (k, v) ∈ layout ∨ (k = "xaxis" ∧ v = [("type", None)] ∧ "xaxis" ∉ layout.*1).
Proof.
  intros Hnd. unfold create_gantt. cbn [fig_layout]. unfold dict_update.
  cbn [fmap list_fmap fst snd app].
  assert (Hfun : ∀ k v1 v2, (k, v1) ∈ layout → (k, v2) ∈ layout → v1 = v2).
  { intros k v1 v2 H1 H2.
    apply (elem_of_list_to_map (M := gmap string)) in H1; [|done].
    apply (elem_of_list_to_map (M := gmap string)) in H2; [|done]. congruence. }
  assert (Hrest : ∀ kv : string * list (string * option string),
            kv ∈ filter (λ kv, kv.1 ∉ ["xaxis"]) layout ↔ kv ∈ layout ∧ kv.1 ≠ "xaxis").
  { intros kv. rewrite list_elem_of_filter, list_elem_of_singleton. split; intros [? ?]; done. }
  split.
  - apply NoDup_cons. split.
    + intros [kv [Hk Hkv]]%list_elem_of_fmap. apply Hrest in Hkv as [_ Hkv]. done.
    + apply (NoDup_fmap_2_strong fst).
      * intros [k1 v1] [k2 v2] [H1 _]%Hrest [H2 _]%Hrest Heq. simpl in Heq. subst k2.
        f_equal. by eapply Hfun.
      * by apply NoDup_filter, (NoDup_fmap_1 fst).
  - intros k v. rewrite elem_of_cons, Hrest. cbn [fst].
    destruct (list_to_map (M := gmap string _) layout !! "xaxis") as [x|] eqn:Hx; cbn [default].
    + apply elem_of_list_to_map in Hx; [|done]. split.
      * intros [[= -> ->]|[Hin _]]; by left.
      * intros [Hin|(-> & -> & Hno)].
        -- destruct (decide (k = "xaxis")) as [->|Hk]; [|by right].
           left. f_equal. by eapply Hfun.
        -- exfalso. apply Hno. apply list_elem_of_fmap. by exists ("xaxis", x).
    + apply not_elem_of_list_to_map in Hx. split.
      * intros [[= -> ->]|[Hin _]]; [by right|by left].
      * intros [Hin|(-> & -> & _)]; [|by left]. right. split; [done|].
        simpl. intros ->. apply Hx. apply list_elem_of_fmap. by exists ("xaxis", v).
Qed.

(** What a successful [get_phraseends] has done. *)
Lemma get_phraseends_inv (tab tab' : frame) (column_ : string) (l : list (cell float)) :
  get_phraseends float fnan float_of_Z float_of_Q float_of_string fadd fdiv frac
    frac_of_float tab column_ = Some (tab', l) →
  "phraseend" ∈ columns tab' ∧
  column_ ∈ columns tab' ∧
  l = (λ r : row, cell_at r column_)
        <$> filter (λ r : row, is_phraseend float (cell_at r "phraseend") = true) (rows tab') ∧
  (((column_ ≠ "mn_fraction" ∨ "mn_fraction" ∈ columns tab) ∧ tab' = tab) ∨
   (column_ = "mn_fraction" ∧ ("mn_fraction" ∉ columns tab) ∧
    ∃ positions,
      mn_fraction_column float fnan float_of_Z float_of_Q float_of_string fadd fdiv frac
        frac_of_float tab = Some positions ∧
      tab' = insert_column float tab "mn" "mn_fraction" (CFloat <$> positions))).
Proof.
  unfold get_phraseends.
  assert (Hend : ∀ t : frame,
            (if bool_decide ("phraseend" ∈ columns t)
             then values ← loc_mask float t (λ r, is_phraseend float (cell_at r "phraseend")) column_;
                  Some (t, values)
             else None) = Some (tab', l) →
            t = tab' ∧ "phraseend" ∈ columns tab' ∧ column_ ∈ columns tab' ∧
            l = (λ r : row, cell_at r column_)
                  <$> filter (λ r : row, is_phraseend float (cell_at r "phraseend") = true)
                        (rows tab')).
  { intros t. case_bool_decide as Hpe; [|done]. unfold loc_mask.
    case_bool_decide as Hc; [|done]. cbn [mbind option_bind]. by intros [= <- <-]. }
  destruct (bool_decide (column_ = "mn_fraction")
            && negb (bool_decide ("mn_fraction" ∈ columns tab))) eqn:Hcase.
  - apply andb_true_iff in Hcase as [Hc Hno]. apply bool_decide_eq_true_1 in Hc.
    apply negb_true_iff, bool_decide_eq_false_1 in Hno.
    destruct (mn_fraction_column _ _ _ _ _ _ _ _ _ tab) as [positions|] eqn:Hpos; [|done].
    cbn [mbind option_bind]. intros (<- & Hpe & Hcol & Hl)%Hend.
    split; [done|]. split; [done|]. split; [done|]. right.
    split; [done|]. split; [done|]. by exists positions.
  - cbn [mbind option_bind]. intros (<- & Hpe & Hcol & Hl)%Hend.
    split; [done|]. split; [done|]. split; [done|]. left. split; [|done].
    apply andb_false_iff in Hcase as [Hc|Hin].
    + left. by apply bool_decide_eq_false_1 in Hc.
    + right. by apply negb_false_iff, bool_decide_eq_true_1 in Hin.
Qed.

(** The computed column has one position per row, and needs a column 'mn'. *)
Lemma mn_fraction_column_length (tab : frame) (positions : list float) :
  mn_fraction_column float fnan float_of_Z float_of_Q float_of_string fadd fdiv frac
    frac_of_float tab = Some positions →
  "mn" ∈ columns tab ∧ length positions = length (rows tab).
Proof.
  unfold mn_fraction_column, column.
  destruct (bool_decide ("mn" ∈ columns tab)) eqn:Hmn; cbn [mbind option_bind]; [|done].
  apply bool_decide_eq_true_1 in Hmn.
  destruct (bool_decide ("mn_onset" ∈ columns tab)); cbn [mbind option_bind]; [|done].
  destruct (mapM _ ((λ r : row, cell_at r "mn_onset") <$> rows tab)) as [onsets|] eqn:H1;
    cbn [mbind option_bind]; [|done].
  destruct (bool_decide ("timesig" ∈ columns tab)); cbn [mbind option_bind]; [|done].
  destruct (mapM _ ((λ r : row, cell_at r "timesig") <$> rows tab)) as [fracs|] eqn:H2;
    cbn [mbind option_bind]; [|done].
  destruct (mapM _ fracs) as [timesigs|] eqn:H3; cbn [mbind option_bind]; [|done].
  intros H4. split; [done|].
  apply length_mapM in H1, H2, H3, H4. rewrite length_fmap in H1, H2.
  rewrite length_zip_with, length_fmap, length_zip_with in H4. lia.
Qed.

Lemma insert_after_split (c new : string) (cols : list string) :
  c ∈ cols →
  ∃ before after,
    cols = before ++ c :: after ∧ (c ∉ before) ∧
    insert_after c new cols = before ++ c :: new :: after.
Proof.
  induction cols as [|x cols IH]; [by intros ?%elem_of_nil|].
  intros Hc. simpl. case_bool_decide as Hx.
  - subst x. exists [], cols. split; [done|]. split; [apply not_elem_of_nil|done].
  - apply elem_of_cons in Hc as [->|Hc]; [done|].
    destruct (IH Hc) as (before & after & -> & Hno & ->).
    exists (x :: before), after. split; [done|]. split; [|done].
    apply not_elem_of_cons. split; [congruence|done].
Qed.

(** X8: [get_phraseends] keeps what it has computed: called again on the table
    that a successful call leaves, it returns the same list and leaves the
    table as it is. *)
Theorem get_phraseends_twice (tab tab' : frame) (column_ : string) (l : list (cell float)) :
  get_phraseends float fnan float_of_Z float_of_Q float_of_string fadd fdiv frac
    frac_of_float tab column_ = Some (tab', l) →
  get_phraseends float fnan float_of_Z float_of_Q float_of_string fadd fdiv frac
    frac_of_float tab' column_ = Some (tab', l).
Proof.
  intros (Hpe & Hcol & -> & Hcase)%get_phraseends_inv. unfold get_phraseends.
  assert (bool_decide (column_ = "mn_fraction")
          && negb (bool_decide ("mn_fraction" ∈ columns tab')) = false) as ->.
  { destruct (decide (column_ = "mn_fraction")) as [->|Hne].
    - rewrite (bool_decide_eq_true_2 _ Hcol). apply andb_false_r.
    - by rewrite (bool_decide_eq_false_2 _ Hne). }
  cbn [mbind option_bind]. rewrite (bool_decide_eq_true_2 _ Hpe).
  unfold loc_mask. by rewrite (bool_decide_eq_true_2 _ Hcol).
Qed.

(** X9: when [get_phraseends] computes the column 'mn_fraction', it inserts it
    right after 'mn' and changes nothing else of the table: the other
    columns keep their order, the rows their number and order and all
    their other cells. *)
Theorem get_phraseends_inserts_after_mn (tab tab' : frame) (l : list (cell float)) :
  NoDup (columns tab) →
  "mn_fraction" ∉ columns tab →
  get_phraseends float fnan float_of_Z float_of_Q float_of_string fadd fdiv frac
    frac_of_float tab "mn_fraction" = Some (tab', l) →
  (∃ before after,
     columns tab = before ++ "mn" :: after ∧
     columns tab' = before ++ "mn" :: "mn_fraction" :: after) ∧
  NoDup (columns tab') ∧
  Forall2 (λ r r' : row, ∀ c, c ≠ "mn_fraction" → cell_at r' c = cell_at r c)
          (rows tab) (rows tab').
Proof.
  intros Hnd Hno (_ & _ & _ & [[[?|?] _]|(_ & _ & positions & Hpos & ->)])%get_phraseends_inv;
    [done..|].
  apply mn_fraction_column_length in Hpos as [Hmn Hlen]. cbn [insert_column columns rows].
  destruct (insert_after_split "mn" "mn_fraction" (columns tab) Hmn)
    as (before & after & Hcols & _ & Hins).
  split; [by exists before, after|]. split.
  - rewrite Hins. rewrite Hcols in Hnd, Hno.
    apply NoDup_app in Hnd as (Hb & Hba & Ha). apply NoDup_cons in Ha as [Hma Ha].
    rewrite elem_of_app, elem_of_cons in Hno.
    apply NoDup_app. split; [done|]. split.
    + intros x Hx. rewrite !elem_of_cons. intros [->|[->|Hxa]].
      * apply (Hba "mn" Hx). by left.
      * apply Hno. by left.
      * apply (Hba x Hx). by right.
    + apply NoDup_cons. split.
      * rewrite elem_of_cons. by intros [?|?].
      * apply NoDup_cons. split; [|done]. intros ?. apply Hno. right. by right.
  - assert (Hlen' : length (rows tab) = length (CFloat (float := float) <$> positions))
      by (by rewrite length_fmap).
    revert Hlen'. generalize (CFloat (float := float) <$> positions). clear.
    induction (rows tab) as [|r rs IH]; intros [|v vs] Hlen; [constructor|done|done|].
    injection Hlen as Hlen. simpl. constructor; [|by apply IH].
    intros c Hc. unfold cell_at. by rewrite lookup_insert_ne.
Qed.

(** X10: asked for a column it does not compute (any other than 'mn_fraction',
    or 'mn_fraction' when the table has it), [get_phraseends] fails exactly
    when the table lacks the column 'phraseend' or the column asked for. *)
Theorem get_phraseends_fails_iff (tab : frame) (column_ : string) :
  column_ ≠ "mn_fraction" ∨ "mn_fraction" ∈ columns tab →
  get_phraseends float fnan float_of_Z float_of_Q float_of_string fadd fdiv frac
    frac_of_float tab column_ = None
  ↔ ("phraseend" ∉ columns tab) ∨ (column_ ∉ columns tab).
Proof.
  intros Hpresent. unfold get_phraseends.
  assert (bool_decide (column_ = "mn_fraction")
          && negb (bool_decide ("mn_fraction" ∈ columns tab)) = false) as ->.
  { destruct Hpresent as [Hne|Hin].
    - by rewrite (bool_decide_eq_false_2 _ Hne).
    - rewrite (bool_decide_eq_true_2 _ Hin). apply andb_false_r. }
  cbn [mbind option_bind]. unfold loc_mask.
  case_bool_decide as Hpe; [|split; [by left|done]].
  case_bool_decide as Hc; cbn [mbind option_bind].
  - split; [done|]. by intros [?|?].
  - split; [by right|done].
Qed.

(** X3: with [sort_and_fill] on an integer axis, a table without rows or
    without the axis column makes [create_modulation_plan] raise: there is
    no least and no greatest value to fill between. *)
Theorem create_modulation_plan_needs_rows (data : frame) (tc title : string)
    (globalkey : option string) (phraseends : option (list (cell float)))
    (colors : option (list (string * string))) :
  numeric_axis tc = true →
  rows data = [] ∨ tc ∉ columns data →
  create_modulation_plan float str_upper has_str_accessor key_colors
      name2fifths name2pc fifths2name midi2name
    data tc true title globalkey phraseends colors = None.
Proof.
  intros Hnum Hcase.
  unfold create_modulation_plan, modulation_plan_data, sort_and_fill_data, int_column, column.
  rewrite Hnum. destruct Hcase as [Hrows|Hno].
  - rewrite Hrows. by case_bool_decide.
  - by rewrite bool_decide_eq_false_2.
Qed.

End chart_more.

(** *** On the examples *)

Local Ltac by_compute := apply (bool_decide_unpack _); vm_compute; exact I.

Local Abbreviation example_get_phraseends :=
  (get_phraseends example_float example_fnan example_float_of_Z example_float_of_Q
     example_float_of_string example_fadd example_fdiv example_frac
     example_frac_of_float).

Lemma sort_and_fill_contiguous_witness :
  ∃ (mi ma : Z) (filled : DataFrame example_float),
    Py.minimum [-2; 3] = Some mi ∧
    Py.maximum [-2; 3] = Some ma ∧
    sort_and_fill_data example_float example_upper example_has_str_accessor
        example_plan "fifths" = Some filled ∧
    (∀ m, Z.min 0 mi ≤ m ≤ ma
          ↔ ∃ r : gmap string (cell example_float),
              r ∈ rows filled ∧ cell_at r "fifths" = CInt m) ∧
    (∀ r : gmap string (cell example_float),
       r ∈ rows filled → ∃ m, cell_at r "fifths" = CInt m).
Proof.
  apply (sort_and_fill_contiguous example_float example_upper example_has_str_accessor
           example_plan "fifths" [-2; 3]).
  - reflexivity.
  - by vm_compute.
  - discriminate.
Defined.

Lemma sort_and_fill_twice_witness :
  ∃ filled again : DataFrame example_float,
    sort_and_fill_data example_float example_upper example_has_str_accessor
        example_plan "fifths" = Some filled ∧
    sort_and_fill_data example_float example_upper example_has_str_accessor filled "fifths"
    = Some again ∧
    columns again = columns filled ∧
    rows again ≡ₚ rows filled.
Proof.
  destruct (sort_and_fill_data example_float example_upper example_has_str_accessor
      example_plan "fifths") as [filled|] eqn:Hfill;
    [|by vm_compute in Hfill].
  exists filled.
  destruct (sort_and_fill_twice example_float example_upper example_has_str_accessor
              example_plan filled "fifths")
    as (again & Hagain & Hcols & Hrows).
  - reflexivity.
  - exact Hfill.
  - by exists again.
Defined.

Lemma create_modulation_plan_free_text_witness :
  ∃ (fig : figure example_float)
    (with_text without_text : list (gmap string (cell example_float)))
    (texts : list string),
    create_modulation_plan example_float example_upper example_has_str_accessor KEY_COLORS
      example_name2fifths example_name2pc example_fifths2name example_midi2name
      example_numerals "numeral" true "plan" (Some "G") None None = Some fig ∧
    fig_data fig
    = (if bool_decide ("numeral" = "Task")
       then mkFrame (columns example_numerals) (with_text ++ without_text)
       else rename_column example_float "numeral" "Task"
              (mkFrame (columns example_numerals) (with_text ++ without_text))) ∧
    with_text ++ without_text ≡ₚ rows example_numerals ∧
    Forall2 (λ (r : gmap string (cell example_float)) k, cell_at r "numeral" = CStr k)
            with_text texts ∧
    StronglySorted (λ a b, String.le (example_upper b) (example_upper a)) texts ∧
    Forall (λ r : gmap string (cell example_float), as_str (cell_at r "numeral") = None)
           without_text.
Proof.
  apply (create_modulation_plan_free_text example_float example_upper
           example_has_str_accessor KEY_COLORS
           example_name2fifths example_name2pc example_fifths2name example_midi2name
           example_numerals "numeral" "plan" (Some "G") None None
           [CStr "iv"; CStr "V"; CNA; CStr "I"]).
  - reflexivity.
  - by vm_compute.
  - reflexivity.
Defined.

Lemma create_gantt_renames_task_column_witness :
  let out := fig_data (create_gantt example_float example_plan "fifths" "plan"
                         KEY_COLORS None None None) in
  "Task" ∈ columns out ∧
  ("fifths" ∉ columns out) ∧
  length (columns out) = length (columns example_plan) ∧
  (∀ c, c ≠ "fifths" → c ≠ "Task" → c ∈ columns out ↔ c ∈ columns example_plan) ∧
  Forall2 (λ r r' : gmap string (cell example_float),
             cell_at r' "Task" = cell_at r "fifths" ∧
             ∀ c, c ≠ "fifths" → c ≠ "Task" → cell_at r' c = cell_at r c)
          (rows example_plan) (rows out).
Proof.
  apply (create_gantt_renames_task_column example_float example_plan "fifths" "plan"
           KEY_COLORS None None None).
  - discriminate.
  - by_compute.
  - by_compute.
Defined.

Lemma create_gantt_layout_witness :
  let layout := [("yaxis", [("title", Some "Keys")]); ("xaxis", [("title", Some "Measures")])] in
  let out := fig_layout (create_gantt example_float example_plan "fifths" "plan"
                           KEY_COLORS (Some layout) None None) in
  NoDup out.*1 ∧
  ∀ k v, (k, v) ∈ out
         ↔ (k, v) ∈ layout ∨ (k = "xaxis" ∧ v = [("type", None)] ∧ "xaxis" ∉ layout.*1).
Proof.
  apply (create_gantt_layout example_float example_plan "fifths" "plan" KEY_COLORS
           [("yaxis", [("title", Some "Keys")]); ("xaxis", [("title", Some "Measures")])]
           None None).
  by_compute.
Defined.

Lemma get_phraseends_twice_witness :
  ∃ (tab' : DataFrame example_float) (l : list (cell example_float)),
    example_get_phraseends example_annotations "mn_fraction" = Some (tab', l) ∧
    example_get_phraseends tab' "mn_fraction" = Some (tab', l).
Proof.
  destruct (example_get_phraseends example_annotations "mn_fraction") as [[tab' l]|] eqn:Hget;
    [|by vm_compute in Hget].
  exists tab', l. split; [done|].
  apply (get_phraseends_twice example_float example_fnan example_float_of_Z
           example_float_of_Q example_float_of_string example_fadd example_fdiv
           example_frac example_frac_of_float example_annotations tab' "mn_fraction" l).
  exact Hget.
Defined.

Lemma get_phraseends_inserts_after_mn_witness :
  ∃ (tab' : DataFrame example_float) (l : list (cell example_float)),
    example_get_phraseends example_annotations "mn_fraction" = Some (tab', l) ∧
    (∃ before after,
       columns example_annotations = before ++ "mn" :: after ∧
       columns tab' = before ++ "mn" :: "mn_fraction" :: after) ∧
    NoDup (columns tab') ∧
    Forall2 (λ r r' : gmap string (cell example_float),
               ∀ c, c ≠ "mn_fraction" → cell_at r' c = cell_at r c)
            (rows example_annotations) (rows tab').
Proof.
  destruct (example_get_phraseends example_annotations "mn_fraction") as [[tab' l]|] eqn:Hget;
    [|by vm_compute in Hget].
  exists tab', l. split; [done|].
  apply (get_phraseends_inserts_after_mn example_float example_fnan example_float_of_Z
           example_float_of_Q example_float_of_string example_fadd example_fdiv
           example_frac example_frac_of_float example_annotations tab' l).
  - by_compute.
  - by_compute.
  - exact Hget.
Defined.

Lemma get_phraseends_fails_iff_witness :
  example_get_phraseends example_annotations "quarterbeats" = None
  ↔ ("phraseend" ∉ columns example_annotations)
    ∨ ("quarterbeats" ∉ columns example_annotations).
Proof.
  apply (get_phraseends_fails_iff example_float example_fnan example_float_of_Z
           example_float_of_Q example_float_of_string example_fadd example_fdiv
           example_frac example_frac_of_float example_annotations "quarterbeats").
  left. discriminate.
Defined.

(** X11: the page of the charts does not depend on the order in which the
    directory is listed: two listings of the same names give the same
    text. *)
Theorem gantt_file_content_order (listing listing' : list string) :
  listing ≡ₚ listing' →
  gantt_file_content listing = gantt_file_content listing'.
Proof.
  intros Hperm. unfold gantt_file_content. cbn zeta. do 2 f_equal.
  apply (StronglySorted_unique String.le).
  - apply (StronglySorted_merge_sort String.le).
  - apply (StronglySorted_merge_sort String.le).
  - by rewrite !(merge_sort_Permutation String.le).
Qed.

Example gantt_file_of_two_charts :
  gantt_file_content ["op02.html"; "op01.html"]
  = iframe "op01.html" +:+ String (Ascii.ascii_of_N 10) "" +:+ iframe "op02.html".
Proof. by vm_compute. Qed.

Lemma gantt_file_content_order_witness :
  gantt_file_content ["op02.html"; "op01.html"]
  = gantt_file_content ["op01.html"; "op02.html"].
Proof.
  apply (gantt_file_content_order ["op02.html"; "op01.html"] ["op01.html"; "op02.html"]).
  apply perm_swap.
Defined.

Lemma create_modulation_plan_needs_rows_witness :
  create_modulation_plan example_float example_upper example_has_str_accessor KEY_COLORS
      example_name2fifths example_name2pc
    example_fifths2name example_midi2name
    (mkFrame example_columns []) "fifths" true "plan" None None None = None.
Proof.
  apply (create_modulation_plan_needs_rows example_float example_upper
           example_has_str_accessor KEY_COLORS example_name2fifths example_name2pc
           example_fifths2name example_midi2name
           (mkFrame example_columns []) "fifths" "plan" None None None).
  - reflexivity.
  - by left.
Defined.

End UpdatePagesExtra.

(** ** Further properties of concat_metadata.py *)

Module ConcatMetadataExtra.
Import ConcatMetadata ConcatMetadataSpec.

Lemma StronglySorted_filter {A} (R : relation A) (P : A → Prop) `{∀ x, Decision (P x)}
    (l : list A) :
  StronglySorted R l → StronglySorted R (filter P l).
Proof.
  induction 1 as [|x l _ IH Hx]; [constructor|].
  rewrite filter_cons. destruct (decide (P x)); [|done].
  constructor; [done|]. apply Forall_forall. intros y [_ Hy]%list_elem_of_filter.
  by eapply Forall_forall in Hx.
Qed.

(** *** Text read in text mode, and its lines *)

Lemma universal_newlines_other (a : Ascii.ascii) (s : string) :
  a ≠ CR → universal_newlines (String a s) = String a (universal_newlines s).
Proof. intros Ha. cbn [universal_newlines]. by rewrite bool_decide_eq_false_2. Qed.

Lemma universal_newlines_CR (s : string) :
  ∃ s', universal_newlines (String CR s) = String LF s'.
Proof.
  cbn [universal_newlines]. rewrite (bool_decide_eq_true_2 (CR = CR)) by done.
  destruct s as [|b s]; [by eexists|]. case_bool_decide; by eexists.
Qed.

(** Text without carriage returns is read as it is; so is what has been
    read already. *)
Lemma universal_newlines_fixed_cons (a : Ascii.ascii) (s : string) :
  universal_newlines (String a s) = String a s →
  a ≠ CR ∧ universal_newlines s = s.
Proof.
  intros Hfix. destruct (decide (a = CR)) as [->|Ha].
  - destruct (universal_newlines_CR s) as [s' Hs']. rewrite Hs' in Hfix.
    by injection Hfix.
  - split; [done|]. rewrite universal_newlines_other in Hfix by done.
    by injection Hfix.
Qed.

Lemma universal_newlines_fixed_prefix (a b : string) :
  universal_newlines (a +:+ b) = a +:+ b → universal_newlines a = a.
Proof.
  induction a as [|x a IH]; [done|]. rewrite append_cons.
  intros [Hx Hfix]%universal_newlines_fixed_cons.
  rewrite universal_newlines_other by done. f_equal. by apply IH.
Qed.

Lemma universal_newlines_app (s t : string) :
  universal_newlines s = s →
  universal_newlines (s +:+ t) = s +:+ universal_newlines t.
Proof.
  induction s as [|x s IH]; [by rewrite !append_nil_l|].
  intros [Hx Hfix]%universal_newlines_fixed_cons.
  rewrite !append_cons, universal_newlines_other by done. f_equal. by apply IH.
Qed.

Lemma universal_newlines_idemp_bounded (n : nat) (s : string) :
  (String.length s ≤ n)%nat →
  universal_newlines (universal_newlines s) = universal_newlines s.
Proof.
  revert s. induction n as [|n IH]; intros [|a s] Hlen; try done; [simpl in Hlen; lia|].
  simpl in Hlen. destruct (decide (a = CR)) as [->|Ha].
  - cbn [universal_newlines]. rewrite (bool_decide_eq_true_2 (CR = CR)) by done.
    destruct s as [|b s]; [done|]. simpl in Hlen.
    case_bool_decide as Hb.
    + rewrite universal_newlines_other by done. f_equal. apply IH. lia.
    + rewrite universal_newlines_other by done. f_equal. apply IH. simpl. lia.
  - rewrite !universal_newlines_other by done. f_equal. apply IH. lia.
Qed.

Lemma universal_newlines_idemp (s : string) :
  universal_newlines (universal_newlines s) = universal_newlines s.
Proof. by apply (universal_newlines_idemp_bounded (String.length s)). Qed.

Lemma split_lines_LF (s : string) :
  split_lines (String LF s) = NL :: split_lines s.
Proof. cbn [split_lines]. by rewrite (bool_decide_eq_true_2 (LF = LF)). Qed.

Lemma split_lines_other (a : Ascii.ascii) (s : string) :
  a ≠ LF →
  split_lines (String a s)
  = match split_lines s with
    | [] => [String a ""]
    | l :: ls => String a l :: ls
    end.
Proof. intros Ha. cbn [split_lines]. by rewrite bool_decide_eq_false_2. Qed.

Lemma split_lines_nil (s : string) : split_lines s = [] → s = "".
Proof. intros Hs. by rewrite <- (join_split_lines s), Hs. Qed.

Lemma join_lines_app (ls ks : list string) :
  join_lines (ls ++ ks) = join_lines ls +:+ join_lines ks.
Proof.
  induction ls as [|l ls IH]; [by rewrite append_nil_l|].
  by rewrite <- app_comm_cons, !join_lines_cons, IH, append_assoc.
Qed.

(** After a text that ends a line, the lines of what follows are lines of
    the whole. *)
Lemma split_lines_app_NL (q t : string) :
  split_lines ((q +:+ NL) +:+ t) = split_lines (q +:+ NL) ++ split_lines t.
Proof.
  induction q as [|a q IH].
  - rewrite append_nil_l. unfold NL. rewrite append_cons, append_nil_l.
    by rewrite !split_lines_LF.
  - rewrite !append_cons. destruct (decide (a = LF)) as [->|Ha].
    + by rewrite !split_lines_LF, IH.
    + rewrite !split_lines_other, IH by done.
      destruct (split_lines (q +:+ NL)) as [|l ls] eqn:Hq; [|done].
      apply split_lines_nil in Hq. by destruct q.
Qed.

(** The first lines of a text, followed by another text. *)
Lemma split_lines_take (s t : string) (k : nat) :
  (k < length (split_lines s))%nat →
  split_lines (join_lines (take k (split_lines s)) +:+ t)
  = take k (split_lines s) ++ split_lines t.
Proof.
  revert k. induction s as [|a s IH]; intros k Hk; [simpl in Hk; lia|].
  destruct k as [|k]; [by rewrite append_nil_l|].
  destruct (decide (a = LF)) as [->|Ha].
  - rewrite split_lines_LF in Hk |- *. simpl in Hk.
    rewrite firstn_cons, join_lines_cons. unfold NL at 1.
    rewrite !append_cons, append_nil_l, split_lines_LF, IH by lia. done.
  - rewrite split_lines_other in Hk |- * by done.
    destruct (split_lines s) as [|l ls] eqn:Hs; [simpl in Hk; lia|].
    simpl in Hk. rewrite firstn_cons, join_lines_cons, !append_cons.
    rewrite split_lines_other by done.
    specialize (IH (S k) ltac:(simpl; lia)).
    rewrite firstn_cons, join_lines_cons in IH. by rewrite IH.
Qed.

(** A text and the same text with a line end appended: the line end
    closes the last line or is a line of its own. *)
Lemma split_lines_snoc (s : string) :
  split_lines (s +:+ NL) = split_lines s ++ [NL] ∨
  ∃ ls t, split_lines s = ls ++ [t] ∧ split_lines (s +:+ NL) = ls ++ [t +:+ NL].
Proof.
  induction s as [|a s IH].
  - left. by rewrite append_nil_l.
  - rewrite append_cons. destruct (decide (a = LF)) as [->|Ha].
    + rewrite !split_lines_LF. destruct IH as [->|(ls & t & -> & ->)]; [by left|].
      right. by exists (NL :: ls), t.
    + rewrite !split_lines_other by done.
      destruct IH as [->|(ls & t & -> & ->)].
      * destruct (split_lines s) as [|l ls]; [|by left].
        right. exists [], (String a ""). split; [done|].
        by rewrite append_cons, append_nil_l.
      * right. destruct ls as [|l ls].
        -- exists [], (String a t). split; [done|]. by rewrite append_cons.
        -- by exists (String a l :: ls), t.
Qed.

Lemma prefix_nil (t : string) : String.prefix "" t = true.
Proof. by destruct t. Qed.

Lemma prefix_cons_eq (a : Ascii.ascii) (s t : string) :
  String.prefix (String a s) (String a t) = String.prefix s t.
Proof.
  change (match Ascii.ascii_dec a a with
          | left _ => String.prefix s t
          | right _ => false
          end = String.prefix s t).
  by destruct (Ascii.ascii_dec a a).
Qed.

Lemma prefix_cons_ne (a b : Ascii.ascii) (s t : string) :
  a ≠ b → String.prefix (String a s) (String b t) = false.
Proof.
  intros Hne.
  change (match Ascii.ascii_dec a b with
          | left _ => String.prefix s t
          | right _ => false
          end = false).
  by destruct (Ascii.ascii_dec a b).
Qed.

(** A text with no line end in it starts with none. *)
Lemma contains_NL_cons (x : Ascii.ascii) (n : string) :
  Py.contains NL (String x n) = false → x ≠ LF ∧ Py.contains NL n = false.
Proof.
  change (Py.contains NL (String x n))
    with (String.prefix NL (String x n) || Py.contains NL n).
  intros [Hx Hn]%orb_false_iff. split; [|done]. intros ->.
  unfold NL in Hx. by rewrite prefix_cons_eq, prefix_nil in Hx.
Qed.

(** A line end appended to a line does not make it an overview line. *)
Lemma prefix_snoc (n u : string) :
  Py.contains NL n = false →
  String.prefix n (u +:+ NL) = true → String.prefix n u = true.
Proof.
  revert u. induction n as [|x n IH]; intros u Hn; [by rewrite !prefix_nil|].
  apply contains_NL_cons in Hn as [Hx Hn].
  destruct u as [|b u].
  - rewrite append_nil_l. unfold NL. by rewrite prefix_cons_ne.
  - rewrite append_cons. destruct (decide (x = b)) as [->|Hb].
    + rewrite !prefix_cons_eq. by apply IH.
    + by rewrite prefix_cons_ne.
Qed.

Lemma contains_snoc (n t : string) :
  n ≠ "" →
  Py.contains NL n = false →
  Py.contains n t = false → Py.contains n (t +:+ NL) = false.
Proof.
  intros Hne Hn. induction t as [|a t IH].
  - intros _. rewrite append_nil_l.
    destruct n as [|x n]; [done|]. apply contains_NL_cons in Hn as [Hx _].
    unfold NL. cbn [Py.contains]. by rewrite prefix_cons_ne.
  - rewrite append_cons. cbn [Py.contains].
    intros [Hp Ht]%orb_false_iff. apply orb_false_iff. split; [|by apply IH].
    destruct (String.prefix n (String a (t +:+ NL))) eqn:Hpre; [|done].
    rewrite <- append_cons in Hpre. apply prefix_snoc in Hpre; [|done]. congruence.
Qed.

Lemma lines_snoc_without_overview (s : string) :
  Forall (λ l, Py.contains "# Overview" l = false) (split_lines s) →
  Forall (λ l, Py.contains "# Overview" l = false) (split_lines (s +:+ NL)).
Proof.
  intros Hs. destruct (split_lines_snoc s) as [->|(ls & t & Heq & ->)].
  - apply Forall_app. split; [done|]. by constructor.
  - rewrite Heq in Hs. apply Forall_app in Hs as [Hls Ht].
    apply Forall_app. split; [done|]. constructor; [|done].
    apply contains_snoc; [done|done|]. by inv Ht.
Qed.

(** The lines up to the first overview line, if there is one. *)
Lemma lines_until_overview (lines : list string) :
  Forall (λ l, Py.contains "# Overview" l = false) lines ∨
  ∃ before line after,
    lines = before ++ line :: after ∧
    Forall (λ l, Py.contains "# Overview" l = false) before ∧
    Py.contains "# Overview" line = true.
Proof.
  induction lines as [|l lines IH]; [by left|].
  destruct (Py.contains "# Overview" l) eqn:Hl.
  - right. by exists [], l, lines.
  - destruct IH as [Hall|(before & line & after & -> & Hbefore & Hline)].
    + left. by constructor.
    + right. exists (l :: before), line, after. split; [done|]. split; [|done].
      by constructor.
Qed.

(** What [write_md] writes in front of the overview is text without
    carriage returns that ends a line or is empty, none of whose lines is an
    overview line: read again, it is written again as it is. *)
Lemma write_lines_again (s md m : string) (ms : list string) :
  universal_newlines s = s →
  split_lines (universal_newlines md) = m :: ms →
  Py.contains "# Overview" m = true →
  write_lines (readlines (write_lines (split_lines s) +:+ md))
  = write_lines (split_lines s).
Proof.
  intros Hs Hmd Hm. unfold readlines.
  destruct (lines_until_overview (split_lines s))
    as [Hall|(before & line & after & Hlines & Hbefore & Hline)].
  - rewrite (write_lines_else _ Hall), join_split_lines.
    assert (Hfix : universal_newlines ((s +:+ NL) +:+ NL) = (s +:+ NL) +:+ NL).
    { rewrite append_assoc. by rewrite universal_newlines_app. }
    rewrite <- (append_assoc s NL NL).
    rewrite universal_newlines_app by done.
    rewrite split_lines_app_NL, Hmd.
    rewrite (write_lines_break _ ms m); [apply join_split_lines| |done].
    by do 2 apply lines_snoc_without_overview.
  - rewrite Hlines, (write_lines_break _ _ _ Hbefore Hline).
    assert (Hjoin : s = join_lines before +:+ join_lines (line :: after)).
    { by rewrite <- join_lines_app, <- Hlines, join_split_lines. }
    assert (Hfix : universal_newlines (join_lines before) = join_lines before).
    { apply (universal_newlines_fixed_prefix _ (join_lines (line :: after))).
      by rewrite <- Hjoin. }
    rewrite universal_newlines_app by done.
    assert (Htake : before = take (length before) (split_lines s))
      by (by rewrite Hlines, take_app_length).
    rewrite Htake at 1. rewrite split_lines_take.
    + rewrite <- Htake, Hmd. by apply write_lines_break.
    + rewrite Hlines, length_app. simpl. lia.
Qed.

(** *** Renamed columns and the head of the overview *)

Lemma renamed_cons (k v : string) (mapping : list (string * string)) (c : string) :
  renamed ((k, v) :: mapping) c = if decide (c = k) then v else renamed mapping c.
Proof.
  unfold renamed. cbn [list_to_map foldr uncurry]. destruct (decide (c = k)) as [->|Hne].
  - by rewrite lookup_insert_eq.
  - by rewrite lookup_insert_ne.
Qed.

Lemma renamed_nil (c : string) : renamed [] c = c.
Proof. done. Qed.

(** A label is selected exactly when some column carries it after the
    renaming. *)
Lemma columns_labelled_Ok (mapping : list (string * string)) (cols : list string)
    (label : string) :
  (∃ found, columns_labelled mapping cols label = Ok found)
  ↔ ∃ c, c ∈ cols ∧ renamed mapping c = label.
Proof.
  unfold columns_labelled.
  destruct (filter (λ c, renamed mapping c = label) cols) as [|c found] eqn:Hf.
  - split; [by intros [? ?]|]. intros (c & Hc & Hr).
    assert (c ∈ filter (λ c, renamed mapping c = label) cols) as Hin
      by (by apply list_elem_of_filter).
    rewrite Hf in Hin. by apply elem_of_nil in Hin.
  - split; [|by eexists]. intros _. exists c.
    assert (c ∈ filter (λ c, renamed mapping c = label) cols) as Hin
      by (rewrite Hf; left).
    apply list_elem_of_filter in Hin as [? ?]. by split.
Qed.

(** The column that gets the label [new]: the one called [old], or one
    that is called [new] already. *)
Lemma renamed_label (fname_col old new c : string) :
  fname_col ∈ ["fname"; "fnames"] →
  (old, new) ∈ [("last_mn", "measures"); ("label_count", "labels");
                ("harmony_version", "standard")] →
  renamed (rename4markdown fname_col) c = new ↔ c = old ∨ c = new.
Proof.
  intros Hf Hpair. unfold rename4markdown. rewrite !renamed_cons, renamed_nil.
  repeat (apply elem_of_cons in Hf as [->|Hf]);
    [| |by apply elem_of_nil in Hf];
    (repeat (apply elem_of_cons in Hpair as [[= -> ->]|Hpair]);
       [| | |by apply elem_of_nil in Hpair];
       repeat case_decide; subst; split; try done; try (by intros [?|?]); auto).
Qed.

(** The overview starts with its heading. *)
Lemma overview_head {A} (f : A → string) (groups : list A) (start : string) :
  ∃ rest,
    foldl (λ result g, result +:+ NL +:+ f g) start groups = start +:+ rest ∧
    (rest = "" ∨ ∃ r, rest = NL +:+ r).
Proof.
  revert start. induction groups as [|g groups IH]; intros start.
  - exists "". split; [by rewrite append_nil_r|by left].
  - cbn [foldl]. destruct (IH (start +:+ NL +:+ f g)) as (rest & -> & _).
    exists (NL +:+ f g +:+ rest). split; [|right; by eexists].
    by rewrite <- !append_assoc.
Qed.

Lemma readlines_overview (rest : string) :
  rest = "" ∨ (∃ r, rest = NL +:+ r) →
  ∃ m ms, readlines ("## Overview" +:+ rest) = m :: ms ∧
          Py.contains "# Overview" m = true.
Proof.
  intros [->|[r ->]].
  - exists "## Overview", []. by vm_compute.
  - exists ("## Overview" +:+ NL), (split_lines (universal_newlines r)).
    split; [|by vm_compute]. unfold readlines.
    rewrite universal_newlines_app by done.
    change (NL +:+ r) with (String LF r).
    rewrite universal_newlines_other by done.
    change (String LF (universal_newlines r)) with (NL +:+ universal_newlines r).
    rewrite <- append_assoc. by rewrite split_lines_app_NL.
Qed.

(** *** Paths *)

Lemma rev_app_append (s t : string) : String.rev_app s t = String.rev s +:+ t.
Proof.
  unfold String.rev. revert t. induction s as [|a s IH]; intros t; [done|].
  cbn [String.rev_app]. rewrite (IH (String a t)), (IH (String a "")).
  by rewrite append_assoc.
Qed.

Lemma rev_append (a b : string) : String.rev (a +:+ b) = String.rev b +:+ String.rev a.
Proof.
  induction a as [|x a IH]; [by rewrite append_nil_l, append_nil_r|].
  rewrite append_cons. unfold String.rev at 1 3. cbn [String.rev_app].
  rewrite !rev_app_append, IH. by rewrite append_assoc.
Qed.

(** A path joined with a relative file name ends with that name, after a
    slash unless the directory is the empty path. *)
Lemma os_path_join_file (a b : string) :
  Py.startswith b "/" = false →
  ∃ x, os_path_join a b = x +:+ b ∧
       (x = "" ∨ String.prefix "/" (String.rev x) = true).
Proof.
  intros Hb. unfold os_path_join. rewrite Hb.
  destruct (decide (a = "")) as [->|Ha].
  { exists "". split; [done|by left]. }
  rewrite bool_decide_eq_false_2 by done. cbn [orb].
  destruct (Py.endswith a "/") eqn:Hend.
  - exists a. split; [done|]. by right.
  - exists (a +:+ "/"). split; [by rewrite append_assoc|]. right.
    rewrite rev_append. change (String.rev "/") with "/".
    by rewrite append_cons, append_nil_l, prefix_cons_eq, prefix_nil.
Qed.

(** The files [main] writes are not among those it reads. *)
Lemma metadata_path_is_no_output (path subdir out : string) :
  os_path_join (os_path_join path subdir) "metadata.tsv"
  ≠ os_path_join out "concatenated_metadata.tsv" ∧
  os_path_join (os_path_join path subdir) "metadata.tsv"
  ≠ os_path_join out "README.md".
Proof.
  destruct (os_path_join_file (os_path_join path subdir) "metadata.tsv")
    as (x & -> & Hx); [done|].
  split.
  - destruct (os_path_join_file out "concatenated_metadata.tsv") as (y & -> & _); [done|].
    intros Heq. apply (f_equal String.rev) in Heq. rewrite !rev_append in Heq.
    change (String.rev "metadata.tsv") with "vst.atadatem" in Heq.
    change (String.rev "concatenated_metadata.tsv")
      with ("vst.atadatem" +:+ "_detanetacnoc") in Heq.
    rewrite append_assoc in Heq. apply (inj (String.app "vst.atadatem")) in Heq.
    destruct Hx as [->|Hx]; [done|]. rewrite Heq in Hx.
    by rewrite append_cons, prefix_cons_ne in Hx.
  - destruct (os_path_join_file out "README.md") as (y & -> & _); [done|].
    intros Heq. apply (f_equal String.rev) in Heq. rewrite !rev_append in Heq.
    change (String.rev "metadata.tsv") with "vst.atadatem" in Heq.
    change (String.rev "README.md") with "dm.EMDAER" in Heq.
    rewrite !append_cons in Heq. discriminate Heq.
Qed.

(** The text [write_md] leaves in a file is the text it writes again. *)
Lemma write_md_content_again (old : option string) (md_str m : string) (ms : list string) :
  readlines md_str = m :: ms →
  Py.contains "# Overview" m = true →
  let lines := match old with Some content => readlines content | None => [] end in
  write_lines (readlines (write_lines lines +:+ md_str)) +:+ md_str
  = write_lines lines +:+ md_str.
Proof.
  intros Hmd Hm. cbn zeta. f_equal. destruct old as [content|].
  - apply (write_lines_again (universal_newlines content) md_str m ms); [|done..].
    apply universal_newlines_idemp.
  - by apply (write_lines_again "" md_str m ms).
Qed.

(** Membership in a list given by its elements. *)
Local Ltac by_elem := repeat first [left | right].

Section aggregator_more.

Variable float : Type.
Variable float_isnan : float → bool.
Variable py_int : cell float → option Z.
Variable parse_tsv : string → option (list string * list (list string)).
Variable astype_boolean : list (cell float) → option (list (option bool)).

Local Abbreviation row := (gmap string (cell float)).
Local Abbreviation frame := (DataFrame float).

Variable to_csv : frame → string.
Variable markdown_table : list string → list (list (cell float)) → string.
Variable py_repr : string → string.
Variable repr_types : list (cell float) → string.

Local Abbreviation world := (world float).

(** The paths found by lines 49-55. *)
Lemma metadata_paths_found (w : world) (path : string) (folders : list string) :
  dirs float w !! path = Some folders →
  ∃ found : list (string * string),
    metadata_paths float w path = Ok found ∧
    StronglySorted String.le found.*2 ∧
    (∀ p subdir,
       (p, subdir) ∈ found
       ↔ subdir ∈ folders ∧
         p = os_path_join (os_path_join path subdir) "metadata.tsv" ∧
         is_Some (files float w !! p)) ∧
    (NoDup folders → NoDup found.*2).
Proof.
  intros Hdir. unfold metadata_paths. rewrite Hdir. eexists. split; [done|].
  set (g := λ subdir : string,
              (os_path_join (os_path_join path subdir) "metadata.tsv", subdir)).
  set (P := λ p : string * string, is_Some (files float w !! p.1)).
  assert (Hsnd : ∀ l : list string, (filter P (g <$> l)).*2 = filter (λ s, P (g s)) l).
  { induction l as [|s l IH]; [done|]. rewrite fmap_cons, !filter_cons.
    destruct (decide (P (g s))); [|done]. rewrite fmap_cons. by f_equal. }
  split; [|split].
  - rewrite Hsnd. apply StronglySorted_filter.
    apply (StronglySorted_merge_sort String.le).
  - intros p subdir. rewrite list_elem_of_filter, list_elem_of_fmap. unfold P, g. simpl.
    split.
    + intros (Hfile & s & [= -> ->] & Hs).
      unfold sorted in Hs. rewrite (merge_sort_Permutation String.le) in Hs. done.
    + intros (Hs & -> & Hfile). split; [done|]. exists subdir. split; [done|].
      unfold sorted. by rewrite (merge_sort_Permutation String.le).
  - intros Hnd. rewrite Hsnd. apply NoDup_filter.
    unfold sorted. by rewrite (merge_sort_Permutation String.le).
Qed.

(** X12: the tables are loaded from exactly the immediate subdirectories of
    [path] that hold a file metadata.tsv, each under the name of its
    subdirectory, in the sorted order of these names. *)
Theorem metadata_paths_sorted (w : world) (path : string) (folders : list string) :
  dirs float w !! path = Some folders →
  ∃ found : list (string * string),
    metadata_paths float w path = Ok found ∧
    StronglySorted String.le found.*2 ∧
    (∀ p subdir,
       (p, subdir) ∈ found
       ↔ subdir ∈ folders ∧
         p = os_path_join (os_path_join path subdir) "metadata.tsv" ∧
         is_Some (files float w !! p)) ∧
    (NoDup folders → NoDup found.*2).
Proof. apply metadata_paths_found. Qed.

(** X17: writing the same overview a second time changes nothing: when the
    first line of the overview is an overview line (it contains
    '# Overview', as the text '## Overview ...' that [metadata2markdown]
    returns does), [write_md] run again on the file it has written writes
    the same text, whatever the file held before the first run. *)
Theorem write_md_twice (w : world) (md_str md_path m : string) (ms : list string) :
  readlines md_str = m :: ms →
  Py.contains "# Overview" m = true →
  let w1 := (write_md float md_str md_path w).1 in
  let w2 := (write_md float md_str md_path w1).1 in
  files float w2 = files float w1 ∧
  dirs float w2 = dirs float w ∧
  heap float w2 = heap float w ∧
  stdout float w2 = stdout float w1 ++ ["Updated " +:+ md_path].
Proof.
  intros Hmd Hm. cbn zeta. rewrite (write_md_run float w). cbn [fst].
  rewrite (write_md_run float). cbn [fst files dirs heap stdout].
  rewrite lookup_insert_eq. split; [|done].
  rewrite insert_insert_eq. f_equal. f_equal.
  destruct (files float w !! md_path) as [content|].
  - unfold readlines at 2 3.
    apply (write_lines_again (universal_newlines content) md_str m ms); [|done..].
    apply universal_newlines_idemp.
  - apply (write_lines_again "" md_str m ms); done.
Qed.

(** The outcomes of [metadata2markdown]. *)
Lemma metadata2markdown_cases (concatenated : frame) :
  let cols := columns concatenated in
  let has_fname := "fname" ∈ cols ∨ "fnames" ∈ cols in
  let complete :=
    ∀ old new,
      (old, new) ∈ [("last_mn", "measures"); ("label_count", "labels");
                    ("harmony_version", "standard")] →
      old ∈ cols ∨ new ∈ cols in
  match metadata2markdown float float_isnan markdown_table concatenated with
  | Ok md_str =>
      has_fname ∧ complete ∧
      (md_str = "## Overview" ∨ ∃ rest, md_str = "## Overview" +:+ NL +:+ rest)
  | Raise e =>
      (¬ has_fname ∧ e = ValueError FNAME_MESSAGE) ∨
      (has_fname ∧
       ∃ old new,
         (old, new) ∈ [("last_mn", "measures"); ("label_count", "labels");
                       ("harmony_version", "standard")] ∧
         (old ∉ cols) ∧ (new ∉ cols) ∧ e = KeyError new)
  end.
Proof.
  cbn zeta. unfold metadata2markdown.
  destruct (first_present _ _) as [fname_col|] eqn:Hcol.
  2:{ left. pose proof (proj1 (first_present_None _ _) Hcol) as Hnone. split; [|done].
      intros [Hf|Hf]; (eapply Hnone; [|exact Hf]); [left|right; left]. }
  apply first_present_Some in Hcol as [Hname Hin].
  assert (Hhas : "fname" ∈ columns concatenated ∨ "fnames" ∈ columns concatenated).
  { apply elem_of_cons in Hname as [->|Hname]; [by left|].
    apply list_elem_of_singleton in Hname as ->. by right. }
  set (mapping := rename4markdown fname_col).
  assert (Hlabel : ∀ old new,
            (old, new) ∈ [("last_mn", "measures"); ("label_count", "labels");
                          ("harmony_version", "standard")] →
            (∃ found, columns_labelled mapping (columns concatenated) new = Ok found)
            ↔ old ∈ columns concatenated ∨ new ∈ columns concatenated).
  { intros old new Hpair. rewrite columns_labelled_Ok. split.
    - intros (c & Hc & Hr). apply (renamed_label fname_col old new c Hname Hpair) in Hr.
      destruct Hr as [->| ->]; [by left|by right].
    - intros [Hc|Hc]; [exists old|exists new]; (split; [done|]);
        apply (renamed_label fname_col old new _ Hname Hpair); [by left|by right]. }
  assert (Hfile : ∃ found,
            columns_labelled mapping (columns concatenated) "file_name" = Ok found).
  { apply columns_labelled_Ok. exists fname_col. split; [done|].
    unfold mapping, rename4markdown. rewrite renamed_cons. by rewrite decide_True. }
  destruct Hfile as [f0 Hf0].
  assert (Hmiss : ∀ old new e,
            (old, new) ∈ [("last_mn", "measures"); ("label_count", "labels");
                          ("harmony_version", "standard")] →
            columns_labelled mapping (columns concatenated) new = Raise e →
            (old ∉ columns concatenated) ∧ (new ∉ columns concatenated) ∧ e = KeyError new).
  { intros old new e Hpair Hr.
    assert (¬ (old ∈ columns concatenated ∨ new ∈ columns concatenated)) as Hno.
    { intros Hyes. apply (Hlabel old new Hpair) in Hyes as [found Hfound]. congruence. }
    split; [by intros ?; apply Hno; left|]. split; [by intros ?; apply Hno; right|].
    by apply columns_labelled_Raise in Hr. }
  unfold select_renamed.
  change (mapping.*2) with ["file_name"; "measures"; "labels"; "standard"].
  cbn [traverse]. rewrite Hf0.
  destruct (columns_labelled mapping (columns concatenated) "measures") as [f1|e1] eqn:H1.
  2:{ cbn [mbind result_bind]. right. split; [done|]. exists "last_mn", "measures".
      split; [left|]. apply (Hmiss "last_mn" "measures" e1); [left|done]. }
  destruct (columns_labelled mapping (columns concatenated) "labels") as [f2|e2] eqn:H2.
  2:{ cbn [mbind result_bind]. right. split; [done|]. exists "label_count", "labels".
      split; [right; left|]. apply (Hmiss "label_count" "labels" e2); [right; left|done]. }
  destruct (columns_labelled mapping (columns concatenated) "standard") as [f3|e3] eqn:H3.
  2:{ cbn [mbind result_bind]. right. split; [done|]. exists "harmony_version", "standard".
      split; [right; right; left|].
      apply (Hmiss "harmony_version" "standard" e3); [right; right; left|done]. }
  cbn [mbind result_bind]. split; [done|]. split.
  - intros old new Hpair. apply (Hlabel old new Hpair).
    repeat (apply elem_of_cons in Hpair as [[= -> ->]|Hpair]); [by eexists..|].
    by apply elem_of_nil in Hpair.
  - match goal with
    | |- context [foldl ?f "## Overview" ?groups] =>
        destruct (overview_head
                    (λ g : string * list (list (cell float) * row),
                       NL +:+ "### " +:+ g.1 +:+ NL +:+ NL
                       +:+ markdown_table (mjoin [f0; f1; f2; f3]).*1
                             ((λ lr : list (cell float) * row,
                                 (λ c, fillna_empty float float_isnan (cell_at lr.2 c))
                                   <$> (mjoin [f0; f1; f2; f3]).*2)
                                <$> g.2))
                    groups "## Overview") as (rest & Hrest & Hshape);
        assert (foldl f "## Overview" groups = "## Overview" +:+ rest) as ->
    end.
    { rewrite <- Hrest. clear. generalize "## Overview".
      induction (groupby_level0 float concatenated) as [|[name group] groups IH];
        intros start; [done|].
      cbn [foldl fst snd]. rewrite <- IH. f_equal. by rewrite !append_assoc. }
    destruct Hshape as [->|[r ->]]; [left; by rewrite append_nil_r|right; by exists r].
Qed.

(** X15: what [metadata2markdown] does, by the columns of the table: without a
    column 'fname' or 'fnames' it raises its ValueError; with one, it
    raises a KeyError when the table has neither 'last_mn' nor 'measures',
    neither 'label_count' nor 'labels', or neither 'harmony_version' nor
    'standard'; otherwise it returns a text whose first line is the
    heading '## Overview': that line alone, or that line, a line end and
    the sections. *)
Theorem metadata2markdown_outcome (concatenated : frame) :
  let cols := columns concatenated in
  let has_fname := "fname" ∈ cols ∨ "fnames" ∈ cols in
  let complete :=
    ∀ old new,
      (old, new) ∈ [("last_mn", "measures"); ("label_count", "labels");
                    ("harmony_version", "standard")] →
      old ∈ cols ∨ new ∈ cols in
  match metadata2markdown float float_isnan markdown_table concatenated with
  | Ok md_str =>
      has_fname ∧ complete ∧
      (md_str = "## Overview" ∨ ∃ rest, md_str = "## Overview" +:+ NL +:+ rest)
  | Raise e =>
      (¬ has_fname ∧ e = ValueError FNAME_MESSAGE) ∨
      (has_fname ∧
       ∃ old new,
         (old, new) ∈ [("last_mn", "measures"); ("label_count", "labels");
                       ("harmony_version", "standard")] ∧
         (old ∉ cols) ∧ (new ∉ cols) ∧ e = KeyError new)
  end.
Proof. apply metadata2markdown_cases. Qed.

Local Abbreviation write_tsv' :=
  (write_tsv float float_isnan astype_boolean to_csv py_repr repr_types).
Local Abbreviation main' :=
  (main float float_isnan py_int parse_tsv astype_boolean to_csv markdown_table py_repr
     repr_types).

(** The run of [write_tsv] on an object of the store. *)
Lemma write_tsv_run (w : world) (l : nat) (d : frame) (tsv_path : string) :
  heap float w !! l = Some d →
  ∃ (w' : world) (res : result unit),
    write_tsv' l tsv_path w = (w', res) ∧
    dirs float w' = dirs float w ∧
    (∀ l0 d0, heap float w !! l0 = Some d0 → heap float w' !! l0 = Some d0) ∧
    match res with
    | Ok _ =>
        ∃ d' : frame,
          files float w' = <[tsv_path := to_csv d']> (files float w) ∧
          columns d' = columns d ∧
          index_names d' = index_names d ∧
          (rows d').*1 = (rows d).*1 ∧
          (∀ c, c ≠ "has_drumset" → column_values float d' c = column_values float d c) ∧
          ("has_drumset" ∉ columns d
           ∨ forallb (isna float float_isnan) (column_values float d "has_drumset") = true →
           column_values float d' "has_drumset" = column_values float d "has_drumset") ∧
          ("has_drumset" ∈ columns d →
           forallb (isna float float_isnan) (column_values float d "has_drumset") = false →
           Forall (λ v : cell float, v = CNA ∨ v = CInt 0 ∨ v = CInt 1)
                  (column_values float d' "has_drumset"))
    | Raise e =>
        e = TypeError ∧
        files float w' = files float w ∧
        "has_drumset" ∈ columns d ∧
        astype_boolean (column_values float d "has_drumset") = None
    end.
Proof.
  intros Hl.
  destruct (convert_booleans_outcome float float_isnan astype_boolean py_repr repr_types
              w l d BOOLEAN_COLUMNS Hl)
    as (w1 & res & Hrun & Hdirs & Hfiles & Hheap & Hres).
  { apply NoDup_singleton. }
  unfold write_tsv, mbind, M_bind, bind. rewrite Hrun.
  destruct res as [[l'|]|e]; [|done|].
  - destruct Hres as (d' & Hd' & Hcols & Hnames & Hlabels & Hcells).
    unfold deref. rewrite Hd'. cbn [write_file print].
    eexists _, _. split; [done|]. cbn [dirs heap files]. split; [done|].
    split; [done|]. exists d'. rewrite Hfiles. split; [done|].
    split; [done|]. split; [done|]. split; [done|]. split; [|split].
    + intros c Hc. apply (Hcells c). left. unfold BOOLEAN_COLUMNS.
      by intros ?%list_elem_of_singleton.
    + intros [Hno|Hna]; apply (Hcells "has_drumset"); [right; by left|right; by right].
    + intros Hin Hvalue. apply (Hcells "has_drumset"); [left|done..].
  - destruct Hres as (-> & c & Hc & Hin & _ & Hnone).
    apply list_elem_of_singleton in Hc as ->.
    exists w1, (Raise TypeError). by rewrite Hfiles.
Qed.

(** X18: [write_tsv] writes the text of a converted copy: the file holds
    [to_csv] of a table with the labels and the cells of the one given,
    but for the column 'has_drumset', which, when it has a value, holds 0, 1
    or the missing value.  No other file changes, the table given and all
    other objects are as before, and when the conversion raises its
    TypeError no file changes at all. *)
Theorem write_tsv_writes_converted (w : world) (l : nat) (d : frame) (tsv_path : string) :
  heap float w !! l = Some d →
  ∃ (w' : world) (res : result unit),
    write_tsv' l tsv_path w = (w', res) ∧
    dirs float w' = dirs float w ∧
    (∀ l0 d0, heap float w !! l0 = Some d0 → heap float w' !! l0 = Some d0) ∧
    match res with
    | Ok _ =>
        ∃ d' : frame,
          files float w' = <[tsv_path := to_csv d']> (files float w) ∧
          columns d' = columns d ∧
          index_names d' = index_names d ∧
          (rows d').*1 = (rows d).*1 ∧
          (∀ c, c ≠ "has_drumset" → column_values float d' c = column_values float d c) ∧
          ("has_drumset" ∉ columns d
           ∨ forallb (isna float float_isnan) (column_values float d "has_drumset") = true →
           column_values float d' "has_drumset" = column_values float d "has_drumset") ∧
          ("has_drumset" ∈ columns d →
           forallb (isna float float_isnan) (column_values float d "has_drumset") = false →
           Forall (λ v : cell float, v = CNA ∨ v = CInt 0 ∨ v = CInt 1)
                  (column_values float d' "has_drumset"))
    | Raise e =>
        e = TypeError ∧
        files float w' = files float w ∧
        "has_drumset" ∈ columns d ∧
        astype_boolean (column_values float d "has_drumset") = None
    end.
Proof. apply write_tsv_run. Qed.

(** X19: whatever the directory holds, a run of [main] changes no file other
    than concatenated_metadata.tsv and README.md in the output directory,
    no directory and no object that existed before; and a run that raises
    has not touched README.md. *)
Theorem main_frame (args : Args) (w : world) :
  ∃ (w' : world) (res : result unit),
    main' args w = (w', res) ∧
    dirs float w' = dirs float w ∧
    (∀ p, p ≠ os_path_join (out args) "concatenated_metadata.tsv" →
          p ≠ os_path_join (out args) "README.md" →
          files float w' !! p = files float w !! p) ∧
    (∀ l d, heap float w !! l = Some d → heap float w' !! l = Some d) ∧
    (∀ e, res = Raise e →
          files float w' !! os_path_join (out args) "README.md"
          = files float w !! os_path_join (out args) "README.md").
Proof.
  destruct (concat_metadata float py_int parse_tsv w (dir args)) as [table|e] eqn:Hc.
  2:{ exists w, (Raise e). split; [|done].
      by apply (main_raise float float_isnan py_int parse_tsv astype_boolean to_csv
                  markdown_table py_repr repr_types). }
  assert (Hfresh : ∀ l d, heap float w !! l = Some d → l ≠ fresh (dom (heap float w))).
  { intros l d Hl ->. apply (is_fresh (dom (heap float w))). by eapply elem_of_dom_2. }
  destruct (decide (rows table = [])) as [Hrows|Hrows].
  { eexists _, _. split.
    - by apply (main_empty float float_isnan py_int parse_tsv astype_boolean to_csv
                  markdown_table py_repr repr_types).
    - cbn [dirs files heap]. split; [done|]. split; [done|]. split; [|done].
      intros l d Hl. rewrite lookup_insert_ne; [done|]. intros Heq.
      by apply (Hfresh l d Hl). }
  rewrite (main_rows float float_isnan py_int parse_tsv astype_boolean to_csv
             markdown_table py_repr repr_types args w table Hc Hrows). cbn zeta.
  set (concatenated := fresh (dom (heap float w))).
  set (w1 := mkWorld float _ _ _ _).
  set (tsv_path := os_path_join (out args) "concatenated_metadata.tsv").
  set (md_path := os_path_join (out args) "README.md").
  assert (Hne : md_path ≠ tsv_path) by apply readme_is_not_the_table.
  assert (Hobj : heap float w1 !! concatenated = Some table)
    by apply lookup_insert_eq.
  assert (Hold : ∀ l d, heap float w !! l = Some d → heap float w1 !! l = Some d).
  { intros l d Hl. unfold w1. cbn [heap]. rewrite lookup_insert_ne; [done|].
    intros Heq. by apply (Hfresh l d Hl). }
  destruct (write_tsv_run w1 concatenated table tsv_path Hobj)
    as (w2 & res & -> & Hdirs & Hheap & Hres).
  destruct res as [[]|e].
  - destruct Hres as (d' & Hfiles & _). rewrite (Hheap _ _ Hobj).
    destruct (metadata2markdown float float_isnan markdown_table table) as [md_str|e].
    + rewrite (write_md_run float). eexists _, _. split; [done|].
      cbn [dirs files heap]. split; [done|]. split; [|split; [|done]].
      * intros p Hp1 Hp2. by rewrite lookup_insert_ne, Hfiles, lookup_insert_ne.
      * intros l d Hl. by apply Hheap, Hold.
    + exists w2, (Raise e). split; [done|]. split; [done|]. split; [|split].
      * intros p Hp1 Hp2. by rewrite Hfiles, lookup_insert_ne.
      * intros l d Hl. by apply Hheap, Hold.
      * intros _ _. by rewrite Hfiles, lookup_insert_ne.
  - destruct Hres as (_ & Hfiles & _). exists w2, (Raise e). split; [done|].
    split; [done|]. rewrite Hfiles. split; [done|]. split; [|done].
    intros l d Hl. by apply Hheap, Hold.
Qed.

Local Abbreviation concat_metadata' := (concat_metadata float py_int parse_tsv).
Local Abbreviation read_csv' := (read_csv float py_int parse_tsv).

Lemma traverse_Ok {A B} (f : A → result B) (l : list A) (ys : list B) :
  traverse f l = Ok ys → Forall2 (λ x y, f x = Ok y) l ys.
Proof.
  revert ys. induction l as [|x l IH]; intros ys; simpl; [intros [= <-]; constructor|].
  destruct (f x) as [y|] eqn:Hx; [|done].
  destruct (traverse f l) as [zs|]; [|done]. intros [= <-]. constructor; [done|].
  by apply IH.
Qed.

(** [read_csv] labels every row with one integer. *)
Lemma read_csv_labels (w : world) (tsv_path : string) (df : frame) :
  read_csv' w tsv_path = Ok df →
  Forall (λ lr : list (cell float) * row, ∃ i, lr.1 = [CInt i]) (rows df).
Proof.
  unfold read_csv. destruct (files float w !! tsv_path); [|done].
  destruct (parse_tsv _) as [[header lines]|]; [|done]. intros [= <-]. cbn [rows].
  apply Forall_forall. intros lr [i [fields [-> _]]]%elem_of_lookup_imap. by eexists.
Qed.

(** [read_csv] raises for a file that is missing or that the parser
    refuses. *)
Lemma read_csv_Raise (w : world) (tsv_path : string) (e : exn) :
  read_csv' w tsv_path = Raise e →
  (e = FileNotFoundError ∧ files float w !! tsv_path = None) ∨
  (e = ParserError ∧
   ∃ content, files float w !! tsv_path = Some content ∧ parse_tsv content = None).
Proof.
  unfold read_csv. destruct (files float w !! tsv_path) as [content|]; [|intros [= <-]; by left].
  destruct (parse_tsv content) as [[header lines]|] eqn:Hparse; [done|].
  intros [= <-]. right. split; [done|]. by exists content.
Qed.

Lemma set_column_labels (d : frame) (c : string) (values : list (cell float)) :
  length values = length (rows d) →
  (rows (set_column float d c values)).*1 = (rows d).*1 ∧
  columns (set_column float d c values) = columns d ∧
  index_names (set_column float d c values) = index_names d.
Proof.
  intros Hlen. split; [|done]. cbn [set_column rows]. revert values Hlen.
  induction (rows d) as [|lr rs IH]; intros [|v vs] Hlen; try done.
  injection Hlen as Hlen. cbn [zip_with fmap list_fmap]. f_equal. by apply IH.
Qed.

(** The exceptions of lines 66-77, and what they leave of the index and the
    columns when there is none. *)
Lemma prefix_paths_outcome (concatenated : frame) :
  match prefix_paths float concatenated with
  | Ok agg =>
      columns agg = columns concatenated ∧
      index_names agg
      = Some "corpus"
        :: drop 1 (take 1 (index_names concatenated) ++ drop 2 (index_names concatenated)) ∧
      (rows agg).*1
      = (λ labels, take 1 labels ++ drop 2 labels) <$> (rows concatenated).*1
  | Raise e => e = ValueError SUBDIRECTORY_MESSAGE ∨ e = TypeError
  end.
Proof.
  unfold prefix_paths. destruct (first_present _ _) as [col|]; [|by left].
  destruct (traverse (join_corpus float col) (rows concatenated)) as [paths|e] eqn:H1.
  2:{ cbn [mbind result_bind]. right.
      apply traverse_Raise in H1 as (lr & _ & Hlr). by apply join_corpus_Raise in Hlr. }
  cbn [mbind result_bind]. apply traverse_length in H1.
  destruct (set_column_labels concatenated col paths H1) as (Hl1 & Hc1 & Hi1).
  set (d1 := set_column float concatenated col paths) in *.
  assert (Hdrop : ∀ d : frame,
            (rows d).*1 = (rows concatenated).*1 →
            (rows (rename_index float "corpus" (droplevel1 float d))).*1
            = (λ labels, take 1 labels ++ drop 2 labels) <$> (rows concatenated).*1).
  { intros d <-. cbn [rename_index droplevel1 rows].
    rewrite <- !list_fmap_compose. done. }
  case_bool_decide as Hrel; cbn [mbind result_bind].
  - destruct (traverse (join_corpus float "rel_path") (rows d1)) as [paths2|e] eqn:H2.
    2:{ cbn [mbind result_bind]. right.
        apply traverse_Raise in H2 as (lr & _ & Hlr). by apply join_corpus_Raise in Hlr. }
    cbn [mbind result_bind]. apply traverse_length in H2.
    destruct (set_column_labels d1 "rel_path" paths2 H2) as (Hl2 & Hc2 & Hi2).
    split; [by rewrite <- Hc1|]. split.
    + cbn [rename_index droplevel1 index_names]. by rewrite Hi2, Hi1.
    + apply Hdrop. by rewrite Hl2.
  - split; [done|]. split.
    + cbn [rename_index droplevel1 index_names]. by rewrite Hi1.
    + by apply Hdrop.
Qed.

(** X13: where the exceptions of [concat_metadata] that come from the file
    system arise.  StopIteration is raised exactly when [path] is no
    directory ([os.walk] then yields nothing); a FileNotFoundError is never
    raised, because only the files that [os.path.isfile] finds are read; and
    a ParserError comes from a metadata.tsv of one of the subdirectories
    that pandas does not parse. *)
Theorem concat_metadata_errors (w : world) (path : string) :
  (concat_metadata' w path = Raise StopIteration ↔ dirs float w !! path = None) ∧
  concat_metadata' w path ≠ Raise FileNotFoundError ∧
  (concat_metadata' w path = Raise ParserError →
   ∃ folders subdir content,
     dirs float w !! path = Some folders ∧ subdir ∈ folders ∧
     files float w !! os_path_join (os_path_join path subdir) "metadata.tsv"
     = Some content ∧
     parse_tsv content = None).
Proof.
  unfold concat_metadata.
  destruct (dirs float w !! path) as [folders|] eqn:Hdir.
  2:{ unfold metadata_paths. rewrite Hdir. cbn [mbind result_bind].
      repeat split; done. }
  destruct (metadata_paths_found w path folders Hdir) as (found & -> & _ & Hfound & _).
  cbn [mbind result_bind]. case_bool_decide; [repeat split; done|].
  destruct (traverse (read_csv' w) found.*1) as [dfs|e'] eqn:Hread; cbn [mbind result_bind].
  - pose proof (prefix_paths_outcome (pd_concat float found.*2 dfs)) as Hout.
    destruct (prefix_paths float (pd_concat float found.*2 dfs)) as [agg|e] eqn:Hprefix.
    { repeat split; done. }
    destruct Hout as [->| ->]; repeat split; done.
  - apply traverse_Raise in Hread as (p & Hp & Hraise).
    apply list_elem_of_fmap in Hp as ([p' subdir] & -> & Hin). cbn [fst] in Hraise.
    apply Hfound in Hin as (Hsub & -> & Hfile).
    apply read_csv_Raise in Hraise as [[_ Hnone]|[-> (content & Hcontent & Hparse)]].
    + rewrite Hnone in Hfile. by destruct Hfile.
    + repeat split; try done. intros _. by exists folders, subdir, content.
Qed.

(** Blocks of equal keys in the order of sorted keys are sorted. *)
Lemma sorted_blocks {A} (keys : list string) (dfs : list A) (size : A → nat) :
  StronglySorted String.le keys →
  StronglySorted String.le (mjoin (zip_with (λ key df, replicate (size df) key) keys dfs)) ∧
  ∀ k, k ∈ mjoin (zip_with (λ key df, replicate (size df) key) keys dfs) → k ∈ keys.
Proof.
  intros Hsorted. revert dfs.
  induction Hsorted as [|key keys _ IH Hkey]; intros [|df dfs];
    try (split; [constructor|by intros ? ?%elem_of_nil]).
  destruct (IH dfs) as [IHs IHin]. cbn [zip_with mjoin list_join]. split.
  - apply StronglySorted_app_2; [| |done].
    + intros x y ->%elem_of_replicate_inv Hy. apply IHin in Hy.
      by eapply Forall_forall in Hkey.
    + clear. induction (size df) as [|n IHn]; [constructor|].
      constructor; [done|]. apply Forall_forall. intros y ->%elem_of_replicate_inv. done.
  - intros k [->%elem_of_replicate_inv|Hk]%elem_of_app; [left|right; by apply IHin].
Qed.

(** The labels of the rows of the concatenated table before the second
    index level is dropped, for tables with one label per row. *)
Lemma labels_pd_concat (keys : list string) (dfs : list frame) :
  Forall (λ df : frame, Forall (λ lr : list (cell float) * row, ∃ i, lr.1 = [CInt i]) (rows df))
         dfs →
  (λ labels : list (cell float), take 1 labels ++ drop 2 labels)
    <$> (rows (pd_concat float keys dfs)).*1
  = (λ key, [CStr key])
      <$> mjoin (zip_with (λ key (df : frame), replicate (length (rows df)) key) keys dfs).
Proof.
  intros Hdfs. unfold pd_concat. cbn [rows]. revert keys.
  induction Hdfs as [|df dfs Hdf _ IH]; intros [|key keys]; try done.
  cbn [zip_with mjoin list_join]. rewrite !fmap_app, IH. f_equal.
  clear IH. induction Hdf as [|lr rs [i Hi] _ IHrs]; [done|].
  cbn [fmap list_fmap length replicate]. rewrite <- IHrs. f_equal.
  cbn [fst]. by rewrite Hi.
Qed.

(** X14: every row of the aggregated table carries one label, the name of the
    subdirectory whose metadata.tsv it comes from; the rows are in the
    sorted order of these names, and the index, when the table has rows, has
    one level, called 'corpus'. *)
Theorem concat_metadata_labels (w : world) (path : string) (agg : frame) :
  concat_metadata' w path = Ok agg →
  ∃ folders,
    dirs float w !! path = Some folders ∧
    Forall (λ lr : list (cell float) * row,
              ∃ subdir,
                lr.1 = [CStr subdir] ∧ subdir ∈ folders ∧
                is_Some (files float w
                           !! os_path_join (os_path_join path subdir) "metadata.tsv"))
           (rows agg) ∧
    StronglySorted String.le (level0 float <$> rows agg) ∧
    (rows agg ≠ [] → index_names agg = [Some "corpus"]).
Proof.
  unfold concat_metadata.
  destruct (dirs float w !! path) as [folders|] eqn:Hdir.
  2:{ unfold metadata_paths. by rewrite Hdir. }
  destruct (metadata_paths_found w path folders Hdir) as (found & -> & Hsorted & Hfound & _).
  cbn [mbind result_bind].
  case_bool_decide.
  { intros [= <-]. exists folders. split; [done|]. cbn [rows fmap list_fmap].
    split; [constructor|]. split; [constructor|done]. }
  destruct (traverse (read_csv' w) found.*1) as [dfs|e'] eqn:Hread; cbn [mbind result_bind];
    [|done].
  intros Hagg. exists folders. split; [done|]. pose proof (prefix_paths_outcome (pd_concat float found.*2 dfs)) as Hout.
  rewrite Hagg in Hout. destruct Hout as (_ & Hnames & Hlabels).
  assert (Hdfs : Forall (λ df : frame,
                   Forall (λ lr : list (cell float) * row, ∃ i, lr.1 = [CInt i]) (rows df))
                 dfs).
  { apply traverse_Ok in Hread. apply Forall_forall. intros df Hdf.
    apply list_elem_of_lookup in Hdf as [i Hi].
    destruct (Forall2_lookup_r _ _ _ _ _ Hread Hi) as (p & _ & Hp).
    by eapply read_csv_labels. }
  rewrite (labels_pd_concat _ _ Hdfs) in Hlabels.
  destruct (sorted_blocks found.*2 dfs (λ df : frame, length (rows df)) Hsorted)
    as [Hblocks Hin].
  set (keys := mjoin _) in *.
  split; [|split].
  - apply Forall_forall. intros lr Hlr.
    assert (lr.1 ∈ (rows agg).*1) as Hlabel by (by apply list_elem_of_fmap_2).
    rewrite Hlabels in Hlabel. apply list_elem_of_fmap in Hlabel as (key & Hkey & Hk).
    exists key. split; [done|]. apply Hin in Hk.
    apply list_elem_of_fmap in Hk as ([p subdir] & -> & Hp).
    apply Hfound in Hp as (? & -> & ?). done.
  - assert (level0 float <$> rows agg = keys) as ->; [|done].
    transitivity ((λ labels : list (cell float), default "" (head labels ≫= as_str))
                    <$> (rows agg).*1).
    { by rewrite <- list_fmap_compose. }
    rewrite Hlabels, <- list_fmap_compose. apply list_fmap_id.
  - intros _. by rewrite Hnames.
Qed.

(** [concat_metadata] reads the directories and the files metadata.tsv of
    the subdirectories, and nothing else. *)
Lemma concat_metadata_ext (w w' : world) (path : string) :
  dirs float w' = dirs float w →
  (∀ subdir,
     files float w' !! os_path_join (os_path_join path subdir) "metadata.tsv"
     = files float w !! os_path_join (os_path_join path subdir) "metadata.tsv") →
  concat_metadata' w' path = concat_metadata' w path.
Proof.
  intros Hdirs Hfiles.
  assert (Hpaths : metadata_paths float w' path = metadata_paths float w path).
  { unfold metadata_paths. rewrite Hdirs.
    destruct (dirs float w !! path) as [folders|]; [|done]. f_equal.
    induction (sorted folders) as [|subdir l IH]; [done|].
    rewrite fmap_cons, !filter_cons, IH. cbn [fst]. rewrite Hfiles.
    by destruct (decide (is_Some _)). }
  unfold concat_metadata. rewrite Hpaths.
  destruct (metadata_paths float w path) as [found|] eqn:Hfound; [|done].
  cbn [mbind result_bind]. case_bool_decide as Hlen; [done|]. clear Hlen.
  assert (Hread : traverse (read_csv' w') found.*1 = traverse (read_csv' w) found.*1);
    [|by rewrite Hread].
  assert (Hall : Forall (λ p, ∃ subdir,
                    p = os_path_join (os_path_join path subdir) "metadata.tsv") found.*1).
  { unfold metadata_paths in Hfound.
    destruct (dirs float w !! path) as [folders|]; [|done]. injection Hfound as <-.
    apply Forall_forall. intros p [[p' subdir] [-> Hin]]%list_elem_of_fmap.
    apply list_elem_of_filter in Hin as [_ Hin].
    apply list_elem_of_fmap in Hin as (s & [= -> ->] & _). by exists s. }
  clear Hfound Hpaths. induction Hall as [|p ps [subdir ->] _ IH]; [done|].
  cbn [traverse]. rewrite IH. unfold read_csv at 1 3. by rewrite Hfiles.
Qed.

(** The table whose text [write_tsv] writes: the table given, its column
    'has_drumset' re-encoded when it is there and has a value. *)
Local Abbreviation written_table d :=
  (if bool_decide ("has_drumset" ∈ columns d) then
     if forallb (isna float float_isnan) (column_values float d "has_drumset") then Some d
     else (λ booleans,
             assign_column float d "has_drumset" (astype_Int64 float <$> booleans))
            <$> astype_boolean (column_values float d "has_drumset")
   else Some d).

Lemma write_tsv_eval (w : world) (l : nat) (d : frame) (tsv_path : string) :
  heap float w !! l = Some d →
  ∃ w' : world,
    write_tsv' l tsv_path w
    = (w', match written_table d with Some _ => Ok tt | None => Raise TypeError end) ∧
    files float w'
    = match written_table d with
      | Some d' => <[tsv_path := to_csv d']> (files float w)
      | None => files float w
      end ∧
    dirs float w' = dirs float w ∧
    ∀ l0 d0, heap float w !! l0 = Some d0 → heap float w' !! l0 = Some d0.
Proof.
  intros Hl.
  assert (Hfresh : ∀ l0 d0, heap float w !! l0 = Some d0 → l0 ≠ fresh (dom (heap float w))).
  { intros l0 d0 Hl0 ->. apply (is_fresh (dom (heap float w))). by eapply elem_of_dom_2. }
  unfold write_tsv, convert_booleans, mbind, M_bind, bind, deref. rewrite Hl.
  unfold BOOLEAN_COLUMNS. rewrite filter_cons, filter_nil.
  destruct (decide ("has_drumset" ∈ columns d)) as [Hin|Hno].
  - rewrite (bool_decide_eq_true_2 _ Hin).
    rewrite bool_decide_eq_false_2 by done.
    unfold alloc. cbn [convert_columns]. unfold mbind, M_bind, bind, deref.
    cbn [heap]. rewrite lookup_insert_eq.
    destruct (forallb _ _) eqn:Hna.
    + unfold ret. cbn [heap]. rewrite lookup_insert_eq.
      eexists. split; [done|]. cbn [files dirs heap]. split; [done|]. split; [done|].
      intros l0 d0 Hl0. rewrite lookup_insert_ne; [done|]. intros Heq.
      by apply (Hfresh l0 d0 Hl0).
    + destruct (astype_boolean _) as [booleans|] eqn:Hbool.
      * unfold store, print, ret. cbn [heap fmap option_fmap option_map].
        rewrite lookup_insert_eq.
        eexists. split; [done|]. cbn [files dirs heap]. split; [done|]. split; [done|].
        intros l0 d0 Hl0. rewrite !lookup_insert_ne; [done|..]; intros Heq;
          by apply (Hfresh l0 d0 Hl0).
      * unfold print, raise. cbn [fmap option_fmap option_map].
        eexists. split; [done|]. cbn [files dirs heap]. split; [done|]. split; [done|].
        intros l0 d0 Hl0. rewrite lookup_insert_ne; [done|]. intros Heq.
        by apply (Hfresh l0 d0 Hl0).
  - rewrite (bool_decide_eq_false_2 _ Hno).
    rewrite bool_decide_eq_true_2 by done. unfold ret. rewrite Hl.
    eexists. split; [done|]. cbn [files dirs heap]. done.
Qed.

(** X21: running the script a second time changes nothing: after a run of
    [main] that succeeds, another run on what it has left succeeds as well
    and leaves every file, the table and the README included, and every
    directory as they are. *)
Theorem main_twice (args : Args) (w w1 : world) :
  main' args w = (w1, Ok tt) →
  ∃ w2 : world,
    main' args w1 = (w2, Ok tt) ∧
    files float w2 = files float w1 ∧
    dirs float w2 = dirs float w1.
Proof.
  intros Hrun.
  destruct (concat_metadata' w (dir args)) as [table|e] eqn:Hc.
  2:{ rewrite (main_raise float float_isnan py_int parse_tsv astype_boolean to_csv
                 markdown_table py_repr repr_types args w e Hc) in Hrun. done. }
  destruct (decide (rows table = [])) as [Hrows|Hrows].
  { rewrite (main_empty float float_isnan py_int parse_tsv astype_boolean to_csv
               markdown_table py_repr repr_types args w table Hc Hrows) in Hrun.
    injection Hrun as <-.
    set (w1 := mkWorld float _ _ _ _).
    assert (Hc1 : concat_metadata' w1 (dir args) = Ok table)
      by (by rewrite <- Hc; apply concat_metadata_ext).
    rewrite (main_empty float float_isnan py_int parse_tsv astype_boolean to_csv
               markdown_table py_repr repr_types args w1 table Hc1 Hrows).
    by eexists. }
  rewrite (main_rows float float_isnan py_int parse_tsv astype_boolean to_csv
             markdown_table py_repr repr_types args w table Hc Hrows) in Hrun.
  cbn zeta in Hrun.
  set (tsv_path := os_path_join (out args) "concatenated_metadata.tsv") in *.
  set (md_path := os_path_join (out args) "README.md") in *.
  assert (Hne : md_path ≠ tsv_path) by apply readme_is_not_the_table.
  destruct (write_tsv_eval
              (mkWorld float (dirs float w) (files float w) (stdout float w)
                 (<[fresh (dom (heap float w)) := table]> (heap float w)))
              (fresh (dom (heap float w))) table tsv_path)
    as (wa & Hwrite & Hfiles & Hdirs & Hheap); [apply lookup_insert_eq|].
  rewrite Hwrite in Hrun.
  destruct (written_table table) as [table'|] eqn:Htable; [|done].
  rewrite (Hheap (fresh (dom (heap float w))) table) in Hrun by apply lookup_insert_eq.
  pose proof (metadata2markdown_cases table) as Hmd. cbn zeta in Hmd.
  destruct (metadata2markdown float float_isnan markdown_table table) as [md_str|e]
    eqn:Hmd1; [|done].
  destruct Hmd as (_ & _ & Hhead).
  assert (∃ m ms, readlines md_str = m :: ms ∧ Py.contains "# Overview" m = true)
    as (m & ms & Hlines & Hm).
  { destruct Hhead as [->|[rest ->]].
    - rewrite <- (append_nil_r "## Overview"). apply readlines_overview. by left.
    - apply readlines_overview. right. by exists rest. }
  rewrite (write_md_run float) in Hrun. injection Hrun as <-.
  cbn [files dirs] in *. rewrite Hfiles, Hdirs. rewrite lookup_insert_ne by done.
  set (content := write_lines _ +:+ md_str).
  set (files1 := <[md_path := content]> (<[tsv_path := to_csv table']> (files float w))).
  set (w1 := mkWorld float _ files1 _ _).
  assert (Hc1 : concat_metadata' w1 (dir args) = Ok table).
  { rewrite <- Hc. apply concat_metadata_ext; [done|]. intros subdir.
    destruct (metadata_path_is_no_output (dir args) subdir (out args)) as [Ht Hm'].
    unfold w1, files1. cbn [files]. by rewrite !lookup_insert_ne. }
  rewrite (main_rows float float_isnan py_int parse_tsv astype_boolean to_csv
             markdown_table py_repr repr_types args w1 table Hc1 Hrows).
  cbn zeta. fold tsv_path md_path.
  destruct (write_tsv_eval
              (mkWorld float (dirs float w1) (files float w1) (stdout float w1)
                 (<[fresh (dom (heap float w1)) := table]> (heap float w1)))
              (fresh (dom (heap float w1))) table tsv_path)
    as (wb & Hwrite2 & Hfiles2 & Hdirs2 & Hheap2); [apply lookup_insert_eq|].
  rewrite Hwrite2, Htable in *.
  rewrite (Hheap2 (fresh (dom (heap float w1))) table) by apply lookup_insert_eq.
  rewrite Hmd1, (write_md_run float).
  assert (Hsame : files float wb = files1).
  { rewrite Hfiles2. cbn [files]. apply insert_id.
    unfold files1. rewrite lookup_insert_ne by done. apply lookup_insert_eq. }
  eexists. split; [done|]. cbn [files dirs]. rewrite Hsame, Hdirs2. split; [|done].
  assert (Hold : files1 !! md_path = Some content) by apply lookup_insert_eq.
  rewrite Hold. apply insert_id. rewrite Hold. f_equal. symmetry.
  by apply (write_md_content_again (files float w !! md_path) md_str m ms).
Qed.

Lemma renamed_file_name (fname_col c : string) :
  fname_col ∈ ["fname"; "fnames"] →
  renamed (rename4markdown fname_col) c = "file_name" ↔ c = fname_col ∨ c = "file_name".
Proof.
  intros Hf. unfold rename4markdown. rewrite !renamed_cons, renamed_nil.
  repeat (apply elem_of_cons in Hf as [->|Hf]); [| |by apply elem_of_nil in Hf];
    repeat case_decide; subst; split; try done; try (by intros [?|?]); auto.
Qed.

(** The one column of a table that carries a label. *)
Lemma columns_labelled_one (mapping : list (string * string)) (cols : list string)
    (label c : string) :
  NoDup cols →
  c ∈ cols →
  (∀ x, x ∈ cols → renamed mapping x = label → x = c) →
  renamed mapping c = label →
  columns_labelled mapping cols label = Ok [(label, c)].
Proof.
  intros Hnd Hc Honly Hr. unfold columns_labelled.
  assert (filter (λ x, renamed mapping x = label) cols = [c]) as ->; [|done].
  clear -Hnd Hc Honly Hr. induction Hnd as [|x cols Hx Hnd IH]; [by apply elem_of_nil in Hc|].
  rewrite filter_cons. apply elem_of_cons in Hc as [<-|Hc].
  - rewrite decide_True by done. f_equal. apply UpdatePagesSpec.filter_none.
    intros y Hy Hry. assert (y = c) as -> by (apply Honly; [by right|done]). done.
  - destruct (decide (renamed mapping x = label)) as [Hrx|_].
    + assert (x = c) as -> by (apply Honly; [left|done]). done.
    + apply IH; [done|]. intros y Hy. apply Honly. by right.
Qed.

(** X16: for metadata with the columns of ms3 ('fname' or 'fnames', 'last_mn',
    'label_count', 'harmony_version', each once, and none called by the
    names they are given), the overview is the heading '## Overview'
    followed by one section per corpus, in the sorted order of the corpus
    names: the heading '### corpus' and the table of the four columns
    file_name, measures, labels and standard for the rows of that corpus, in
    their order, missing values shown as empty text. *)
Theorem metadata2markdown_sections (concatenated : frame) (fname_col : string) :
  first_present ["fname"; "fnames"] (columns concatenated) = Some fname_col →
  NoDup (columns concatenated) →
  "last_mn" ∈ columns concatenated →
  "label_count" ∈ columns concatenated →
  "harmony_version" ∈ columns concatenated →
  (∀ new, new ∈ ["file_name"; "measures"; "labels"; "standard"] →
          new ∉ columns concatenated) →
  metadata2markdown float float_isnan markdown_table concatenated
  = Ok ("## Overview"
        +:+ join_lines
              ((λ corpus_name,
                  NL +:+ NL +:+ "### " +:+ corpus_name +:+ NL +:+ NL
                  +:+ markdown_table ["file_name"; "measures"; "labels"; "standard"]
                        ((λ lr : list (cell float) * row,
                            (λ c, fillna_empty float float_isnan (cell_at lr.2 c))
                              <$> [fname_col; "last_mn"; "label_count"; "harmony_version"])
                           <$> filter (λ lr, level0 float lr = corpus_name)
                                 (rows concatenated)))
                 <$> sorted (remove_dups (level0 float <$> rows concatenated)))).
Proof.
  intros Hcol Hnd Hmn Hlc Hhv Hnew. unfold metadata2markdown. rewrite Hcol.
  apply first_present_Some in Hcol as [Hname Hin].
  set (mapping := rename4markdown fname_col).
  assert (Hsel : ∀ old new,
            (old, new) ∈ [("last_mn", "measures"); ("label_count", "labels");
                          ("harmony_version", "standard")] →
            old ∈ columns concatenated →
            columns_labelled mapping (columns concatenated) new = Ok [(new, old)]).
  { intros old new Hpair Hold.
    assert (new ∉ columns concatenated) as Hno.
    { apply Hnew. repeat (apply elem_of_cons in Hpair as [[= -> ->]|Hpair]);
        [by_elem..|by apply elem_of_nil in Hpair]. }
    apply columns_labelled_one; [done|done| |].
    - intros x Hx [->| ->]%(renamed_label fname_col old new x Hname Hpair); done.
    - apply (renamed_label fname_col old new old Hname Hpair). by left. }
  assert (Hfile : columns_labelled mapping (columns concatenated) "file_name"
                  = Ok [("file_name", fname_col)]).
  { assert ("file_name" ∉ columns concatenated) as Hno by (apply Hnew; left).
    apply columns_labelled_one; [done|done| |].
    - intros x Hx [->| ->]%(renamed_file_name fname_col x Hname); done.
    - apply (renamed_file_name fname_col fname_col Hname). by left. }
  unfold select_renamed.
  change (mapping.*2) with ["file_name"; "measures"; "labels"; "standard"].
  cbn [traverse]. rewrite Hfile.
  rewrite (Hsel "last_mn" "measures") by (done || by_elem).
  rewrite (Hsel "label_count" "labels") by (done || by_elem).
  rewrite (Hsel "harmony_version" "standard") by (done || by_elem).
  cbn [mbind result_bind mjoin list_join app fmap list_fmap fst snd]. f_equal.
  unfold groupby_level0. generalize "## Overview".
  induction (sorted (remove_dups (level0 float <$> rows concatenated)))
    as [|name names IH]; intros start; [by rewrite append_nil_r|].
  cbn [fmap list_fmap foldl]. rewrite IH, join_lines_cons. cbn [fst snd].
  by rewrite !append_assoc.
Qed.

(** X20: what a successful run of [main] on metadata leaves: the file
    concatenated_metadata.tsv holds the text of a copy of the aggregated
    table that differs from it in the column 'has_drumset' at most, and
    README.md holds what it held before its overview line (or two line ends),
    followed by the overview of the aggregated table as it was loaded; the
    conversion of the booleans does not reach the overview. *)
Theorem main_outputs (args : Args) (w w' : world) (table : frame) :
  concat_metadata' w (dir args) = Ok table →
  rows table ≠ [] →
  main' args w = (w', Ok tt) →
  ∃ (table' : frame) (md_str : string),
    metadata2markdown float float_isnan markdown_table table = Ok md_str ∧
    files float w'
    = <[os_path_join (out args) "README.md" :=
          write_lines (match files float w !! os_path_join (out args) "README.md" with
                       | Some content => readlines content
                       | None => []
                       end) +:+ md_str]>
        (<[os_path_join (out args) "concatenated_metadata.tsv" := to_csv table']>
           (files float w)) ∧
    columns table' = columns table ∧
    index_names table' = index_names table ∧
    (rows table').*1 = (rows table).*1 ∧
    (∀ c, c ≠ "has_drumset" → column_values float table' c = column_values float table c).
Proof.
  intros Hc Hrows.
  rewrite (main_rows float float_isnan py_int parse_tsv astype_boolean to_csv
             markdown_table py_repr repr_types args w table Hc Hrows). cbn zeta.
  set (tsv_path := os_path_join (out args) "concatenated_metadata.tsv").
  set (md_path := os_path_join (out args) "README.md").
  assert (Hne : md_path ≠ tsv_path) by apply readme_is_not_the_table.
  destruct (write_tsv_run
              (mkWorld float (dirs float w) (files float w) (stdout float w)
                 (<[fresh (dom (heap float w)) := table]> (heap float w)))
              (fresh (dom (heap float w))) table tsv_path)
    as (wa & res & -> & _ & Hheap & Hres); [apply lookup_insert_eq|].
  destruct res as [[]|e]; [|done].
  destruct Hres as (table' & Hfiles & Hcols & Hnames & Hlabels & Hcells & _).
  rewrite (Hheap (fresh (dom (heap float w))) table) by apply lookup_insert_eq.
  destruct (metadata2markdown float float_isnan markdown_table table) as [md_str|e];
    [|done].
  rewrite (write_md_run float). intros [= <-]. exists table', md_str.
  cbn [files] in *. rewrite Hfiles. by rewrite lookup_insert_ne.
Qed.

End aggregator_more.

(** *** On the examples *)

Import UpdatePages (example_float).

Local Abbreviation example_concat_metadata :=
  (concat_metadata example_float example_int example_parse_tsv).
Local Abbreviation example_write_tsv :=
  (write_tsv example_float example_isnan example_astype_boolean example_to_csv
     example_repr example_repr_types).
Local Abbreviation example_main :=
  (main example_float example_isnan example_int example_parse_tsv example_astype_boolean
     example_to_csv example_markdown_table example_repr example_repr_types).

Lemma metadata_paths_sorted_witness :
  ∃ found : list (string * string),
    metadata_paths example_float example_world "/repo" = Ok found ∧
    StronglySorted String.le found.*2 ∧
    (∀ p subdir,
       (p, subdir) ∈ found
       ↔ subdir ∈ ["mozart"; "bach"; "docs"] ∧
         p = os_path_join (os_path_join "/repo" subdir) "metadata.tsv" ∧
         is_Some (files example_float example_world !! p)) ∧
    (NoDup ["mozart"; "bach"; "docs"] → NoDup found.*2).
Proof.
  apply (metadata_paths_sorted example_float example_world "/repo"
           ["mozart"; "bach"; "docs"]).
  by vm_compute.
Defined.

Lemma write_md_twice_witness :
  let w1 := (write_md example_float "## Overview (new)" "/repo/README.md" example_world).1 in
  let w2 := (write_md example_float "## Overview (new)" "/repo/README.md" w1).1 in
  files example_float w2 = files example_float w1 ∧
  dirs example_float w2 = dirs example_float example_world ∧
  heap example_float w2 = heap example_float example_world ∧
  stdout example_float w2 = stdout example_float w1 ++ ["Updated " +:+ "/repo/README.md"].
Proof.
  apply (write_md_twice example_float example_world "## Overview (new)" "/repo/README.md"
           "## Overview (new)" []).
  - by vm_compute.
  - by vm_compute.
Defined.

Lemma metadata2markdown_outcome_witness :
  metadata2markdown example_float example_isnan example_markdown_table
    example_table_without_fname
  = Raise (ValueError FNAME_MESSAGE).
Proof.
  pose proof (metadata2markdown_outcome example_float example_isnan example_markdown_table
                example_table_without_fname) as Hcases.
  cbn zeta in Hcases.
  destruct (metadata2markdown example_float example_isnan example_markdown_table
              example_table_without_fname) as [md_str|e].
  - destruct Hcases as [[Hf|Hf] _]; exfalso; revert Hf;
      apply (bool_decide_unpack _); vm_compute; exact I.
  - destruct Hcases as [[_ ->]|[[Hf|Hf] _]]; [done|exfalso..]; revert Hf;
      apply (bool_decide_unpack _); vm_compute; exact I.
Defined.

Lemma write_tsv_writes_converted_witness :
  ∃ (w' : world example_float) (res : result unit),
    example_write_tsv 0%nat "/out/concatenated_metadata.tsv" example_world_with_table
    = (w', res) ∧
    dirs example_float w' = dirs example_float example_world_with_table ∧
    heap example_float w' !! 0%nat = Some example_table_with_booleans.
Proof.
  destruct (write_tsv_writes_converted example_float example_isnan example_astype_boolean
              example_to_csv example_repr example_repr_types example_world_with_table
              0%nat example_table_with_booleans "/out/concatenated_metadata.tsv")
    as (w' & res & Hrun & Hdirs & Hheap & _).
  - by vm_compute.
  - exists w', res. split; [exact Hrun|]. split; [exact Hdirs|]. apply Hheap.
    by vm_compute.
Defined.

Lemma main_frame_witness :
  ∃ (w' : world example_float) (res : result unit),
    example_main example_args example_world = (w', res) ∧
    dirs example_float w' = dirs example_float example_world ∧
    files example_float w' !! "/repo/bach/metadata.tsv"
    = files example_float example_world !! "/repo/bach/metadata.tsv".
Proof.
  destruct (main_frame example_float example_isnan example_int example_parse_tsv
              example_astype_boolean example_to_csv example_markdown_table example_repr
              example_repr_types example_args example_world)
    as (w' & res & Hrun & Hdirs & Hfiles & _).
  exists w', res. split; [exact Hrun|]. split; [exact Hdirs|].
  apply Hfiles; by vm_compute.
Defined.

Lemma concat_metadata_errors_witness :
  (example_concat_metadata example_world "/nowhere" = Raise StopIteration
   ↔ dirs example_float example_world !! "/nowhere" = None) ∧
  example_concat_metadata example_world "/nowhere" ≠ Raise FileNotFoundError ∧
  (example_concat_metadata example_world "/nowhere" = Raise ParserError →
   ∃ folders subdir content,
     dirs example_float example_world !! "/nowhere" = Some folders ∧
     subdir ∈ folders ∧
     files example_float example_world
       !! os_path_join (os_path_join "/nowhere" subdir) "metadata.tsv"
     = Some content ∧
     example_parse_tsv content = None).
Proof.
  apply (concat_metadata_errors example_float example_int example_parse_tsv example_world
           "/nowhere").
Defined.

Lemma concat_metadata_labels_witness :
  ∃ (agg : DataFrame example_float) (folders : list string),
    example_concat_metadata example_world "/repo" = Ok agg ∧
    dirs example_float example_world !! "/repo" = Some folders ∧
    Forall (λ lr : list (cell example_float) * gmap string (cell example_float),
              ∃ subdir,
                lr.1 = [CStr subdir] ∧ subdir ∈ folders ∧
                is_Some (files example_float example_world
                           !! os_path_join (os_path_join "/repo" subdir) "metadata.tsv"))
           (rows agg) ∧
    StronglySorted String.le (level0 example_float <$> rows agg) ∧
    (rows agg ≠ [] → index_names agg = [Some "corpus"]).
Proof.
  destruct (example_concat_metadata example_world "/repo") as [agg|e] eqn:Hc;
    [|by vm_compute in Hc].
  destruct (concat_metadata_labels example_float example_int example_parse_tsv example_world
              "/repo" agg Hc) as (folders & Hrest).
  by exists agg, folders.
Defined.

Lemma main_twice_witness :
  ∃ w1 w2 : world example_float,
    example_main example_args example_world = (w1, Ok tt) ∧
    example_main example_args w1 = (w2, Ok tt) ∧
    files example_float w2 = files example_float w1 ∧
    dirs example_float w2 = dirs example_float w1.
Proof.
  assert (Hres : (example_main example_args example_world).2 = Ok tt) by (by vm_compute).
  destruct (example_main example_args example_world) as [w1 res] eqn:Hrun.
  cbn [snd] in Hres. subst res.
  destruct (main_twice example_float example_isnan example_int example_parse_tsv
              example_astype_boolean example_to_csv example_markdown_table example_repr
              example_repr_types example_args example_world w1 Hrun)
    as (w2 & Hrun2 & Hfiles & Hdirs).
  by exists w1, w2.
Defined.

Lemma metadata2markdown_sections_witness :
  ∃ md_str,
    metadata2markdown example_float example_isnan example_markdown_table
      (mkFrame ["fname"; "last_mn"; "label_count"; "harmony_version"] [Some "corpus"]
         [([CStr "b"],
           <["harmony_version" := CStr "2.3.0"]>
             (<["label_count" := CStr "7"]>
                (<["last_mn" := CStr "12"]> (<["fname" := CStr "x"]> ∅))));
          ([CStr "a"], <["last_mn" := CStr "30"]> (<["fname" := CStr "y"]> ∅))])
    = Ok md_str.
Proof.
  eexists.
  apply (metadata2markdown_sections example_float example_isnan example_markdown_table
           (mkFrame ["fname"; "last_mn"; "label_count"; "harmony_version"] [Some "corpus"]
              [([CStr "b"],
                <["harmony_version" := CStr "2.3.0"]>
                  (<["label_count" := CStr "7"]>
                     (<["last_mn" := CStr "12"]> (<["fname" := CStr "x"]> ∅))));
               ([CStr "a"], <["last_mn" := CStr "30"]> (<["fname" := CStr "y"]> ∅))])
           "fname").
  - reflexivity.
  - apply (bool_decide_unpack _). vm_compute. exact I.
  - apply (bool_decide_unpack _). vm_compute. exact I.
  - apply (bool_decide_unpack _). vm_compute. exact I.
  - apply (bool_decide_unpack _). vm_compute. exact I.
  - intros new Hnew.
    repeat (apply elem_of_cons in Hnew as [->|Hnew];
            [apply (bool_decide_unpack _); vm_compute; exact I|]).
    by apply elem_of_nil in Hnew.
Defined.

Lemma main_outputs_witness :
  ∃ (w' : world example_float) (table table' : DataFrame example_float) (md_str : string),
    example_main example_args example_world = (w', Ok tt) ∧
    example_concat_metadata example_world "/repo" = Ok table ∧
    metadata2markdown example_float example_isnan example_markdown_table table = Ok md_str ∧
    files example_float w' !! "/repo/concatenated_metadata.tsv"
    = Some (example_to_csv table') ∧
    columns table' = columns table.
Proof.
  assert (Hres : (example_main example_args example_world).2 = Ok tt) by (by vm_compute).
  destruct (example_main example_args example_world) as [w' res] eqn:Hrun.
  cbn [snd] in Hres. subst res.
  destruct (example_concat_metadata example_world "/repo") as [table|e] eqn:Hc;
    [|by vm_compute in Hc].
  assert (Hrows : rows table ≠ []).
  { intros Hnil. vm_compute in Hc. injection Hc as <-. discriminate Hnil. }
  destruct (main_outputs example_float example_isnan example_int example_parse_tsv
              example_astype_boolean example_to_csv example_markdown_table example_repr
              example_repr_types example_args example_world w' table Hc Hrows Hrun)
    as (table' & md_str & Hmd & Hfiles & Hcols & _).
  exists w', table, table', md_str. split; [done|]. split; [done|]. split; [done|].
  split; [|done]. rewrite Hfiles.
  rewrite lookup_insert_ne by (by vm_compute). apply lookup_insert_eq.
Defined.

End ConcatMetadataExtra.
